(** * Perfetto traced_probes: the resource watchdog and the probes producer

    A shallow embedding of
      - [src/base/watchdog_posix.cc]  (module [Watchdog]) and
      - [src/traced/probes/probes_producer.cc]  (module [Probes]),
    followed by the properties proved about them.

    Conventions.  Fixed-width unsigned integers are kept in [Z] with the
    wrap-around written out ([u32], [u64]); [size_t] indices into the ring
    are [nat] (they never exceed the length of the buffer); opaque 64-bit
    identifiers are [N].  A C++ [double] is a [spec_float] of the Standard
    Library at precision 53 and [emax] 1024.  A call that can kill the
    process, or whose behaviour C++ leaves undefined, returns an
    [outcome]. *)

From Stdlib Require Import ZArith QArith Qpower Qfield Lia.
From Stdlib Require Import Floats.SpecFloat.
From stdpp Require Import base decidable option list numbers strings gmap fin_maps.

Local Open Scope Z_scope.

(** ** Outcomes of a call *)

(** The sites at which the two translation units can terminate the
    process. *)
Inductive crash_site :=
  | CHECK_memory_window_multiple     (* watchdog_posix.cc:101 *)
  | CHECK_cpu_percentage             (* watchdog_posix.cc:111 *)
  | CHECK_cpu_window_multiple        (* watchdog_posix.cc:112 *)
  | CHECK_stat_parse                 (* watchdog_posix.cc:146 *)
  | KILL_memory_watchdog             (* watchdog_posix.cc:172 *)
  | KILL_cpu_watchdog                (* watchdog_posix.cc:197 *)
  | CHECK_session_id                 (* probes_producer.cc:362 *)
  | DCHECK_state                     (* probes_producer.cc:308,345,577,587 *)
  | DCHECK_instance_id_unused        (* probes_producer.cc:360 *)
  | DCHECK_flush_request_id.         (* probes_producer.cc:456 *)

Inductive outcome (A : Type) :=
  | Ok (a : A)
  | Fatal (site : crash_site)
  | Undefined.
Arguments Ok {A} a.
Arguments Fatal {A} site.
Arguments Undefined {A}.

#[global] Instance outcome_ret : MRet outcome := fun A a => Ok a.
#[global] Instance outcome_bind : MBind outcome := fun A B f x =>
  match x with
  | Ok a => f a
  | Fatal s => Fatal s
  | Undefined => Undefined
  end.

#[global] Instance outcome_fmap : FMap outcome := fun A B f x =>
  match x with
  | Ok a => Ok (f a)
  | Fatal s => Fatal s
  | Undefined => Undefined
  end.

(** [PERFETTO_CHECK(cond)]: fatal in every build. *)
Definition CHECK (site : crash_site) (cond : bool) : outcome unit :=
  if cond then Ok tt else Fatal site.

(** ** Fixed-width arithmetic and doubles *)

Definition u32 (z : Z) : Z := z mod 2 ^ 32.
Definition u64 (z : Z) : Z := z mod 2 ^ 64.

Definition is_u32 (z : Z) : Prop := 0 <= z < 2 ^ 32.
Definition is_u64 (z : Z) : Prop := 0 <= z < 2 ^ 64.

Definition double := spec_float.

(** Conversion of an integer to [double] (round to nearest, ties to even). *)
Definition double_of_Z (z : Z) : double := binary_normalize 53 1024 z 0 false.
Definition double_div (x y : double) : double := SFdiv 53 1024 x y.
Definition double_mul (x y : double) : double := SFmul 53 1024 x y.
(** [x > y] on doubles. *)
Definition double_gt (x y : double) : bool := SFltb y x.

(** The real number a finite double stands for. *)
Definition double_value (x : double) : option Q :=
  match x with
  | S754_zero _ => Some 0%Q
  | S754_finite s m e =>
      let v := (inject_Z (Z.pos m) * Qpower 2 e)%Q in
      Some (if s then Qopp v else v)
  | _ => None
  end.

Module Watchdog.

(** ** [Watchdog::WindowedInterval] *)

Record WindowedInterval := {
  filled_ : bool;
  position_ : nat;
  size_ : nat;
  buffer_ : list Z;
}.

(** Modelled from the spec: the member initialisers of [WindowedInterval]
    are in the header, which is not among the sources.  The spec has a ring
    of capacity zero when disabled and [filled] becoming true on the first
    wrap, so a new interval is empty and not filled. *)
Definition WindowedInterval_new : WindowedInterval :=
  {| filled_ := false; position_ := 0; size_ := 0; buffer_ := [] |}.

(** [Watchdog::WindowedInterval::Reset]: [filled_] is left as it is. *)
Definition Reset (w : WindowedInterval) (new_size : nat) : WindowedInterval :=
  {| filled_ := filled_ w;
     position_ := 0;
     size_ := new_size;
     buffer_ := replicate new_size 0 |}.

(** [Watchdog::WindowedInterval::Clear]. *)
Definition Clear (w : WindowedInterval) : WindowedInterval :=
  {| filled_ := filled_ w;
     position_ := 0;
     size_ := size_ w;
     buffer_ := replicate (size_ w) 0 |}.

(** [Watchdog::WindowedInterval::Push].  With [size_ = 0] the buffer is
    null and [% size_] divides by zero. *)
Definition Push (w : WindowedInterval) (sample : Z)
  : outcome (bool * WindowedInterval) :=
  if (size_ w =? 0)%nat || negb (position_ w <? length (buffer_ w))%nat
  then Undefined
  else
    let buffer := <[position_ w := sample]> (buffer_ w) in
    let position := ((position_ w + 1) mod size_ w)%nat in
    let filled := filled_ w || (position =? 0)%nat in
    Ok (filled,
        {| filled_ := filled; position_ := position;
           size_ := size_ w; buffer_ := buffer |}).

(** [MeanForArray]: the 64-bit sum of the first [size] cells, divided by
    [size] as integers, and the quotient converted to [double]. *)
Definition MeanForArray_total (array : list Z) (size : nat) : Z :=
  foldl (fun total x => u64 (total + x)) 0 (take size array).

Definition MeanForArray (array : list Z) (size : nat) : outcome double :=
  if (size =? 0)%nat then Undefined
  else Ok (double_of_Z (MeanForArray_total array size / Z.of_nat size)).

(** [Watchdog::WindowedInterval::Mean]. *)
Definition Mean (w : WindowedInterval) : outcome double :=
  MeanForArray (buffer_ w) (size_ w).

(** Modelled from the spec: the accessors [OldestWhenFull] and
    [NewestWhenFull] are declared in the header, which is not among the
    sources.  The spec has them "only defined once filled" and has the ring
    written circularly, so the oldest sample is the cell the next push
    overwrites and the newest is the cell before it. *)
Definition OldestWhenFull (w : WindowedInterval) : option Z :=
  if filled_ w then buffer_ w !! position_ w else None.

(** Modelled from the spec: see [OldestWhenFull]. *)
Definition NewestWhenFull (w : WindowedInterval) : option Z :=
  if filled_ w
  then buffer_ w !! ((position_ w + size_ w - 1) mod size_ w)%nat
  else None.

(** ** [Watchdog] *)

(** [IsMultipleOf]: [number % divisor] is evaluated whenever
    [number >= divisor], which on unsigned operands includes every call
    with [divisor = 0]. *)
Definition IsMultipleOf (number divisor : Z) : outcome bool :=
  if divisor =? 0 then Undefined
  else Ok ((divisor <=? number) && (number mod divisor =? 0)).

Record Watchdog := {
  polling_interval_ms_ : Z;                  (* uint32_t *)
  quit_ : bool;
  memory_window_bytes_ : WindowedInterval;
  memory_limit_bytes_ : Z;                   (* uint64_t *)
  cpu_window_time_ticks_ : WindowedInterval;
  cpu_limit_percentage_ : Z;                 (* uint32_t *)
}.

(** Modelled from the spec: [Watchdog::Watchdog(polling_interval_ms)] sets
    the polling interval; the initialisers of the other members are in the
    header, which is not among the sources.  A check is disabled while its
    limit is zero, and the destructor expects [quit_] on a watchdog that
    was never started. *)
Definition Watchdog_new (polling_interval_ms : Z) : Watchdog :=
  {| polling_interval_ms_ := polling_interval_ms;
     quit_ := true;
     memory_window_bytes_ := WindowedInterval_new;
     memory_limit_bytes_ := 0;
     cpu_window_time_ticks_ := WindowedInterval_new;
     cpu_limit_percentage_ := 0 |}.

Definition kDefaultPollingInterval : Z := 30 * 1000.

(** The ring size both setters compute: [uint32_t / uint32_t + 1] is
    32-bit unsigned arithmetic, widened to [size_t] afterwards. *)
Definition window_size (limit window_ms polling_interval_ms : Z) : nat :=
  Z.to_nat (if limit =? 0 then 0 else u32 (window_ms / polling_interval_ms + 1)).

(** [Watchdog::SetMemoryLimit]. *)
Definition SetMemoryLimit (w : Watchdog) (bytes window_ms : Z)
  : outcome Watchdog :=
  multiple ← IsMultipleOf window_ms (polling_interval_ms_ w);
  _ ← CHECK CHECK_memory_window_multiple (multiple || (bytes =? 0));
  let size := window_size bytes window_ms (polling_interval_ms_ w) in
  Ok {| polling_interval_ms_ := polling_interval_ms_ w;
        quit_ := quit_ w;
        memory_window_bytes_ := Reset (memory_window_bytes_ w) size;
        memory_limit_bytes_ := bytes;
        cpu_window_time_ticks_ := cpu_window_time_ticks_ w;
        cpu_limit_percentage_ := cpu_limit_percentage_ w |}.

(** [Watchdog::SetCpuLimit]. *)
Definition SetCpuLimit (w : Watchdog) (percentage window_ms : Z)
  : outcome Watchdog :=
  _ ← CHECK CHECK_cpu_percentage (percentage <=? 100);
  multiple ← IsMultipleOf window_ms (polling_interval_ms_ w);
  _ ← CHECK CHECK_cpu_window_multiple (multiple || (percentage =? 0));
  let size := window_size percentage window_ms (polling_interval_ms_ w) in
  Ok {| polling_interval_ms_ := polling_interval_ms_ w;
        quit_ := quit_ w;
        memory_window_bytes_ := memory_window_bytes_ w;
        memory_limit_bytes_ := memory_limit_bytes_ w;
        cpu_window_time_ticks_ := Reset (cpu_window_time_ticks_ w) size;
        cpu_limit_percentage_ := percentage |}.

Definition with_memory_window (w : Watchdog) (r : WindowedInterval) : Watchdog :=
  {| polling_interval_ms_ := polling_interval_ms_ w;
     quit_ := quit_ w;
     memory_window_bytes_ := r;
     memory_limit_bytes_ := memory_limit_bytes_ w;
     cpu_window_time_ticks_ := cpu_window_time_ticks_ w;
     cpu_limit_percentage_ := cpu_limit_percentage_ w |}.

Definition with_cpu_window (w : Watchdog) (r : WindowedInterval) : Watchdog :=
  {| polling_interval_ms_ := polling_interval_ms_ w;
     quit_ := quit_ w;
     memory_window_bytes_ := memory_window_bytes_ w;
     memory_limit_bytes_ := memory_limit_bytes_ w;
     cpu_window_time_ticks_ := r;
     cpu_limit_percentage_ := cpu_limit_percentage_ w |}.

(** [Watchdog::CheckMemory].  [kill(getpid(), SIGABRT)] ends the process. *)
Definition CheckMemory (w : Watchdog) (rss_bytes : Z) : outcome Watchdog :=
  if memory_limit_bytes_ w =? 0 then Ok w
  else
    '(full, ring) ← Push (memory_window_bytes_ w) rss_bytes;
    if full : bool then
      mean ← Mean ring;
      if double_gt mean (double_of_Z (memory_limit_bytes_ w))
      then Fatal KILL_memory_watchdog
      else Ok (with_memory_window w ring)
    else Ok (with_memory_window w ring).

(** [Watchdog::WindowTimeForRingBuffer]: a 32-bit product. *)
Definition WindowTimeForRingBuffer (w : Watchdog) (window : WindowedInterval) : Z :=
  u32 (u32 (Z.of_nat (size_ window) - 1) * polling_interval_ms_ w).

Section Platform.

(** What the platform supplies: [sysconf(_SC_CLK_TCK)] and
    [base::kPageSize]. *)
Variable clk_tck : Z.
Variable kPageSize : Z.

(** The percentage [CheckCpu] computes, in double arithmetic. *)
Definition cpu_percentage (w : Watchdog) (newest oldest : Z) : double :=
  let difference_ticks := u64 (newest - oldest) in
  let window_interval_ticks :=
    double_mul
      (double_div
         (double_of_Z (WindowTimeForRingBuffer w (cpu_window_time_ticks_ w)))
         (double_of_Z 1000))
      (double_of_Z clk_tck) in
  double_mul
    (double_div (double_of_Z difference_ticks) window_interval_ticks)
    (double_of_Z 100).

(** [Watchdog::CheckCpu]. *)
Definition CheckCpu (w : Watchdog) (cpu_time : Z) : outcome Watchdog :=
  if cpu_limit_percentage_ w =? 0 then Ok w
  else
    '(full, ring) ← Push (cpu_window_time_ticks_ w) cpu_time;
    let w' := with_cpu_window w ring in
    if full : bool then
      match NewestWhenFull ring, OldestWhenFull ring with
      | Some newest, Some oldest =>
          if double_gt (cpu_percentage w' newest oldest)
                       (double_of_Z (cpu_limit_percentage_ w))
          then Fatal KILL_cpu_watchdog
          else Ok w'
      | _, _ => Undefined
      end
    else Ok w'.

(** *** The worker thread *)

(** What one turn of the loop observes: the quit flag after the timed wait,
    and the outcome of reading and scanning [/proc/self/stat] (the three
    fields [utime], [stime], [rss], or nothing when [sscanf] does not
    convert all three). *)
Inductive stat_read :=
  | ReadError
  | ReadFields (fields : option (Z * Z * Z)).

Record poll_input := {
  quit_seen : bool;
  stat : stat_read;
}.

Inductive thread_return :=
  | OpenFailed        (* watchdog_posix.cc:124 *)
  | QuitObserved      (* watchdog_posix.cc:132 *)
  | ReadFailed.       (* watchdog_posix.cc:139 *)

Inductive thread_state :=
  | Polling
  | Returned (why : thread_return).

(** The body of [for (;;)], run on the observations of successive turns.
    When the observations are used up the thread is waiting for the next
    polling interval.  The sums are those of an LP64 target. *)
Fixpoint ThreadMain_loop (w : Watchdog) (inputs : list poll_input)
  : outcome (thread_state * Watchdog) :=
  match inputs with
  | [] => Ok (Polling, w)
  | i :: inputs =>
      if quit_seen i then Ok (Returned QuitObserved, w)
      else
        match stat i with
        | ReadError => Ok (Returned ReadFailed, w)
        | ReadFields None => Fatal CHECK_stat_parse
        | ReadFields (Some (utime, stime, rss_pages)) =>
            let cpu_time := u64 (utime + stime) in
            let rss_bytes := u64 (u64 rss_pages * kPageSize) in
            w ← CheckMemory w rss_bytes;
            w ← CheckCpu w cpu_time;
            ThreadMain_loop w inputs
        end
  end.

(** [Watchdog::ThreadMain]. *)
Definition ThreadMain (open_ok : bool) (w : Watchdog) (inputs : list poll_input)
  : outcome (thread_state * Watchdog) :=
  if open_ok then ThreadMain_loop w inputs
  else Ok (Returned OpenFailed, w).

End Platform.

End Watchdog.

Module Probes.

(** ** Data model of [ProbesProducer] *)

Inductive State := kNotStarted | kNotConnected | kConnecting | kConnected.

#[global] Instance State_eq_dec : EqDecision State.
Proof. solve_decision. Defined.

(** The static descriptor objects [&T::descriptor], one per data source
    class; equality of constructors is equality of the pointers. *)
Inductive Descriptor :=
  | AndroidLogDataSource
  | AndroidPowerDataSource
  | FtraceDataSource
  | InitialDisplayStateDataSource
  | InodeFileDataSource
  | LinuxPowerSysfsDataSource
  | MetatraceDataSource
  | PackagesListDataSource
  | ProcessStatsDataSource
  | SysStatsDataSource
  | AndroidSystemPropertyDataSource
  | SystemInfoDataSource.

#[global] Instance Descriptor_eq_dec : EqDecision Descriptor.
Proof. solve_decision. Defined.

(** [kAllDataSources]; the factory of an entry is [CreateDSInstance] at
    its descriptor. *)
Definition kAllDataSources : list Descriptor :=
  [ AndroidLogDataSource; AndroidPowerDataSource;
    FtraceDataSource; InitialDisplayStateDataSource;
    InodeFileDataSource; LinuxPowerSysfsDataSource;
    MetatraceDataSource; PackagesListDataSource;
    ProcessStatsDataSource; SysStatsDataSource;
    AndroidSystemPropertyDataSource;
    SystemInfoDataSource ].

Definition kInitialConnectionBackoffMs : Z := 100.
Definition kMaxConnectionBackoffMs : Z := 30 * 1000.
Definition kFlushTimeoutMs : Z := 1000.

(** The fields of [DataSourceConfig] the producer reads. *)
Record DataSourceConfig := {
  name : string;
  tracing_session_id : N;
  target_buffer : Z;
  trace_duration_ms : Z;      (* uint32_t *)
}.

(** [FtraceMetadata]: what an ftrace data source has seen since the last
    batch. *)
Record FtraceMetadata := {
  rename_pids : list Z;
  pids : list Z;
  inode_and_device : list (Z * Z);
}.

Definition FtraceMetadata_empty : FtraceMetadata :=
  {| rename_pids := []; pids := []; inode_and_device := [] |}.

(** A [ProbesDataSource] object on the heap.  [metadata] is meaningful on
    ftrace data sources, [on_demand_dumps_enabled] on process-stats ones. *)
Record ProbesDataSource := {
  descriptor : Descriptor;
  ds_session_id : N;
  started : bool;
  metadata : FtraceMetadata;
  on_demand_dumps_enabled : bool;
}.

Definition addr := nat.

(** Calls that leave the producer, in the order they are made. *)
Inductive Effect :=
  (* the IPC endpoint *)
  | IPC_Connect
  | RegisterDataSource (d : Descriptor) (nm : string)
  | Sync
  | CreateTraceWriter (buffer : Z)
  | NotifyDataSourceStarted (id : N)
  | NotifyDataSourceStopped (id : N)
  | NotifyFlushComplete (flush_id : N)
  (* the task runner *)
  | PostTask_Restart
  | PostDelayedTask_Connect (ms : Z)
  | PostDelayedTask_OnFlushTimeout (flush_id : N) (ms : Z)
  (* data sources *)
  | DS_Start (ds : addr)
  | DS_Flush (ds : addr) (flush_id : N)
  | DS_ClearIncrementalState (ds : addr)
  | DS_OnRenamePids (ds : addr) (pids : list Z)
  | DS_OnPids (ds : addr) (pids : list Z)
  | DS_OnInodes (ds : addr) (inodes : list (Z * Z))
  (* the watchdog and the log *)
  | CreateFatalTimer (ms : Z)
  | ELOG (msg : string).

#[global] Instance Effect_eq_dec : EqDecision Effect.
Proof. solve_decision. Defined.

Record ProbesProducer := {
  state_ : State;
  connection_backoff_ms_ : Z;                       (* uint32_t *)
  endpoint_ : bool;                                  (* is there an endpoint *)
  task_runner_ : bool;                               (* is there a task runner *)
  all_data_sources_registered_cb_ : bool;            (* is a callback set *)
  ftrace_ : bool;                                    (* is there a controller *)
  ftrace_creation_failed_ : bool;
  data_sources_ : gmap N addr;                       (* owning pointers *)
  session_data_sources_ : gmap N (list (Descriptor * addr));
  watchdogs_ : gmap N Z;                             (* armed timers, in ms *)
  pending_flushes_ : list (N * N);
  heap : gmap addr ProbesDataSource;                 (* the live objects *)
  trace : list Effect;
}.

(** Modelled from the spec: the member initialisers of [ProbesProducer]
    are in the header, which is not among the sources.  A producer starts
    in [NotStarted] with no endpoint, no task runner, no controller, no
    instance and no pending flush; [ConnectWithRetries] sets the backoff
    before it is read.  [tr] is what the world has seen so far. *)
Definition ProbesProducer_new (tr : list Effect) : ProbesProducer :=
  {| state_ := kNotStarted;
     connection_backoff_ms_ := 0;
     endpoint_ := false;
     task_runner_ := false;
     all_data_sources_registered_cb_ := false;
     ftrace_ := false;
     ftrace_creation_failed_ := false;
     data_sources_ := ∅;
     session_data_sources_ := ∅;
     watchdogs_ := ∅;
     pending_flushes_ := [];
     heap := ∅;
     trace := tr |}.

(** Field updates. *)
Definition emit (es : list Effect) (p : ProbesProducer) : ProbesProducer :=
  {| state_ := state_ p;
     connection_backoff_ms_ := connection_backoff_ms_ p;
     endpoint_ := endpoint_ p;
     task_runner_ := task_runner_ p;
     all_data_sources_registered_cb_ := all_data_sources_registered_cb_ p;
     ftrace_ := ftrace_ p;
     ftrace_creation_failed_ := ftrace_creation_failed_ p;
     data_sources_ := data_sources_ p;
     session_data_sources_ := session_data_sources_ p;
     watchdogs_ := watchdogs_ p;
     pending_flushes_ := pending_flushes_ p;
     heap := heap p;
     trace := trace p ++ es |}.

Definition set_connection (st : State) (backoff : Z) (ep : bool)
    (p : ProbesProducer) : ProbesProducer :=
  {| state_ := st;
     connection_backoff_ms_ := backoff;
     endpoint_ := ep;
     task_runner_ := task_runner_ p;
     all_data_sources_registered_cb_ := all_data_sources_registered_cb_ p;
     ftrace_ := ftrace_ p;
     ftrace_creation_failed_ := ftrace_creation_failed_ p;
     data_sources_ := data_sources_ p;
     session_data_sources_ := session_data_sources_ p;
     watchdogs_ := watchdogs_ p;
     pending_flushes_ := pending_flushes_ p;
     heap := heap p;
     trace := trace p |}.

Definition set_task_runner (task_runner : bool) (p : ProbesProducer)
  : ProbesProducer :=
  {| state_ := state_ p;
     connection_backoff_ms_ := connection_backoff_ms_ p;
     endpoint_ := endpoint_ p;
     task_runner_ := task_runner;
     all_data_sources_registered_cb_ := all_data_sources_registered_cb_ p;
     ftrace_ := ftrace_ p;
     ftrace_creation_failed_ := ftrace_creation_failed_ p;
     data_sources_ := data_sources_ p;
     session_data_sources_ := session_data_sources_ p;
     watchdogs_ := watchdogs_ p;
     pending_flushes_ := pending_flushes_ p;
     heap := heap p;
     trace := trace p |}.

Definition set_ftrace (controller failed : bool) (p : ProbesProducer)
  : ProbesProducer :=
  {| state_ := state_ p;
     connection_backoff_ms_ := connection_backoff_ms_ p;
     endpoint_ := endpoint_ p;
     task_runner_ := task_runner_ p;
     all_data_sources_registered_cb_ := all_data_sources_registered_cb_ p;
     ftrace_ := controller;
     ftrace_creation_failed_ := failed;
     data_sources_ := data_sources_ p;
     session_data_sources_ := session_data_sources_ p;
     watchdogs_ := watchdogs_ p;
     pending_flushes_ := pending_flushes_ p;
     heap := heap p;
     trace := trace p |}.

Definition set_registry (ds : gmap N addr)
    (sds : gmap N (list (Descriptor * addr))) (wd : gmap N Z)
    (h : gmap addr ProbesDataSource) (p : ProbesProducer) : ProbesProducer :=
  {| state_ := state_ p;
     connection_backoff_ms_ := connection_backoff_ms_ p;
     endpoint_ := endpoint_ p;
     task_runner_ := task_runner_ p;
     all_data_sources_registered_cb_ := all_data_sources_registered_cb_ p;
     ftrace_ := ftrace_ p;
     ftrace_creation_failed_ := ftrace_creation_failed_ p;
     data_sources_ := ds;
     session_data_sources_ := sds;
     watchdogs_ := wd;
     pending_flushes_ := pending_flushes_ p;
     heap := h;
     trace := trace p |}.

Definition set_heap (h : gmap addr ProbesDataSource) (p : ProbesProducer)
  : ProbesProducer :=
  set_registry (data_sources_ p) (session_data_sources_ p) (watchdogs_ p) h p.

Definition set_pending_flushes (pf : list (N * N)) (p : ProbesProducer)
  : ProbesProducer :=
  {| state_ := state_ p;
     connection_backoff_ms_ := connection_backoff_ms_ p;
     endpoint_ := endpoint_ p;
     task_runner_ := task_runner_ p;
     all_data_sources_registered_cb_ := all_data_sources_registered_cb_ p;
     ftrace_ := ftrace_ p;
     ftrace_creation_failed_ := ftrace_creation_failed_ p;
     data_sources_ := data_sources_ p;
     session_data_sources_ := session_data_sources_ p;
     watchdogs_ := watchdogs_ p;
     pending_flushes_ := pf;
     heap := heap p;
     trace := trace p |}.

Definition set_started (ds : ProbesDataSource) : ProbesDataSource :=
  {| descriptor := descriptor ds;
     ds_session_id := ds_session_id ds;
     started := true;
     metadata := metadata ds;
     on_demand_dumps_enabled := on_demand_dumps_enabled ds |}.

Definition set_metadata (md : FtraceMetadata) (ds : ProbesDataSource)
  : ProbesDataSource :=
  {| descriptor := descriptor ds;
     ds_session_id := ds_session_id ds;
     started := started ds;
     metadata := md;
     on_demand_dumps_enabled := on_demand_dumps_enabled ds |}.

(** Erasing one element of a multimap through its iterator: the first
    entry equal to [x] goes. *)
Fixpoint erase_first {A} `{EqDecision A} (x : A) (l : list A) : list A :=
  match l with
  | [] => []
  | y :: l => if decide (x = y) then l else y :: erase_first x l
  end.

(** [multimap.equal_range(key)]: the values stored under [key]. *)
Definition equal_range {K V} `{EqDecision K} (key : K) (l : list (K * V))
  : list V :=
  (filter (fun kv => kv.1 = key) l).*2.

(** [multimap.count(key)] and [multimap.erase(key)]. *)
Definition count_key {K V} `{EqDecision K} (key : K) (l : list (K * V)) : nat :=
  length (equal_range key l).

Definition erase_key {K V} `{EqDecision K} (key : K) (l : list (K * V))
  : list (K * V) :=
  filter (fun kv => kv.1 ≠ key) l.

(** ** Operations of [ProbesProducer] *)

Section Operations.

(** What lies outside the two files: the names in the descriptors, whether
    the build has [PERFETTO_DCHECK] on, what the constructor of a
    process-stats data source makes of its config, and the conversion
    [static_cast<BufferID>] of a 32-bit target buffer ([BufferID] is a type
    of a header that is not among the sources). *)
Variable descriptor_name : Descriptor -> string.
Variable dcheck_is_on : bool.
Variable on_demand_dumps_of : DataSourceConfig -> bool.
Variable to_BufferID : Z -> Z.

(** [PERFETTO_DCHECK(cond)]: fatal where the build has it on, nothing
    otherwise. *)
Definition DCHECK (site : crash_site) (cond : bool) : outcome unit :=
  if dcheck_is_on && negb cond then Fatal site else Ok tt.

(** A call through a pointer member, [endpoint_->...] or
    [task_runner_->...]: through a null pointer the behaviour is
    undefined. *)
Definition deref (pointer : bool) : outcome unit :=
  if pointer then Ok tt else Undefined.

(** [ProbesProducer::ResetConnectionBackoff]. *)
Definition ResetConnectionBackoff (p : ProbesProducer) : ProbesProducer :=
  set_connection (state_ p) kInitialConnectionBackoffMs (endpoint_ p) p.

(** [ProbesProducer::IncreaseConnectionBackoff]. *)
Definition IncreaseConnectionBackoff (p : ProbesProducer) : ProbesProducer :=
  let doubled := u32 (connection_backoff_ms_ p * 2) in
  let backoff :=
    if kMaxConnectionBackoffMs <? doubled then kMaxConnectionBackoffMs
    else doubled in
  set_connection (state_ p) backoff (endpoint_ p) p.

(** [ProbesProducer::Connect].  [ProducerIPCClient::Connect] hands back
    the endpoint; the task runner is passed on to it, not called. *)
Definition Connect (p : ProbesProducer) : outcome ProbesProducer :=
  _ ← DCHECK DCHECK_state (bool_decide (state_ p = kNotConnected));
  Ok (emit [IPC_Connect]
        (set_connection kConnecting (connection_backoff_ms_ p) true p)).

(** [ProbesProducer::ConnectWithRetries]; [task_runner] tells whether the
    pointer the caller passes is one to a task runner. *)
Definition ConnectWithRetries (task_runner : bool) (p : ProbesProducer)
  : outcome ProbesProducer :=
  _ ← DCHECK DCHECK_state (bool_decide (state_ p = kNotStarted));
  let p := set_connection kNotConnected (connection_backoff_ms_ p) (endpoint_ p) p in
  let p := ResetConnectionBackoff p in
  let p := set_task_runner task_runner p in
  Connect p.

(** [ProbesProducer::Restart]: the object is destroyed and built again in
    place, then connects with the task runner it had. *)
Definition Restart (p : ProbesProducer) : outcome ProbesProducer :=
  ConnectWithRetries (task_runner_ p) (ProbesProducer_new (trace p)).

(** [ProbesProducer::OnConnect].  The loop over the descriptors, which are
    twelve, calls the endpoint. *)
Definition OnConnect (p : ProbesProducer) : outcome ProbesProducer :=
  _ ← DCHECK DCHECK_state (bool_decide (state_ p = kConnecting));
  let p := set_connection kConnected (connection_backoff_ms_ p) (endpoint_ p) p in
  let p := ResetConnectionBackoff p in
  _ ← deref (endpoint_ p);
  let p := emit ((fun d => RegisterDataSource d (descriptor_name d))
                   <$> kAllDataSources) p in
  Ok (if all_data_sources_registered_cb_ p then emit [Sync] p else p).

(** [ProbesProducer::OnDisconnect]. *)
Definition OnDisconnect (p : ProbesProducer) : outcome ProbesProducer :=
  _ ← DCHECK DCHECK_state
        (bool_decide (state_ p = kConnected) || bool_decide (state_ p = kConnecting));
  if decide (state_ p = kConnected) then
    _ ← deref (task_runner_ p);
    Ok (emit [PostTask_Restart] p)
  else
    let p := set_connection kNotConnected (connection_backoff_ms_ p) (endpoint_ p) p in
    let p := IncreaseConnectionBackoff p in
    _ ← deref (task_runner_ p);
    Ok (emit [PostDelayedTask_Connect (connection_backoff_ms_ p)] p).

(** What the world answers to the ftrace factory: whether
    [FtraceController::Create] yields a controller and whether
    [AddDataSource] accepts the new data source. *)
Record FtraceEnv := {
  create_ok : bool;
  add_ok : bool;
}.

Definition new_data_source (d : Descriptor) (session_id : N)
    (config : DataSourceConfig) : ProbesDataSource :=
  {| descriptor := d;
     ds_session_id := session_id;
     started := false;
     metadata := FtraceMetadata_empty;
     on_demand_dumps_enabled :=
       bool_decide (d = ProcessStatsDataSource) && on_demand_dumps_of config |}.

(** [ProbesProducer::CreateDSInstance<T>]: the object built, if any, and
    the producer afterwards.  Every factory asks the endpoint for a trace
    writer; the ftrace one does so after the two tests that make it give
    up. *)
Definition CreateDSInstance (d : Descriptor) (env : FtraceEnv)
    (p : ProbesProducer) (session_id : N) (config : DataSourceConfig)
  : outcome (option ProbesDataSource * ProbesProducer) :=
  let buffer_id := to_BufferID (target_buffer config) in
  match d with
  | FtraceDataSource =>
      if ftrace_creation_failed_ p then Ok (None, p)
      else
        let created :=
          if ftrace_ p then Some p
          else if create_ok env then Some (set_ftrace true false p)
          else None in
        match created with
        | None =>
            Ok (None, emit [ELOG "Failed to create FtraceController"]
                        (set_ftrace false true p))
        | Some p =>
            _ ← deref (endpoint_ p);
            let p := emit [CreateTraceWriter buffer_id] p in
            if add_ok env then Ok (Some (new_data_source d session_id config), p)
            else Ok (None, emit [ELOG "Failed to setup ftrace"] p)
        end
  | _ =>
      _ ← deref (endpoint_ p);
      Ok (Some (new_data_source d session_id config),
          emit [CreateTraceWriter buffer_id] p)
  end.

(** The loop of [SetupDataSource] over [kAllDataSources]: the first entry
    whose name is the config's. *)
Definition find_data_source (nm : string) : option Descriptor :=
  head (filter (fun d => descriptor_name d = nm) kAllDataSources).

(** [ProbesProducer::SetupDataSource]. *)
Definition SetupDataSource (env : FtraceEnv) (p : ProbesProducer)
    (instance_id : N) (config : DataSourceConfig) : outcome ProbesProducer :=
  _ ← DCHECK DCHECK_instance_id_unused
        (bool_decide (data_sources_ p !! instance_id = None));
  let session_id := tracing_session_id config in
  _ ← CHECK CHECK_session_id (0 <? session_id)%N;
  '(data_source, p) ←
    match find_data_source (name config) with
    | Some d => CreateDSInstance d env p session_id config
    | None => Ok (None, p)
    end;
  match data_source with
  | None => Ok (emit [ELOG "Failed to create data source"] p)
  | Some ds =>
      let a := fresh (dom (heap p)) in
      let entries := default [] (session_data_sources_ p !! session_id) in
      let sessions :=
        <[session_id := entries ++ [(descriptor ds, a)]]> (session_data_sources_ p) in
      (* the assignment destroys the object the slot held before *)
      let h :=
        match data_sources_ p !! instance_id with
        | Some old => delete old (<[a := ds]> (heap p))
        | None => <[a := ds]> (heap p)
        end in
      Ok (set_registry (<[instance_id := a]> (data_sources_ p)) sessions
            (watchdogs_ p) h p)
  end.

(** [ProbesProducer::StartDataSource]. *)
Definition StartDataSource (p : ProbesProducer) (instance_id : N)
    (config : DataSourceConfig) : outcome ProbesProducer :=
  match data_sources_ p !! instance_id with
  | None => Ok (emit [ELOG "Data source not found"] p)
  | Some a =>
      match heap p !! a with
      | None => Undefined
      | Some ds =>
          if started ds then Ok p
          else
            let timeout := u32 (5000 + 2 * trace_duration_ms config) in
            let p :=
              if trace_duration_ms config =? 0 then p
              else
                emit [CreateFatalTimer timeout]
                  (set_registry (data_sources_ p) (session_data_sources_ p)
                     (match watchdogs_ p !! instance_id with
                      | Some _ => watchdogs_ p
                      | None => <[instance_id := timeout]> (watchdogs_ p)
                      end)
                     (heap p) p) in
            let p := set_heap (<[a := set_started ds]> (heap p)) p in
            let p := emit [DS_Start a] p in
            _ ← deref (endpoint_ p);
            Ok (emit [NotifyDataSourceStarted instance_id] p)
      end
  end.

(** [ProbesProducer::StopDataSource]. *)
Definition StopDataSource (p : ProbesProducer) (id : N)
  : outcome ProbesProducer :=
  match data_sources_ p !! id with
  | None => Ok (emit [ELOG "Cannot stop data source, not found"] p)
  | Some a =>
      match heap p !! a with
      | None => Undefined
      | Some ds =>
          let p :=
            if decide (descriptor ds = MetatraceDataSource)
            then emit [DS_Flush a 0%N] p else p in
          _ ← deref (endpoint_ p);
          let p := emit [NotifyDataSourceStopped id] p in
          let session_id := ds_session_id ds in
          let sessions :=
            match session_data_sources_ p !! session_id with
            | None => session_data_sources_ p
            | Some entries =>
                if decide ((descriptor ds, a) ∈ entries) then
                  let entries := erase_first (descriptor ds, a) entries in
                  match entries with
                  | [] => delete session_id (session_data_sources_ p)
                  | _ => <[session_id := entries]> (session_data_sources_ p)
                  end
                else session_data_sources_ p
            end in
          Ok (set_registry (delete id (data_sources_ p)) sessions
                (delete id (watchdogs_ p)) (delete a (heap p)) p)
      end
  end.

(** The loop of [ProbesProducer::Flush]; the boolean is [flush_queued]. *)
Fixpoint Flush_loop (flush_request_id : N) (data_source_ids : list N)
    (flush_queued : bool) (p : ProbesProducer) : outcome (bool * ProbesProducer) :=
  match data_source_ids with
  | [] => Ok (flush_queued, p)
  | ds_id :: data_source_ids =>
      match data_sources_ p !! ds_id with
      | None => Flush_loop flush_request_id data_source_ids flush_queued p
      | Some a =>
          match heap p !! a with
          | None => Undefined
          | Some ds =>
              if started ds then
                let p := set_pending_flushes
                           (pending_flushes_ p ++ [(flush_request_id, ds_id)]) p in
                let p := emit [DS_Flush a flush_request_id] p in
                Flush_loop flush_request_id data_source_ids true p
              else Flush_loop flush_request_id data_source_ids flush_queued p
          end
      end
  end.

(** [ProbesProducer::Flush].  The acknowledgements of the data sources
    come back later, each as a call of [OnDataSourceFlushComplete]. *)
Definition Flush (p : ProbesProducer) (flush_request_id : N)
    (data_source_ids : list N) : outcome ProbesProducer :=
  _ ← DCHECK DCHECK_flush_request_id (negb (flush_request_id =? 0)%N);
  '(flush_queued, p) ← Flush_loop flush_request_id data_source_ids false p;
  if flush_queued : bool
  then
    _ ← deref (task_runner_ p);
    Ok (emit [PostDelayedTask_OnFlushTimeout flush_request_id kFlushTimeoutMs] p)
  else
    _ ← deref (endpoint_ p);
    Ok (emit [NotifyFlushComplete flush_request_id] p).

(** [ProbesProducer::OnDataSourceFlushComplete]. *)
Definition OnDataSourceFlushComplete (p : ProbesProducer)
    (flush_request_id ds_id : N) : outcome ProbesProducer :=
  let p := set_pending_flushes
             (erase_first (flush_request_id, ds_id) (pending_flushes_ p)) p in
  if (count_key flush_request_id (pending_flushes_ p) =? 0)%nat
  then
    _ ← deref (endpoint_ p);
    Ok (emit [NotifyFlushComplete flush_request_id] p)
  else Ok p.

(** [ProbesProducer::OnFlushTimeout]. *)
Definition OnFlushTimeout (p : ProbesProducer) (flush_request_id : N)
  : outcome ProbesProducer :=
  if (count_key flush_request_id (pending_flushes_ p) =? 0)%nat then Ok p
  else
    let p := emit [ELOG "Flush timed out"] p in
    let p := set_pending_flushes
               (erase_key flush_request_id (pending_flushes_ p)) p in
    _ ← deref (endpoint_ p);
    Ok (emit [NotifyFlushComplete flush_request_id] p).

(** [ProbesProducer::ClearIncrementalState]. *)
Fixpoint ClearIncrementalState (p : ProbesProducer) (data_source_ids : list N)
  : outcome ProbesProducer :=
  match data_source_ids with
  | [] => Ok p
  | ds_id :: data_source_ids =>
      match data_sources_ p !! ds_id with
      | None => ClearIncrementalState p data_source_ids
      | Some a =>
          match heap p !! a with
          | None => Undefined
          | Some ds =>
              if started ds
              then ClearIncrementalState
                     (emit [DS_ClearIncrementalState a] p) data_source_ids
              else ClearIncrementalState p data_source_ids
          end
      end
  end.

(** A [for] loop whose body may end the run. *)
Fixpoint for_each {A S} (body : S -> A -> outcome S) (l : list A) (s : S)
  : outcome S :=
  match l with
  | [] => Ok s
  | x :: l => s ← body s x; for_each body l s
  end.

(** The body of the loop over [ps_range]. *)
Definition notify_process_stats (md : FtraceMetadata) (p : ProbesProducer)
    (ps : addr) : outcome ProbesProducer :=
  match heap p !! ps with
  | None => Undefined
  | Some ps_ds =>
      if negb (started ps_ds) || negb (on_demand_dumps_enabled ps_ds) then Ok p
      else
        let p := match rename_pids md with
                 | [] => p
                 | _ => emit [DS_OnRenamePids ps (rename_pids md)] p
                 end in
        Ok match pids md with
           | [] => p
           | _ => emit [DS_OnPids ps (pids md)] p
           end
  end.

(** The body of the loop over [ino_range]. *)
Definition notify_inode_file (md : FtraceMetadata) (p : ProbesProducer)
    (ino : addr) : outcome ProbesProducer :=
  match heap p !! ino with
  | None => Undefined
  | Some inode_ds =>
      if negb (started inode_ds) then Ok p
      else Ok (emit [DS_OnInodes ino (inode_and_device md)] p)
  end.

(** The body of the loop over [ft_range], within the session whose
    multimap is [ds_by_type]. *)
Definition broadcast_ftrace (ds_by_type : list (Descriptor * addr))
    (p : ProbesProducer) (ft : addr) : outcome ProbesProducer :=
  match heap p !! ft with
  | None => Undefined
  | Some ftrace_ds =>
      if negb (started ftrace_ds) then Ok p
      else
        let md := metadata ftrace_ds in
        p ← for_each (notify_process_stats md)
              (equal_range ProcessStatsDataSource ds_by_type) p;
        p ← for_each (notify_inode_file md)
              (equal_range InodeFileDataSource ds_by_type) p;
        Ok (set_heap
              (<[ft := set_metadata FtraceMetadata_empty ftrace_ds]> (heap p)) p)
  end.

(** The body of the loop over the tracing sessions. *)
Definition broadcast_session (p : ProbesProducer)
    (ds_by_type : list (Descriptor * addr)) : outcome ProbesProducer :=
  for_each (broadcast_ftrace ds_by_type)
    (equal_range FtraceDataSource ds_by_type) p.

(** [ProbesProducer::OnFtraceDataWrittenIntoDataSourceBuffers]. *)
Definition OnFtraceDataWrittenIntoDataSourceBuffers (p : ProbesProducer)
  : outcome ProbesProducer :=
  for_each broadcast_session (map_to_list (session_data_sources_ p)).*2 p.

End Operations.

End Probes.

(** ** Vocabulary of the statements *)

Module WatchdogSpec.
Import Watchdog.

Definition sumZ (xs : list Z) : Z := foldr Z.add 0 xs.

(** The arithmetic mean of the samples, as a rational. *)
Definition exact_mean (xs : list Z) : Q :=
  (inject_Z (sumZ xs) / inject_Z (Z.of_nat (length xs)))%Q.

(** Successive calls of [Push], with the value each returned. *)
Fixpoint pushes (w : WindowedInterval) (xs : list Z)
  : outcome (list bool * WindowedInterval) :=
  match xs with
  | [] => Ok ([], w)
  | x :: xs =>
      '(b, w) ← Push w x;
      '(bs, w) ← pushes w xs;
      Ok (b :: bs, w)
  end.

(** Successive calls of [CheckMemory]. *)
Fixpoint memory_checks (w : Watchdog) (samples : list Z) : outcome Watchdog :=
  match samples with
  | [] => Ok w
  | x :: samples => w ← CheckMemory w x; memory_checks w samples
  end.

(** A ring that has been allocated: a buffer of [size_] cells, with the
    write position inside it. *)
Definition ring_ok (r : WindowedInterval) : Prop :=
  (0 < size_ r)%nat /\ length (buffer_ r) = size_ r /\ (position_ r < size_ r)%nat.

(** Each check that is enabled has its ring allocated. *)
Definition watchdog_ok (w : Watchdog) : Prop :=
  (memory_limit_bytes_ w <> 0 -> ring_ok (memory_window_bytes_ w)) /\
  (cpu_limit_percentage_ w <> 0 -> ring_ok (cpu_window_time_ticks_ w)).

(** The CPU percentage as the specification words it,
    [(newest - oldest) / window_ticks * 100] with
    [window_ticks = ((capacity - 1) * polling_interval_ms / 1000) * ticks_per_second],
    each operation being the one on doubles. *)
Definition cpu_percentage_spec (newest oldest : Z) (capacity : nat)
    (polling_interval_ms ticks_per_second : Z) : double :=
  let window_ticks :=
    double_mul
      (double_div (double_of_Z ((Z.of_nat capacity - 1) * polling_interval_ms))
                  (double_of_Z 1000))
      (double_of_Z ticks_per_second) in
  double_mul (double_div (double_of_Z (newest - oldest)) window_ticks)
             (double_of_Z 100).

(** The mantissa and exponent of the double an integer below [2^53]
    converts to. *)
Definition normal_form (m : positive) : positive * Z :=
  let d := Z.pos (digits2_pos m) in
  match 53 - d with
  | Z.pos k => (Pos.iter xO m k, d - 53)
  | _ => (m, 0)
  end.

(** Whether the worker can go on after a turn with this observation. *)
Definition turn_continues (i : poll_input) : Prop :=
  quit_seen i = false /\ exists fields, stat i = ReadFields (Some fields).

(** How the loop can end, and what the observations were when it did. *)
Definition loop_exit (inputs : list poll_input)
    (res : outcome (thread_state * Watchdog)) : Prop :=
  match res with
  | Ok (Polling, w') => Forall turn_continues inputs /\ watchdog_ok w'
  | Ok (Returned QuitObserved, _) =>
      exists pre i post, inputs = pre ++ i :: post /\
        Forall turn_continues pre /\ quit_seen i = true
  | Ok (Returned ReadFailed, _) =>
      exists pre i post, inputs = pre ++ i :: post /\
        Forall turn_continues pre /\ quit_seen i = false /\ stat i = ReadError
  | Ok (Returned OpenFailed, _) => False
  | Fatal CHECK_stat_parse =>
      exists pre i post, inputs = pre ++ i :: post /\
        Forall turn_continues pre /\ quit_seen i = false /\
        stat i = ReadFields None
  | Fatal KILL_memory_watchdog | Fatal KILL_cpu_watchdog =>
      exists pre i post, inputs = pre ++ i :: post /\
        Forall turn_continues pre /\ turn_continues i
  | Fatal _ => False
  | Undefined => False
  end.

(** The samples one turn hands to the two checks, when it has read and
    scanned the three fields: the resident memory in bytes and the CPU
    time in ticks. *)
Definition turn_samples (kPageSize : Z) (i : poll_input) : option (Z * Z) :=
  match stat i with
  | ReadFields (Some (utime, stime, rss_pages)) =>
      Some (u64 (u64 rss_pages * kPageSize), u64 (utime + stime))
  | _ => None
  end.

(** The two checks of one turn, memory first. *)
Definition turn_checks (clk_tck kPageSize : Z) (w : Watchdog) (i : poll_input)
  : outcome Watchdog :=
  match turn_samples kPageSize i with
  | Some (rss_bytes, cpu_time) =>
      w ← CheckMemory w rss_bytes; CheckCpu clk_tck w cpu_time
  | None => Ok w
  end.

(** The checks of successive turns. *)
Fixpoint turns_checks (clk_tck kPageSize : Z) (w : Watchdog)
    (inputs : list poll_input) : outcome Watchdog :=
  match inputs with
  | [] => Ok w
  | i :: inputs =>
      w ← turn_checks clk_tck kPageSize w i;
      turns_checks clk_tck kPageSize w inputs
  end.

(** How the loop can end, what the observations were when it did, and
    which checks it had made by then: in every turn that went on, both,
    and both let the process live; the turn [i] is the one that ended
    it. *)
Definition worker_exit (clk_tck kPageSize : Z) (w : Watchdog)
    (inputs : list poll_input) (res : outcome (thread_state * Watchdog)) : Prop :=
  let ended_in (w1 : Watchdog) (i : poll_input) :=
    exists pre post, inputs = pre ++ i :: post /\
      Forall turn_continues pre /\
      turns_checks clk_tck kPageSize w pre = Ok w1 in
  match res with
  | Ok (Polling, w') =>
      Forall turn_continues inputs /\
      turns_checks clk_tck kPageSize w inputs = Ok w'
  | Ok (Returned QuitObserved, w') =>
      exists i, ended_in w' i /\ quit_seen i = true
  | Ok (Returned ReadFailed, w') =>
      exists i, ended_in w' i /\ quit_seen i = false /\ stat i = ReadError
  | Ok (Returned OpenFailed, _) => False
  | Fatal CHECK_stat_parse =>
      exists w1 i, ended_in w1 i /\ quit_seen i = false /\
        stat i = ReadFields None
  | Fatal KILL_memory_watchdog =>
      exists w1 i rss_bytes cpu_time, ended_in w1 i /\ quit_seen i = false /\
        turn_samples kPageSize i = Some (rss_bytes, cpu_time) /\
        CheckMemory w1 rss_bytes = Fatal KILL_memory_watchdog
  | Fatal KILL_cpu_watchdog =>
      exists w1 i rss_bytes cpu_time w2, ended_in w1 i /\ quit_seen i = false /\
        turn_samples kPageSize i = Some (rss_bytes, cpu_time) /\
        CheckMemory w1 rss_bytes = Ok w2 /\
        CheckCpu clk_tck w2 cpu_time = Fatal KILL_cpu_watchdog
  | Fatal _ => False
  | Undefined =>
      exists w1 i, ended_in w1 i /\ quit_seen i = false /\
        turn_checks clk_tck kPageSize w1 i = Undefined
  end.

End WatchdogSpec.

Module ProbesSpec.
Import Probes.

(** Names for the descriptors, for the worked examples (the descriptors
    themselves are defined with the data sources). *)
Definition example_names (d : Descriptor) : string :=
  match d with
  | AndroidLogDataSource => "android.log"
  | AndroidPowerDataSource => "android.power"
  | FtraceDataSource => "linux.ftrace"
  | InitialDisplayStateDataSource => "android.polled_state"
  | InodeFileDataSource => "linux.inode_file_map"
  | LinuxPowerSysfsDataSource => "linux.sysfs_power"
  | MetatraceDataSource => "perfetto.metatrace"
  | PackagesListDataSource => "android.packages_list"
  | ProcessStatsDataSource => "linux.process_stats"
  | SysStatsDataSource => "linux.sys_stats"
  | AndroidSystemPropertyDataSource => "android.system_property"
  | SystemInfoDataSource => "linux.system_info"
  end.

Definition example_config (nm : string) (session : N) : DataSourceConfig :=
  {| name := nm; tracing_session_id := session;
     target_buffer := 0; trace_duration_ms := 0 |}.

Definition ftrace_works : FtraceEnv := {| create_ok := true; add_ok := true |}.

(** A conversion to buffer ids of 16 bits, for the worked examples. *)
Definition example_BufferID (target_buffer : Z) : Z := target_buffer mod 2 ^ 16.

(** The producer has what its calls go through: an endpoint and a task
    runner. *)
Definition attached (p : ProbesProducer) : Prop :=
  endpoint_ p = true /\ task_runner_ p = true.

(** *** Connection *)

(** A connection attempt that fails: the service drops the producer while
    it is connecting, and the delayed task then runs [Connect]. *)
Definition failed_attempt (dcheck_is_on : bool) (p : ProbesProducer)
  : outcome ProbesProducer :=
  p ← OnDisconnect dcheck_is_on p; Connect dcheck_is_on p.

Fixpoint failed_attempts (dcheck_is_on : bool) (n : nat) (p : ProbesProducer)
  : outcome ProbesProducer :=
  match n with
  | O => Ok p
  | S n => p ← failed_attempt dcheck_is_on p; failed_attempts dcheck_is_on n p
  end.

(** The delays of the reconnects a trace schedules. *)
Definition reconnect_delays (tr : list Effect) : list Z :=
  omap (fun e => match e with
                 | PostDelayedTask_Connect ms => Some ms
                 | _ => None
                 end) tr.

(** [ConnectWithRetries] on a new producer, then four failed attempts. *)
Definition four_failures : outcome ProbesProducer :=
  p ← ConnectWithRetries true true (ProbesProducer_new []);
  failed_attempts true 4 p.

(** The delay scheduled by the failure number [k], counted from 0. *)
Definition nth_delay (k : nat) : Z :=
  Z.min (kInitialConnectionBackoffMs * 2 ^ (Z.of_nat k + 1)) kMaxConnectionBackoffMs.

(** *** Flushes *)

Definition flush_notifications (flush_id : N) (tr : list Effect) : nat :=
  length (filter (fun e => e = NotifyFlushComplete flush_id) tr).

(** Two data sources of session 7, both started, and a flush of both. *)
Definition flush_started : outcome ProbesProducer :=
  let setup :=
    SetupDataSource example_names true (fun _ => true) example_BufferID
      ftrace_works in
  p ← ConnectWithRetries true true (ProbesProducer_new []);
  p ← OnConnect example_names true p;
  p ← setup p 1%N (example_config "linux.sys_stats" 7);
  p ← setup p 2%N (example_config "linux.process_stats" 7);
  p ← StartDataSource p 1%N (example_config "linux.sys_stats" 7);
  p ← StartDataSource p 2%N (example_config "linux.process_stats" 7);
  Flush true p 42%N [1%N; 2%N].

(** *** The registry *)

Definition session_entries (p : ProbesProducer) (session_id : N)
  : list (Descriptor * addr) :=
  default [] (session_data_sources_ p !! session_id).

Definition occurrences (entry : Descriptor * addr)
    (entries : list (Descriptor * addr)) : nat :=
  length (filter (fun e => e = entry) entries).

(** The two indices agree: an owned instance is a live object filed exactly
    once, under its session and descriptor; whatever is filed is an owned
    instance, filed under its own session and descriptor; and no object
    has two owners. *)
Record registry_coherent (p : ProbesProducer) : Prop := {
  owned_filed_once : forall id a,
    data_sources_ p !! id = Some a ->
    exists ds, heap p !! a = Some ds /\
      occurrences (descriptor ds, a) (session_entries p (ds_session_id ds)) = 1%nat;
  filed_owned : forall session_id d a,
    (d, a) ∈ session_entries p session_id ->
    exists id ds, data_sources_ p !! id = Some a /\ heap p !! a = Some ds /\
      descriptor ds = d /\ ds_session_id ds = session_id;
  one_owner : forall id1 id2 a,
    data_sources_ p !! id1 = Some a -> data_sources_ p !! id2 = Some a ->
    id1 = id2;
}.

(** Two objects of the same descriptor and session. *)
Definition same_identity (x y : ProbesDataSource) : Prop :=
  descriptor x = descriptor y /\ ds_session_id x = ds_session_id y.

(** Two producers with the same indices whose heaps hold, at the same
    addresses, objects related by [R]. *)
Definition similar (R : relation ProbesDataSource) (p p' : ProbesProducer)
  : Prop :=
  data_sources_ p' = data_sources_ p /\
  session_data_sources_ p' = session_data_sources_ p /\
  forall a, option_Forall2 R (heap p !! a) (heap p' !! a).

(** The calls the service, the task runner and the ftrace controller make
    on the producer. *)
Inductive Callback :=
  | CallConnectWithRetries
  | CallConnect
  | CallOnConnect
  | CallOnDisconnect
  | CallRestart
  | CallSetupDataSource (env : FtraceEnv) (id : N) (config : DataSourceConfig)
  | CallStartDataSource (id : N) (config : DataSourceConfig)
  | CallStopDataSource (id : N)
  | CallFlush (flush_id : N) (ids : list N)
  | CallOnDataSourceFlushComplete (flush_id id : N)
  | CallOnFlushTimeout (flush_id : N)
  | CallClearIncrementalState (ids : list N)
  | CallOnFtraceDataWrittenIntoDataSourceBuffers.

Section Dispatch.

Variable descriptor_name : Descriptor -> string.
Variable dcheck_is_on : bool.
Variable on_demand_dumps_of : DataSourceConfig -> bool.
Variable to_BufferID : Z -> Z.

(** One call; [ConnectWithRetries] is called with a task runner. *)
Definition dispatch (p : ProbesProducer) (c : Callback) : outcome ProbesProducer :=
  match c with
  | CallConnectWithRetries => ConnectWithRetries dcheck_is_on true p
  | CallConnect => Connect dcheck_is_on p
  | CallOnConnect => OnConnect descriptor_name dcheck_is_on p
  | CallOnDisconnect => OnDisconnect dcheck_is_on p
  | CallRestart => Restart dcheck_is_on p
  | CallSetupDataSource env id config =>
      SetupDataSource descriptor_name dcheck_is_on on_demand_dumps_of to_BufferID
        env p id config
  | CallStartDataSource id config => StartDataSource p id config
  | CallStopDataSource id => StopDataSource p id
  | CallFlush flush_id ids => Flush dcheck_is_on p flush_id ids
  | CallOnDataSourceFlushComplete flush_id id =>
      OnDataSourceFlushComplete p flush_id id
  | CallOnFlushTimeout flush_id => OnFlushTimeout p flush_id
  | CallClearIncrementalState ids => ClearIncrementalState p ids
  | CallOnFtraceDataWrittenIntoDataSourceBuffers =>
      OnFtraceDataWrittenIntoDataSourceBuffers p
  end.

(** A run of callbacks, one after the other. *)
Definition run (p : ProbesProducer) (cs : list Callback) : outcome ProbesProducer :=
  for_each dispatch cs p.

End Dispatch.

(** What the service promises: the id of a new instance is not in use. *)
Definition admissible (p : ProbesProducer) (c : Callback) : Prop :=
  match c with
  | CallSetupDataSource _ id _ => data_sources_ p !! id = None
  | _ => True
  end.

(** The calls that tell the service about a data source or a flush. *)
Definition is_notification (e : Effect) : bool :=
  match e with
  | NotifyDataSourceStarted _ | NotifyDataSourceStopped _
  | NotifyFlushComplete _ => true
  | _ => false
  end.

Definition notifications (tr : list Effect) : list Effect :=
  filter (fun e => is_notification e = true) tr.

(** *** The ftrace broadcast *)

(** Two objects that differ at most in their ftrace metadata. *)
Definition same_but_metadata (x y : ProbesDataSource) : Prop :=
  descriptor x = descriptor y /\ ds_session_id x = ds_session_id y /\
  started x = started y /\ on_demand_dumps_enabled x = on_demand_dumps_enabled y.

(** What one process-stats data source is told of [md]. *)
Definition process_stats_events (h : gmap addr ProbesDataSource)
    (md : FtraceMetadata) (ps : addr) : list Effect :=
  match h !! ps with
  | Some ps_ds =>
      if negb (started ps_ds) || negb (on_demand_dumps_enabled ps_ds) then []
      else
        match rename_pids md with
        | [] => []
        | _ => [DS_OnRenamePids ps (rename_pids md)]
        end ++
        match pids md with
        | [] => []
        | _ => [DS_OnPids ps (pids md)]
        end
  | None => []
  end.

(** What one inode-file data source is told of [md]. *)
Definition inode_file_events (h : gmap addr ProbesDataSource)
    (md : FtraceMetadata) (ino : addr) : list Effect :=
  match h !! ino with
  | Some inode_ds =>
      if negb (started inode_ds) then []
      else [DS_OnInodes ino (inode_and_device md)]
  | None => []
  end.

(** All that is sent on behalf of the ftrace data source [ft] of a
    session. *)
Definition ftrace_events (h : gmap addr ProbesDataSource)
    (work : list (Descriptor * addr) * addr) : list Effect :=
  let '(ds_by_type, ft) := work in
  match h !! ft with
  | Some ftrace_ds =>
      if negb (started ftrace_ds) then []
      else
        flat_map (process_stats_events h (metadata ftrace_ds))
          (equal_range ProcessStatsDataSource ds_by_type) ++
        flat_map (inode_file_events h (metadata ftrace_ds))
          (equal_range InodeFileDataSource ds_by_type)
  | None => []
  end.

(** The ftrace data sources of the sessions, each with the multimap of its
    session, in the order the loops visit them. *)
Definition ftrace_work (sessions : list (list (Descriptor * addr)))
  : list (list (Descriptor * addr) * addr) :=
  flat_map (fun ds_by_type =>
              (fun ft => (ds_by_type, ft)) <$> equal_range FtraceDataSource ds_by_type)
    sessions.

(** The scenario of the specification: session 3 with an ftrace, a
    process-stats and an inode-file data source, all started, after the
    ftrace data source has recorded its metadata. *)
Definition scenario_metadata : FtraceMetadata :=
  {| rename_pids := [100]; pids := [100; 101]; inode_and_device := [(9, 42)] |}.

(** What the ftrace data source [id] does while it runs, as far as the
    producer sees it: it records metadata in its own object. *)
Definition record_metadata (id : N) (md : FtraceMetadata) (p : ProbesProducer)
  : ProbesProducer :=
  match data_sources_ p !! id with
  | Some a => set_heap (alter (set_metadata md) a (heap p)) p
  | None => p
  end.

(** The callbacks that lead there on a new producer. *)
Definition metadata_calls : list Callback :=
  [ CallConnectWithRetries; CallOnConnect;
    CallSetupDataSource ftrace_works 1 (example_config "linux.ftrace" 3);
    CallSetupDataSource ftrace_works 2 (example_config "linux.process_stats" 3);
    CallSetupDataSource ftrace_works 3 (example_config "linux.inode_file_map" 3);
    CallStartDataSource 1 (example_config "linux.ftrace" 3);
    CallStartDataSource 2 (example_config "linux.process_stats" 3);
    CallStartDataSource 3 (example_config "linux.inode_file_map" 3) ].

Definition metadata_scenario : outcome ProbesProducer :=
  p ← run example_names true (fun _ => true) example_BufferID
        (ProbesProducer_new []) metadata_calls;
  Ok (record_metadata 1%N scenario_metadata p).

(** The ftrace data source of the scenario, as the batch finds it. *)
Definition scenario_ftrace : ProbesDataSource :=
  set_metadata scenario_metadata
    (set_started (new_data_source (fun _ => true) FtraceDataSource 3
                    (example_config "linux.ftrace" 3))).

(** The batch on that scenario: what it sends, and the metadata the
    ftrace data source (the object at address 0) is left with. *)
Definition metadata_broadcast_run
  : outcome (list Effect * option FtraceMetadata) :=
  p ← metadata_scenario;
  p' ← OnFtraceDataWrittenIntoDataSourceBuffers p;
  Ok (drop (length (trace p)) (trace p'), metadata <$> heap p' !! 0%nat).

End ProbesSpec.

(** ** More of the watchdog *)

Module WatchdogMore.
Import Watchdog WatchdogSpec.

(** [Watchdog::Timer::Timer(ms)]: the [it_value] the timer is armed with,
    [tv_sec] and [tv_nsec]. *)
Definition Timer_it_value (ms : Z) : Z * Z :=
  (ms / 1000, 1000000 * (ms mod 1000)).

(** Successive calls of [CheckCpu]. *)
Fixpoint cpu_checks (clk_tck : Z) (w : Watchdog) (samples : list Z)
  : outcome Watchdog :=
  match samples with
  | [] => Ok w
  | x :: samples => w ← CheckCpu clk_tck w x; cpu_checks clk_tck w samples
  end.

(** A call of one of the two setters. *)
Inductive limit_call :=
  | CallSetMemoryLimit (bytes window_ms : Z)
  | CallSetCpuLimit (percentage window_ms : Z).

Definition set_limit (w : Watchdog) (c : limit_call) : outcome Watchdog :=
  match c with
  | CallSetMemoryLimit bytes window_ms => SetMemoryLimit w bytes window_ms
  | CallSetCpuLimit percentage window_ms => SetCpuLimit w percentage window_ms
  end.

Fixpoint set_limits (w : Watchdog) (cs : list limit_call) : outcome Watchdog :=
  match cs with
  | [] => Ok w
  | c :: cs => w ← set_limit w c; set_limits w cs
  end.

(** The window of a call is a number of polling intervals whose ring size
    fits 32 bits. *)
Definition window_fits (polling_interval_ms : Z) (c : limit_call) : Prop :=
  let window_ms :=
    match c with
    | CallSetMemoryLimit _ window_ms | CallSetCpuLimit _ window_ms => window_ms
    end in
  0 <= window_ms /\ window_ms / polling_interval_ms + 1 < 2 ^ 32.

(** The watchdog with the handle of its worker thread. *)
Record WatchdogThread := {
  watchdog : Watchdog;
  thread_joinable : bool;
}.

Definition set_quit (quit : bool) (w : Watchdog) : Watchdog :=
  {| polling_interval_ms_ := polling_interval_ms_ w;
     quit_ := quit;
     memory_window_bytes_ := memory_window_bytes_ w;
     memory_limit_bytes_ := memory_limit_bytes_ w;
     cpu_window_time_ticks_ := cpu_window_time_ticks_ w;
     cpu_limit_percentage_ := cpu_limit_percentage_ w |}.

(** [Watchdog::Start].  [os_linux_or_android] is the build flag that gates
    the launch of the thread; the result is [None] when a
    [PERFETTO_DCHECK] fails in a build that has them on. *)
Definition Start (os_linux_or_android dcheck_is_on : bool) (t : WatchdogThread)
  : option WatchdogThread :=
  if thread_joinable t then
    if dcheck_is_on && quit_ (watchdog t) then None else Some t
  else
    if dcheck_is_on && negb (quit_ (watchdog t)) then None
    else if os_linux_or_android
         then Some {| watchdog := set_quit false (watchdog t);
                      thread_joinable := true |}
         else Some t.

(** [Watchdog::~Watchdog]: the watchdog as the destructor leaves it, and
    whether it signalled and joined the worker. *)
Definition Destroy (dcheck_is_on : bool) (t : WatchdogThread)
  : option (Watchdog * bool) :=
  if negb (thread_joinable t) then
    if dcheck_is_on && negb (quit_ (watchdog t)) then None
    else Some (watchdog t, false)
  else
    if dcheck_is_on && quit_ (watchdog t) then None
    else Some (set_quit true (watchdog t), true).

(** What [GetInstance] builds. *)
Definition WatchdogThread_new (polling_interval_ms : Z) : WatchdogThread :=
  {| watchdog := Watchdog_new polling_interval_ms; thread_joinable := false |}.

(** The thread runs exactly while the quit flag is clear. *)
Definition thread_consistent (t : WatchdogThread) : Prop :=
  thread_joinable t = negb (quit_ (watchdog t)).

End WatchdogMore.

(** ** More of the producer *)

Module ProbesMore.
Import Probes ProbesSpec.

(** Every owned instance is a live object. *)
Definition owned_live (p : ProbesProducer) : Prop :=
  forall id a, data_sources_ p !! id = Some a -> is_Some (heap p !! a).

(** The instances among [ids] that exist and are started, each with its
    object, in the order of [ids]. *)
Definition started_targets (p : ProbesProducer) (ids : list N)
  : list (N * addr) :=
  omap (fun id =>
          match data_sources_ p !! id with
          | Some a =>
              match heap p !! a with
              | Some ds => if started ds then Some (id, a) else None
              | None => None
              end
          | None => None
          end) ids.

(** The data sources [ids] acknowledge the flush [flush_id], one call of
    [OnDataSourceFlushComplete] each, in this order. *)
Definition flush_acks (flush_id : N) (ids : list N) (p : ProbesProducer)
  : outcome ProbesProducer :=
  for_each (fun p id => OnDataSourceFlushComplete p flush_id id) ids p.

(** No tracing session is kept with an empty multimap. *)
Definition no_empty_session (p : ProbesProducer) : Prop :=
  forall session_id, session_data_sources_ p !! session_id <> Some [].

(** The connection is in order: a producer that has its task runner has
    a backoff between the initial value and the maximum. *)
Definition backoff_ok (p : ProbesProducer) : Prop :=
  task_runner_ p = true ->
  kInitialConnectionBackoffMs <= connection_backoff_ms_ p <= kMaxConnectionBackoffMs.

(** A call that left the connection and the ftrace controller alone: the
    state, the backoff, the endpoint, the task runner and the two ftrace
    fields are as before, and no reconnect was scheduled. *)
Definition control_kept (p p' : ProbesProducer) : Prop :=
  state_ p' = state_ p /\
  connection_backoff_ms_ p' = connection_backoff_ms_ p /\
  endpoint_ p' = endpoint_ p /\
  task_runner_ p' = task_runner_ p /\
  ftrace_ p' = ftrace_ p /\
  ftrace_creation_failed_ p' = ftrace_creation_failed_ p /\
  exists es, trace p' = trace p ++ es /\ reconnect_delays es = [].

(** The callbacks about data sources and flushes, as opposed to those
    about the connection. *)
Definition is_data_callback (c : Callback) : bool :=
  match c with
  | CallSetupDataSource _ _ _ | CallStartDataSource _ _ | CallStopDataSource _
  | CallFlush _ _ | CallOnDataSourceFlushComplete _ _ | CallOnFlushTimeout _
  | CallClearIncrementalState _
  | CallOnFtraceDataWrittenIntoDataSourceBuffers => true
  | _ => false
  end.

(** A connected producer with two data sources of session 7: a sys-stats
    one, started, and a process-stats one, set up only. *)
Definition session_calls : list Callback :=
  [ CallConnectWithRetries; CallOnConnect;
    CallSetupDataSource ftrace_works 1 (example_config "linux.sys_stats" 7);
    CallSetupDataSource ftrace_works 2 (example_config "linux.process_stats" 7);
    CallStartDataSource 1 (example_config "linux.sys_stats" 7) ].

Definition session_scenario : outcome ProbesProducer :=
  run example_names true (fun _ => true) example_BufferID
    (ProbesProducer_new []) session_calls.

(** Two batches of ftrace data on the scenario of the metadata, with
    nothing recorded in between: what the first sends and what the second
    sends. *)
Definition metadata_two_batches : outcome (list Effect * list Effect) :=
  p ← metadata_scenario;
  p1 ← OnFtraceDataWrittenIntoDataSourceBuffers p;
  p2 ← OnFtraceDataWrittenIntoDataSourceBuffers p1;
  Ok (drop (length (trace p)) (trace p1), drop (length (trace p1)) (trace p2)).

(** The calls a batch of ftrace data makes on other data sources. *)
Definition is_broadcast (e : Effect) : bool :=
  match e with
  | DS_OnRenamePids _ _ | DS_OnPids _ _ | DS_OnInodes _ _ => true
  | _ => false
  end.

End ProbesMore.

(** ** The watchdog: proofs *)

Module WatchdogProofs.
Import Watchdog WatchdogSpec.

(** *** Integers below [2^53] as doubles *)

Lemma digits2_pos_iter_xO (m k : positive) :
  digits2_pos (Pos.iter xO m k) = (digits2_pos m + k)%positive.
Proof.
  induction k as [|k IH] using Pos.peano_ind.
  - simpl. lia.
  - rewrite Pos.iter_succ. simpl. rewrite IH. lia.
Qed.

Lemma iter_xO_pow2 (m k : positive) :
  Z.pos (Pos.iter xO m k) = Z.pos m * 2 ^ Z.pos k.
Proof.
  induction k as [|k IH] using Pos.peano_ind.
  - simpl. lia.
  - rewrite Pos.iter_succ, Pos2Z.inj_xO, IH, Pos2Z.inj_succ, Z.pow_succ_r by lia. lia.
Qed.

Lemma digits2_pos_bounds (m : positive) :
  2 ^ (Z.pos (digits2_pos m) - 1) <= Z.pos m < 2 ^ Z.pos (digits2_pos m).
Proof.
  induction m as [m IH|m IH|]; simpl digits2_pos.
  - rewrite Pos2Z.inj_succ, Z.pow_succ_r by lia.
    replace (Z.succ (Z.pos (digits2_pos m)) - 1) with (Z.succ (Z.pos (digits2_pos m) - 1)) by lia.
    rewrite Z.pow_succ_r by lia. lia.
  - rewrite Pos2Z.inj_succ, Z.pow_succ_r by lia.
    replace (Z.succ (Z.pos (digits2_pos m)) - 1) with (Z.succ (Z.pos (digits2_pos m) - 1)) by lia.
    rewrite Z.pow_succ_r by lia. lia.
  - simpl. lia.
Qed.

(** A mantissa that already has 53 digits goes through the rounding unchanged. *)
Lemma binary_round_aux_53 (m : positive) (e : Z) :
  Z.pos (digits2_pos m) = 53 -> -1074 <= e <= 971 ->
  binary_round_aux 53 1024 false (Z.pos m) e loc_Exact = S754_finite false m e.
Proof.
  intros Hd He.
  unfold binary_round_aux, shr_fexp, fexp, emin. cbn [Zdigits2 shr_record_of_loc].
  rewrite Hd.
  replace (Z.max (53 + e - 53) (3 - 1024 - 53) - e) with 0 by lia.
  cbn [shr shr_m loc_of_shr_record round_nearest_even Zdigits2].
  rewrite Hd.
  replace (Z.max (53 + e - 53) (3 - 1024 - 53) - e) with 0 by lia.
  cbn [shr shr_m].
  replace (e <=? 1024 - 53) with true by lia. reflexivity.
Qed.

Lemma double_of_Z_pos (m : positive) :
  Z.pos m < 2 ^ 53 ->
  double_of_Z (Z.pos m) = S754_finite false (normal_form m).1 (normal_form m).2.
Proof.
  intros Hm. pose proof (digits2_pos_bounds m) as [Hlo Hhi].
  assert (Hd : Z.pos (digits2_pos m) <= 53).
  { destruct (Z.le_gt_cases (Z.pos (digits2_pos m)) 53) as [|Hgt]; [done|].
    assert (2 ^ 53 <= 2 ^ (Z.pos (digits2_pos m) - 1)) by (apply Z.pow_le_mono_r; lia). lia. }
  unfold double_of_Z, binary_normalize, binary_round, shl_align, fexp, emin, normal_form.
  set (d := Z.pos (digits2_pos m)) in *.
  replace (Z.max (d + 0 - 53) (3 - 1024 - 53) - 0) with (d - 53) by lia.
  replace (Z.max (d + 0 - 53) (3 - 1024 - 53)) with (d - 53) by lia.
  destruct (53 - d) as [|k|k] eqn:Hk.
  - replace (d - 53) with 0 by lia. cbn [fst snd]. apply binary_round_aux_53; lia.
  - replace (d - 53) with (Z.neg k) by lia. cbn [fst snd].
    replace (Z.neg k) with (d - 53) by lia.
    apply binary_round_aux_53; [|lia].
    rewrite digits2_pos_iter_xO. unfold d in *. lia.
  - lia.
Qed.

Lemma normal_form_spec (m : positive) :
  Z.pos m < 2 ^ 53 ->
  let d := Z.pos (digits2_pos m) in
  d <= 53 /\
  Z.pos (normal_form m).1 = Z.pos m * 2 ^ (53 - d) /\ (normal_form m).2 = d - 53.
Proof.
  intros Hm d. pose proof (digits2_pos_bounds m) as [Hlo Hhi]. fold d in Hlo, Hhi.
  assert (Hd : d <= 53).
  { destruct (Z.le_gt_cases d 53) as [|Hgt]; [done|].
    assert (2 ^ 53 <= 2 ^ (d - 1)) by (apply Z.pow_le_mono_r; lia). lia. }
  split; [done|]. unfold normal_form. fold d.
  destruct (53 - d) as [|k|k] eqn:Hk; cbn [fst snd].
  - rewrite Z.pow_0_r. lia.
  - rewrite iter_xO_pow2. lia.
  - lia.
Qed.

Lemma double_value_of_Z (z : Z) :
  0 <= z < 2 ^ 53 ->
  exists q, double_value (double_of_Z z) = Some q /\ (q == inject_Z z)%Q.
Proof.
  intros [Hlo Hhi]. destruct z as [|m|m]; [| |lia].
  - exists 0%Q. split; reflexivity.
  - rewrite double_of_Z_pos by done.
    destruct (normal_form_spec m Hhi) as (Hd & Hm & He).
    cbn [double_value]. eexists; split; [reflexivity|].
    rewrite Hm, He, inject_Z_mult.
    set (d := Z.pos (digits2_pos m)) in *.
    rewrite (Zpower_Qpower 2 (53 - d)) by lia.
    replace (d - 53) with (- (53 - d)) by lia.
    rewrite Qpower_opp.
    change (inject_Z 2) with 2%Q.
    field. apply Qpower_not_0. discriminate.
Qed.

Lemma double_of_Z_ltb (a b : Z) :
  0 <= a < 2 ^ 53 -> 0 <= b < 2 ^ 53 ->
  SFltb (double_of_Z a) (double_of_Z b) = (a <? b).
Proof.
  intros [Ha0 Ha] [Hb0 Hb].
  destruct a as [|ma|ma]; [| |lia]; destruct b as [|mb|mb]; try lia.
  - reflexivity.
  - rewrite (double_of_Z_pos mb) by done. reflexivity.
  - rewrite (double_of_Z_pos ma) by done. reflexivity.
  - rewrite (double_of_Z_pos ma), (double_of_Z_pos mb) by done.
    destruct (normal_form_spec ma Ha) as (Hda & Hma & Hea).
    destruct (normal_form_spec mb Hb) as (Hdb & Hmb & Heb).
    pose proof (digits2_pos_bounds ma) as [Hla Hua].
    pose proof (digits2_pos_bounds mb) as [Hlb Hub].
    set (da := Z.pos (digits2_pos ma)) in *.
    set (db := Z.pos (digits2_pos mb)) in *.
    unfold SFltb, SFcompare. rewrite Hea, Heb.
    destruct (Z.compare_spec (da - 53) (db - 53)) as [Heq|Hlt|Hgt].
    + rewrite Pos.compare_cont_spec. unfold Pos.switch_Eq. fold (Pos.compare (normal_form ma).1 (normal_form mb).1).
      change ((normal_form ma).1 ?= (normal_form mb).1)%positive
        with (Z.pos (normal_form ma).1 ?= Z.pos (normal_form mb).1).
      rewrite Hma, Hmb. replace db with da by lia.
      assert (0 < 2 ^ (53 - da)) by (apply Z.pow_pos_nonneg; lia).
      destruct (Z.compare_spec (Z.pos ma * 2 ^ (53 - da)) (Z.pos mb * 2 ^ (53 - da)));
        symmetry; [apply Z.ltb_ge|apply Z.ltb_lt|apply Z.ltb_ge]; nia.
    + symmetry. apply Z.ltb_lt.
      assert (2 ^ da <= 2 ^ (db - 1)) by (apply Z.pow_le_mono_r; lia). lia.
    + symmetry. apply Z.ltb_ge.
      assert (2 ^ db <= 2 ^ (da - 1)) by (apply Z.pow_le_mono_r; lia). lia.
Qed.

(** *** The ring *)

Lemma Push_ok (r : WindowedInterval) (x : Z) :
  ring_ok r ->
  exists r',
    Push r x = Ok (filled_ r', r') /\
    ring_ok r' /\
    size_ r' = size_ r /\
    position_ r' = ((position_ r + 1) mod size_ r)%nat /\
    filled_ r' = filled_ r || (position_ r' =? 0)%nat /\
    buffer_ r' = <[position_ r := x]> (buffer_ r).
Proof.
  intros (Hsize & Hlen & Hpos). unfold Push.
  replace (size_ r =? 0)%nat with false by (symmetry; apply Nat.eqb_neq; lia).
  replace (position_ r <? length (buffer_ r))%nat with true
    by (symmetry; apply Nat.ltb_lt; lia).
  cbn [orb negb].
  exists {| filled_ := filled_ r || ((position_ r + 1) mod size_ r =? 0)%nat;
            position_ := ((position_ r + 1) mod size_ r)%nat;
            size_ := size_ r;
            buffer_ := <[position_ r := x]> (buffer_ r) |}.
  split; [reflexivity|]. unfold ring_ok. cbn. rewrite length_insert.
  repeat split; try done. apply Nat.mod_upper_bound. lia.
Qed.

Lemma Reset_ring_ok (r : WindowedInterval) (c : nat) :
  (1 <= c)%nat -> ring_ok (Reset r c).
Proof. intros Hc. unfold ring_ok, Reset. cbn. rewrite length_replicate. lia. Qed.

(** The write position, and the value each [Push] returns: the flag as it
    was, or that the position has reached the end of the buffer. *)
Lemma pushes_results (xs : list Z) (r : WindowedInterval) :
  ring_ok r ->
  exists bs r',
    pushes r xs = Ok (bs, r') /\
    ring_ok r' /\
    size_ r' = size_ r /\
    length bs = length xs /\
    position_ r' = ((position_ r + length xs) mod size_ r)%nat /\
    (filled_ r' = filled_ r || bool_decide (size_ r <= position_ r + length xs)%nat) /\
    forall k, (k < length xs)%nat ->
      bs !! k = Some (filled_ r || bool_decide (size_ r <= position_ r + S k)%nat).
Proof.
  revert r. induction xs as [|x xs IH]; intros r Hok.
  - exists [], r. pose proof Hok as (Hsize & Hlen & Hpos).
    cbn. rewrite Nat.add_0_r, Nat.mod_small by lia.
    split_and!; try done; [|intros; lia].
    rewrite bool_decide_eq_false_2 by lia. by rewrite orb_false_r.
  - destruct (Push_ok r x Hok) as (r1 & HP & Hok1 & Hsz1 & Hp1 & Hf1 & _).
    destruct (IH r1 Hok1) as (bs & r' & Hps & Hok' & Hsz' & Hlen & Hp' & Hf' & Hbs).
    exists (filled_ r1 :: bs), r'. cbn [pushes]. rewrite HP. cbn [mbind outcome_bind].
    rewrite Hps. cbn [mbind outcome_bind length].
    pose proof Hok as (Hsize & Hlenb & Hpos).
    assert (Hwrap : (position_ r1 =? 0)%nat = bool_decide (size_ r <= position_ r + 1)%nat).
    { rewrite Hp1. destruct (decide (position_ r + 1 = size_ r)%nat) as [E|E].
      - rewrite E, Nat.Div0.mod_same. rewrite bool_decide_eq_true_2 by lia. done.
      - rewrite Nat.mod_small by lia. rewrite bool_decide_eq_false_2 by lia.
        apply Nat.eqb_neq. lia. }
    split_and!; try done.
    + congruence.
    + lia.
    + rewrite Hp', Hsz1, Hp1. rewrite Nat.Div0.add_mod_idemp_l. f_equal. lia.
    + rewrite Hf', Hf1, Hwrap, Hsz1, Hp1.
      destruct (filled_ r); [done|]. cbn [orb].
      destruct (decide (position_ r + 1 = size_ r)%nat) as [E|E].
      * rewrite (bool_decide_eq_true_2 (size_ r <= position_ r + 1)%nat) by lia.
        cbn [orb]. symmetry. apply bool_decide_eq_true_2. lia.
      * rewrite (bool_decide_eq_false_2 (size_ r <= position_ r + 1)%nat) by lia.
        rewrite Nat.mod_small by lia. cbn [orb].
        apply bool_decide_ext. lia.
    + intros [|k] Hk.
      * change ((filled_ r1 :: bs) !! 0%nat) with (Some (filled_ r1)).
        rewrite Hf1, Hwrap. done.
      * change ((filled_ r1 :: bs) !! S k) with (bs !! k).
        rewrite (Hbs k) by lia. f_equal. rewrite Hf1, Hwrap, Hsz1, Hp1.
        destruct (filled_ r); [done|]. cbn [orb].
        destruct (decide (position_ r + 1 = size_ r)%nat) as [E|E].
        -- rewrite (bool_decide_eq_true_2 (size_ r <= position_ r + 1)%nat) by lia.
           cbn [orb]. symmetry. apply bool_decide_eq_true_2. lia.
        -- rewrite (bool_decide_eq_false_2 (size_ r <= position_ r + 1)%nat) by lia.
           rewrite Nat.mod_small by lia. cbn [orb].
           apply bool_decide_ext. lia.
Qed.

(** While the ring has not wrapped, the samples lie in the buffer in the
    order they came. *)
Lemma pushes_buffer (xs : list Z) (r r' : WindowedInterval) (bs : list bool) :
  ring_ok r ->
  (position_ r + length xs <= size_ r)%nat ->
  pushes r xs = Ok (bs, r') ->
  buffer_ r' =
    take (position_ r) (buffer_ r) ++ xs
      ++ drop (position_ r + length xs) (buffer_ r).
Proof.
  revert r bs. induction xs as [|x xs IH]; intros r bs Hok Hfit Hps.
  - cbn in Hps. injection Hps as <- <-. cbn. rewrite Nat.add_0_r.
    by rewrite take_drop.
  - cbn [pushes] in Hps.
    destruct (Push_ok r x Hok) as (r1 & HP & Hok1 & Hsz1 & Hp1 & _ & Hb1).
    rewrite HP in Hps. cbn [mbind outcome_bind] in Hps.
    destruct (pushes r1 xs) as [[bs1 r2]| |] eqn:Hps1; cbn in Hps; [|done..].
    injection Hps as <- <-.
    pose proof Hok as (Hsize & Hlenb & Hpos). cbn [length] in Hfit.
    destruct (decide (position_ r + 1 = size_ r)%nat) as [E|E].
    + (* the last cell: nothing more fits *)
      destruct xs as [|y xs]; [|cbn in Hfit; lia].
      cbn in Hps1. injection Hps1 as <- <-. rewrite Hb1. cbn [length app].
      rewrite (drop_ge _ (position_ r + 1)) by lia.
      rewrite insert_take_drop by lia.
      rewrite (drop_ge _ (S (position_ r))) by lia. done.
    + rewrite Nat.mod_small in Hp1 by lia.
      rewrite (IH r1 bs1 Hok1) by (rewrite ?Hp1, ?Hsz1; lia || done).
      rewrite Hb1, Hp1. cbn [length].
      rewrite Nat.add_1_r.
      rewrite (take_S_r _ _ x) by (apply list_lookup_insert_eq; lia).
      rewrite take_insert_ge by lia.
      rewrite drop_insert_lt by lia.
      rewrite <- app_assoc. cbn [app].
      by replace (S (position_ r) + length xs)%nat with (position_ r + S (length xs))%nat by lia.
Qed.

Lemma MeanForArray_total_sum (xs : list Z) :
  MeanForArray_total xs (length xs) = u64 (sumZ xs).
Proof.
  unfold MeanForArray_total. rewrite firstn_all.
  assert (H : forall a, foldl (fun total x => u64 (total + x)) (u64 a) xs = u64 (a + sumZ xs)).
  { induction xs as [|x xs IH]; intros a; cbn [foldl sumZ foldr].
    - by rewrite Z.add_0_r.
    - rewrite IH. fold (sumZ xs). rewrite <- Z.add_assoc. unfold u64.
      by rewrite Zplus_mod_idemp_l. }
  apply (H 0).
Qed.


Lemma MeanForArray_total_range (array : list Z) (size : nat) :
  0 <= MeanForArray_total array size < 2 ^ 64.
Proof.
  unfold MeanForArray_total.
  assert (H : forall l a, 0 <= a < 2 ^ 64 ->
            0 <= foldl (fun total x => u64 (total + x)) a l < 2 ^ 64).
  { induction l as [|x l IH]; intros a Ha; cbn [foldl]; [done|].
    apply IH. unfold u64. apply Z.mod_pos_bound. lia. }
  apply H. lia.
Qed.

(** C3 (as amended).  A ring whose filled flag is clear when it is
    allocated with capacity [c >= 1]: the [k+1]-th push returns true iff
    [k+1 >= c]; after exactly [c] pushes of [xs] the oldest sample is the
    first of [xs], the newest the last, and [Mean] is the integer quotient
    of the 64-bit sum by [c], converted to double, which is exactly the
    floor of the mean when the sum is below [2^53]. *)
Theorem ring_laws (w0 : WindowedInterval) (c : nat) (xs : list Z) :
  filled_ w0 = false -> (1 <= c)%nat ->
  exists bs r,
    pushes (Reset w0 c) xs = Ok (bs, r) /\
    length bs = length xs /\
    (forall k, (k < length xs)%nat ->
       bs !! k = Some (bool_decide (c <= S k)%nat)) /\
    (length xs = c ->
       OldestWhenFull r = head xs /\
       NewestWhenFull r = last xs /\
       Mean r = Ok (double_of_Z (u64 (sumZ xs) / Z.of_nat c)) /\
       (0 <= sumZ xs < 2 ^ 53 ->
        exists q, double_value (double_of_Z (u64 (sumZ xs) / Z.of_nat c)) = Some q /\
                  (q == inject_Z (sumZ xs / Z.of_nat c))%Q)).
Proof.
  intros Hf Hc. pose proof (Reset_ring_ok w0 c Hc) as Hok.
  destruct (pushes_results xs _ Hok)
    as (bs & r & Hps & Hok' & Hsz & Hlen & Hpos & Hfill & Hbs).
  exists bs, r. cbn [Reset filled_ position_ size_] in *.
  split_and!; try done.
  - intros k Hk. rewrite (Hbs k Hk), Hf. done.
  - intros <-.
    pose proof (pushes_buffer xs _ r bs Hok) as Hbuf.
    cbn [Reset position_ size_ buffer_] in Hbuf.
    specialize (Hbuf ltac:(lia) Hps). cbn [take app] in Hbuf.
    rewrite Nat.add_0_l, drop_replicate, Nat.sub_diag, app_nil_r in Hbuf.
    rewrite Nat.add_0_l, Nat.Div0.mod_same in Hpos.
    rewrite Hf, bool_decide_eq_true_2 in Hfill by lia. cbn [orb] in Hfill.
    unfold OldestWhenFull, NewestWhenFull, Mean, MeanForArray.
    rewrite Hfill, Hpos, Hbuf, Hsz.
    replace (length xs =? 0)%nat with false by (symmetry; apply Nat.eqb_neq; lia).
    rewrite MeanForArray_total_sum.
    split_and!.
    + by rewrite head_lookup.
    + rewrite last_lookup. f_equal.
      rewrite Nat.add_0_l, Nat.mod_small by lia. lia.
    + done.
    + intros Hsum. unfold u64. rewrite Z.mod_small by lia.
      apply double_value_of_Z. split.
      * apply Z.div_pos; lia.
      * apply Z.le_lt_trans with (sumZ xs); [|lia].
        apply Z.div_le_upper_bound; nia.
Qed.

Lemma ring_laws_witness :
  exists bs r,
    pushes (Reset WindowedInterval_new 3) [5; 7; 9] = Ok (bs, r) /\
    length bs = 3%nat /\
    OldestWhenFull r = Some 5 /\
    NewestWhenFull r = Some 9 /\
    Mean r = Ok (double_of_Z (u64 (sumZ [5; 7; 9]) / 3)).
Proof.
  destruct (ring_laws WindowedInterval_new 3 [5; 7; 9] eq_refl ltac:(lia))
    as (bs & r & H1 & H2 & _ & H4).
  destruct (H4 eq_refl) as (H5 & H6 & H7 & _).
  exists bs, r. split_and!; [exact H1|exact H2|exact H5|exact H6|exact H7].
Defined.

(** C3, as stated, fails.  With capacity 2 and samples 1, 2 the ring
    reports the mean 1, not 3/2; and a ring that had wrapped before it was
    reallocated with capacity 3 returns true on the first push. *)
Lemma ring_laws_counterexample :
  (exists r m q,
     pushes (Reset WindowedInterval_new 2) [1; 2] = Ok ([false; true], r) /\
     Mean r = Ok m /\ double_value m = Some q /\
     ~ Qeq q (exact_mean [1; 2])) /\
  (exists r1 r2,
     pushes (Reset WindowedInterval_new 1) [7] = Ok ([true], r1) /\
     pushes (Reset r1 3) [7] = Ok ([true], r2)).
Proof.
  split.
  - do 3 eexists. split_and!; [reflexivity..|]. vm_compute. discriminate.
  - do 2 eexists. split; reflexivity.
Qed.

(** *** The two checks *)

Lemma Mean_ok (r : WindowedInterval) :
  ring_ok r ->
  Mean r =
    Ok (double_of_Z (MeanForArray_total (buffer_ r) (size_ r) / Z.of_nat (size_ r))).
Proof.
  intros (Hsize & _). unfold Mean, MeanForArray.
  by replace (size_ r =? 0)%nat with false by (symmetry; apply Nat.eqb_neq; lia).
Qed.

Lemma WhenFull_ok (r : WindowedInterval) :
  ring_ok r -> filled_ r = true ->
  exists newest oldest,
    NewestWhenFull r = Some newest /\ OldestWhenFull r = Some oldest.
Proof.
  intros (Hsize & Hlen & Hpos) Hf. unfold NewestWhenFull, OldestWhenFull.
  rewrite Hf.
  destruct (lookup_lt_is_Some_2 (buffer_ r)
              ((position_ r + size_ r - 1) mod size_ r)%nat) as [newest Hn].
  { rewrite Hlen. apply Nat.mod_upper_bound. lia. }
  destruct (lookup_lt_is_Some_2 (buffer_ r) (position_ r)) as [oldest Ho]; [lia|].
  eauto.
Qed.

Lemma CheckMemory_cases (w : Watchdog) (sample : Z) :
  watchdog_ok w -> memory_limit_bytes_ w <> 0 ->
  exists ring,
    Push (memory_window_bytes_ w) sample = Ok (filled_ ring, ring) /\
    ring_ok ring /\
    CheckMemory w sample =
      if filled_ ring &&
         double_gt
           (double_of_Z (MeanForArray_total (buffer_ ring) (size_ ring)
                         / Z.of_nat (size_ ring)))
           (double_of_Z (memory_limit_bytes_ w))
      then Fatal KILL_memory_watchdog
      else Ok (with_memory_window w ring).
Proof.
  intros [Hmem _] Hlimit.
  destruct (Push_ok _ sample (Hmem Hlimit)) as (ring & HP & Hok & _).
  exists ring. split_and!; try done. unfold CheckMemory.
  replace (memory_limit_bytes_ w =? 0) with false by (symmetry; apply Z.eqb_neq; lia).
  rewrite HP. cbn [mbind outcome_bind].
  destruct (filled_ ring); [|done].
  rewrite (Mean_ok ring Hok). cbn [mbind outcome_bind andb].
  by destruct (double_gt _ _).
Qed.

Lemma CheckCpu_cases (clk_tck : Z) (w : Watchdog) (sample : Z) :
  watchdog_ok w -> cpu_limit_percentage_ w <> 0 ->
  exists ring newest oldest,
    Push (cpu_window_time_ticks_ w) sample = Ok (filled_ ring, ring) /\
    ring_ok ring /\
    (filled_ ring = true ->
     NewestWhenFull ring = Some newest /\ OldestWhenFull ring = Some oldest) /\
    CheckCpu clk_tck w sample =
      if filled_ ring &&
         double_gt (cpu_percentage clk_tck (with_cpu_window w ring) newest oldest)
                   (double_of_Z (cpu_limit_percentage_ w))
      then Fatal KILL_cpu_watchdog
      else Ok (with_cpu_window w ring).
Proof.
  intros [_ Hcpu] Hlimit.
  destruct (Push_ok _ sample (Hcpu Hlimit)) as (ring & HP & Hok & _).
  unfold CheckCpu.
  replace (cpu_limit_percentage_ w =? 0) with false by (symmetry; apply Z.eqb_neq; lia).
  rewrite HP. cbn [mbind outcome_bind].
  destruct (filled_ ring) eqn:Hf.
  - destruct (WhenFull_ok ring Hok Hf) as (newest & oldest & Hn & Ho).
    exists ring, newest, oldest. rewrite Hf, Hn, Ho. cbn [andb].
    split_and!; try done; by destruct (double_gt _ _).
  - exists ring, 0, 0. rewrite Hf. split_and!; done.
Qed.

Lemma CheckMemory_watchdog_ok (w w' : Watchdog) (sample : Z) :
  watchdog_ok w -> CheckMemory w sample = Ok w' -> watchdog_ok w'.
Proof.
  intros Hok. destruct (decide (memory_limit_bytes_ w = 0)) as [E|E].
  - unfold CheckMemory. rewrite E. cbn. by intros [= <-].
  - destruct (CheckMemory_cases w sample Hok E) as (ring & _ & Hr & ->).
    destruct (_ && _); [done|]. intros [= <-]. destruct Hok as [_ Hcpu].
    split; cbn; done.
Qed.

Lemma CheckCpu_watchdog_ok (clk_tck : Z) (w w' : Watchdog) (sample : Z) :
  watchdog_ok w -> CheckCpu clk_tck w sample = Ok w' -> watchdog_ok w'.
Proof.
  intros Hok. destruct (decide (cpu_limit_percentage_ w = 0)) as [E|E].
  - unfold CheckCpu. rewrite E. cbn. by intros [= <-].
  - destruct (CheckCpu_cases clk_tck w sample Hok E)
      as (ring & newest & oldest & _ & Hr & _ & ->).
    destruct (_ && _); [done|]. intros [= <-]. destruct Hok as [Hmem _].
    split; cbn; done.
Qed.

(** Where nothing wraps, the percentage [CheckCpu] computes is the one the
    specification words. *)
Lemma cpu_percentage_is_spec (clk_tck : Z) (w : Watchdog) (newest oldest : Z) :
  0 <= newest - oldest < 2 ^ 64 ->
  (1 <= size_ (cpu_window_time_ticks_ w))%nat ->
  0 <= polling_interval_ms_ w ->
  (Z.of_nat (size_ (cpu_window_time_ticks_ w)) - 1) * polling_interval_ms_ w < 2 ^ 32 ->
  cpu_percentage clk_tck w newest oldest =
    cpu_percentage_spec newest oldest (size_ (cpu_window_time_ticks_ w))
      (polling_interval_ms_ w) clk_tck.
Proof.
  intros Hdiff Hsize Hpoll Hwin.
  unfold cpu_percentage, cpu_percentage_spec, WindowTimeForRingBuffer.
  set (n := Z.of_nat (size_ (cpu_window_time_ticks_ w)) - 1) in *.
  assert (0 <= n) by lia.
  unfold u64. rewrite (Z.mod_small (newest - oldest)) by lia.
  destruct (decide (polling_interval_ms_ w = 0)) as [E|E].
  - rewrite E, !Z.mul_0_r. done.
  - assert (n < 2 ^ 32) by nia.
    unfold u32. rewrite (Z.mod_small n) by lia.
    rewrite Z.mod_small by nia. done.
Qed.

(** C4 (as amended).  With its limit non-zero, a check pushes the sample
    and raises [SIGABRT] iff the push reports the ring full and the value
    compared exceeds the limit, both as doubles.  For memory that value is
    [Mean], the integer quotient of the 64-bit sum by the capacity, and
    below [2^53] the comparison is the one on integers.  For CPU it is the
    percentage of the specification in double arithmetic.  With a polling
    interval of 1 ms, a window of 4 ms and limit 100 the ring has five
    cells: the samples 50, 80, 120, 200 do not fill it and raise nothing; a
    fifth sample 200 fills it, the mean is 130 and [SIGABRT] is raised. *)
Theorem watchdog_threshold :
  (forall (clk_tck : Z) (w : Watchdog) (sample : Z),
     watchdog_ok w ->
     (memory_limit_bytes_ w <> 0 ->
      exists ring q,
        Push (memory_window_bytes_ w) sample = Ok (filled_ ring, ring) /\
        q = MeanForArray_total (buffer_ ring) (size_ ring) / Z.of_nat (size_ ring) /\
        Mean ring = Ok (double_of_Z q) /\
        (CheckMemory w sample = Fatal KILL_memory_watchdog <->
         filled_ ring = true /\
         double_gt (double_of_Z q) (double_of_Z (memory_limit_bytes_ w)) = true) /\
        (CheckMemory w sample <> Fatal KILL_memory_watchdog ->
         CheckMemory w sample = Ok (with_memory_window w ring)) /\
        (q < 2 ^ 53 -> 0 <= memory_limit_bytes_ w < 2 ^ 53 ->
         (double_gt (double_of_Z q) (double_of_Z (memory_limit_bytes_ w)) = true
          <-> memory_limit_bytes_ w < q))) /\
     (cpu_limit_percentage_ w <> 0 ->
      exists ring newest oldest,
        Push (cpu_window_time_ticks_ w) sample = Ok (filled_ ring, ring) /\
        (filled_ ring = true ->
         NewestWhenFull ring = Some newest /\ OldestWhenFull ring = Some oldest) /\
        (CheckCpu clk_tck w sample = Fatal KILL_cpu_watchdog <->
         filled_ ring = true /\
         double_gt (cpu_percentage clk_tck (with_cpu_window w ring) newest oldest)
                   (double_of_Z (cpu_limit_percentage_ w)) = true) /\
        (CheckCpu clk_tck w sample <> Fatal KILL_cpu_watchdog ->
         CheckCpu clk_tck w sample = Ok (with_cpu_window w ring)) /\
        (0 <= newest - oldest < 2 ^ 64 ->
         0 <= polling_interval_ms_ w ->
         (Z.of_nat (size_ ring) - 1) * polling_interval_ms_ w < 2 ^ 32 ->
         cpu_percentage clk_tck (with_cpu_window w ring) newest oldest =
           cpu_percentage_spec newest oldest (size_ ring)
             (polling_interval_ms_ w) clk_tck))) /\
  (exists w1 w4,
     SetMemoryLimit (Watchdog_new 1) 100 4 = Ok w1 /\
     size_ (memory_window_bytes_ w1) = 5%nat /\
     memory_checks w1 [50; 80; 120; 200] = Ok w4 /\
     filled_ (memory_window_bytes_ w4) = false /\
     CheckMemory w4 200 = Fatal KILL_memory_watchdog).
Proof.
  split.
  - intros clk_tck w sample Hok. split.
    + intros Hlimit.
      destruct (CheckMemory_cases w sample Hok Hlimit) as (ring & HP & Hr & HC).
      exists ring, (MeanForArray_total (buffer_ ring) (size_ ring)
                    / Z.of_nat (size_ ring)).
      split_and!; try done.
      * by apply Mean_ok.
      * rewrite HC. destruct (filled_ ring), (double_gt _ _); cbn; intuition (discriminate || congruence).
      * rewrite HC. destruct (filled_ ring), (double_gt _ _); cbn; intuition (discriminate || congruence).
      * intros Hq Hl. unfold double_gt. rewrite double_of_Z_ltb; [apply Z.ltb_lt|lia|].
        split; [|lia]. destruct Hr as (Hsize & _).
        apply Z.div_pos; [apply MeanForArray_total_range|lia].
    + intros Hlimit.
      destruct (CheckCpu_cases clk_tck w sample Hok Hlimit)
        as (ring & newest & oldest & HP & Hr & HW & HC).
      exists ring, newest, oldest. split_and!; try done.
      * rewrite HC. destruct (filled_ ring), (double_gt _ _); cbn; intuition (discriminate || congruence).
      * rewrite HC. destruct (filled_ ring), (double_gt _ _); cbn; intuition (discriminate || congruence).
      * intros Hdiff Hpoll Hwin. destruct Hr as (Hsize & _).
        rewrite cpu_percentage_is_spec; cbn; (done || lia).
  - do 2 eexists. split_and!; reflexivity.
Qed.

Lemma watchdog_threshold_witness :
  exists ring q,
    Push (memory_window_bytes_
            {| polling_interval_ms_ := 1; quit_ := false;
               memory_window_bytes_ := Reset WindowedInterval_new 1;
               memory_limit_bytes_ := 100;
               cpu_window_time_ticks_ := WindowedInterval_new;
               cpu_limit_percentage_ := 0 |}) 200 = Ok (filled_ ring, ring) /\
    q = MeanForArray_total (buffer_ ring) (size_ ring) / Z.of_nat (size_ ring) /\
    Mean ring = Ok (double_of_Z q).
Proof.
  destruct (proj1 (proj1 watchdog_threshold 100
              {| polling_interval_ms_ := 1; quit_ := false;
                 memory_window_bytes_ := Reset WindowedInterval_new 1;
                 memory_limit_bytes_ := 100;
                 cpu_window_time_ticks_ := WindowedInterval_new;
                 cpu_limit_percentage_ := 0 |} 200
              ltac:(split; cbn; [intros _; unfold ring_ok; cbn; lia | done]))
              ltac:(cbn; lia))
    as (ring & q & H1 & H2 & H3 & _).
  exists ring, q. split_and!; done.
Defined.

(** C4, as stated, fails.  With a polling interval of 1 ms, a window of
    4 ms and limit 100, the fourth sample of 50, 80, 120, 200 does not fill
    the ring: [Push] returns false and the check raises nothing. *)
Lemma watchdog_threshold_counterexample :
  exists w1 w3 ring w4,
    SetMemoryLimit (Watchdog_new 1) 100 4 = Ok w1 /\
    memory_checks w1 [50; 80; 120] = Ok w3 /\
    Push (memory_window_bytes_ w3) 200 = Ok (false, ring) /\
    CheckMemory w3 200 = Ok w4 /\
    buffer_ (memory_window_bytes_ w4) = [50; 80; 120; 200; 0].
Proof. do 4 eexists. split_and!; reflexivity. Qed.

(** In real arithmetic 210 ticks out of 3000 are 7 percent, which does not
    exceed a limit of 7; the doubles [CheckCpu] computes with give a value
    above 7, and the process is killed. *)
Example cpu_check_rounds_up :
  exists w1 w2,
    SetCpuLimit (Watchdog_new kDefaultPollingInterval) 7 30000 = Ok w1 /\
    CheckCpu 100 w1 0 = Ok w2 /\
    CheckCpu 100 w2 210 = Fatal KILL_cpu_watchdog.
Proof. do 2 eexists. split_and!; reflexivity. Qed.

(** *** The setters *)

Lemma IsMultipleOf_ok (number divisor : Z) :
  0 < divisor ->
  IsMultipleOf number divisor =
    Ok (bool_decide (divisor <= number /\ number mod divisor = 0)).
Proof.
  intros Hd. unfold IsMultipleOf.
  replace (divisor =? 0) with false by (symmetry; apply Z.eqb_neq; lia).
  f_equal. destruct (Z.leb_spec divisor number), (Z.eqb_spec (number mod divisor) 0);
    cbn; symmetry; (apply bool_decide_eq_true; lia) || (apply bool_decide_eq_false; lia).
Qed.

(** C8 (as amended).  [SetMemoryLimit(limit, window_ms)] and, for
    [limit <= 100], [SetCpuLimit(limit, window_ms)]: with a zero limit the
    check is disabled and the ring is reset to capacity 0; with a non-zero
    limit the call is fatal unless the window is a positive multiple of the
    polling interval, and otherwise resets the ring to
    [window_ms / polling_interval_ms + 1] zeroed cells, provided that
    number fits 32 bits. *)
Theorem limit_setters (w : Watchdog) (limit window_ms : Z) :
  0 < polling_interval_ms_ w -> 0 <= window_ms ->
  let polling := polling_interval_ms_ w in
  let multiple := polling <= window_ms /\ window_ms mod polling = 0 in
  let capacity := Z.to_nat (window_ms / polling + 1) in
  ((limit = 0 ->
    exists w', SetMemoryLimit w limit window_ms = Ok w' /\
      memory_limit_bytes_ w' = 0 /\
      size_ (memory_window_bytes_ w') = 0%nat /\
      buffer_ (memory_window_bytes_ w') = [] /\
      forall sample, CheckMemory w' sample = Ok w') /\
   (limit <> 0 -> ~ multiple ->
    SetMemoryLimit w limit window_ms = Fatal CHECK_memory_window_multiple) /\
   (limit <> 0 -> multiple -> window_ms / polling + 1 < 2 ^ 32 ->
    exists w', SetMemoryLimit w limit window_ms = Ok w' /\
      memory_limit_bytes_ w' = limit /\
      size_ (memory_window_bytes_ w') = capacity /\
      position_ (memory_window_bytes_ w') = 0%nat /\
      buffer_ (memory_window_bytes_ w') = replicate capacity 0)) /\
  (limit <= 100 ->
   (limit = 0 ->
    exists w', SetCpuLimit w limit window_ms = Ok w' /\
      cpu_limit_percentage_ w' = 0 /\
      size_ (cpu_window_time_ticks_ w') = 0%nat /\
      buffer_ (cpu_window_time_ticks_ w') = [] /\
      forall clk_tck sample, CheckCpu clk_tck w' sample = Ok w') /\
   (limit <> 0 -> ~ multiple ->
    SetCpuLimit w limit window_ms = Fatal CHECK_cpu_window_multiple) /\
   (limit <> 0 -> multiple -> window_ms / polling + 1 < 2 ^ 32 ->
    exists w', SetCpuLimit w limit window_ms = Ok w' /\
      cpu_limit_percentage_ w' = limit /\
      size_ (cpu_window_time_ticks_ w') = capacity /\
      position_ (cpu_window_time_ticks_ w') = 0%nat /\
      buffer_ (cpu_window_time_ticks_ w') = replicate capacity 0)).
Proof.
  intros Hpoll Hwin polling multiple capacity.
  assert (Hdiv : 0 <= window_ms / polling) by (apply Z.div_pos; lia).
  split; [|intros Hle]; split_and!.
  - intros ->. unfold SetMemoryLimit. rewrite IsMultipleOf_ok by done.
    cbn [mbind outcome_bind]. rewrite orb_true_r. cbn.
    eexists. split_and!; done.
  - intros Hlimit Hnot. unfold SetMemoryLimit. rewrite IsMultipleOf_ok by done.
    cbn [mbind outcome_bind].
    rewrite bool_decide_eq_false_2 by done.
    by replace (limit =? 0) with false by (symmetry; apply Z.eqb_neq; lia).
  - intros Hlimit Hmult Hfit. unfold SetMemoryLimit. rewrite IsMultipleOf_ok by done.
    cbn [mbind outcome_bind]. rewrite bool_decide_eq_true_2 by done. cbn.
    eexists. split; [reflexivity|]. unfold window_size. cbn.
    replace (limit =? 0) with false by (symmetry; apply Z.eqb_neq; lia).
    unfold u32. rewrite Z.mod_small by (fold polling; lia). done.
  - intros ->. unfold SetCpuLimit. cbn [CHECK Z.leb Z.compare mbind outcome_bind].
    rewrite IsMultipleOf_ok by done.
    cbn [mbind outcome_bind]. rewrite orb_true_r. cbn.
    eexists. split_and!; done.
  - intros Hlimit Hnot. unfold SetCpuLimit.
    replace (limit <=? 100) with true by (symmetry; apply Z.leb_le; lia).
    cbn [CHECK mbind outcome_bind]. rewrite IsMultipleOf_ok by done.
    cbn [mbind outcome_bind].
    rewrite bool_decide_eq_false_2 by done.
    by replace (limit =? 0) with false by (symmetry; apply Z.eqb_neq; lia).
  - intros Hlimit Hmult Hfit. unfold SetCpuLimit.
    replace (limit <=? 100) with true by (symmetry; apply Z.leb_le; lia).
    cbn [CHECK mbind outcome_bind]. rewrite IsMultipleOf_ok by done.
    cbn [mbind outcome_bind]. rewrite bool_decide_eq_true_2 by done. cbn.
    eexists. split; [reflexivity|]. unfold window_size. cbn.
    replace (limit =? 0) with false by (symmetry; apply Z.eqb_neq; lia).
    unfold u32. rewrite Z.mod_small by (fold polling; lia). done.
Qed.

Lemma limit_setters_witness :
  exists w',
    SetMemoryLimit (Watchdog_new kDefaultPollingInterval) 4096 60000 = Ok w' /\
    memory_limit_bytes_ w' = 4096 /\
    size_ (memory_window_bytes_ w') = 3%nat.
Proof.
  destruct (proj2 (proj2 (proj1 (limit_setters
              (Watchdog_new kDefaultPollingInterval) 4096 60000
              ltac:(reflexivity) ltac:(lia))))
              ltac:(lia) ltac:(split; [vm_compute; discriminate|reflexivity])
              ltac:(reflexivity))
    as (w' & H1 & H2 & H3 & _).
  exists w'. split_and!; [exact H1|exact H2|exact H3].
Defined.

(** C8, as stated, fails.  A CPU limit of 101 percent is non-zero and its
    window is a multiple of the polling interval, yet the ring is not
    reset: the call is fatal. *)
Lemma limit_setters_counterexample :
  30000 mod kDefaultPollingInterval = 0 /\
  SetCpuLimit (Watchdog_new kDefaultPollingInterval) 101 30000
    = Fatal CHECK_cpu_percentage.
Proof. split; reflexivity. Qed.

(** The sum [window_ms / polling_interval_ms + 1] is a 32-bit one: at the
    largest window and a polling interval of 1 ms it wraps to 0. *)
Example window_size_wraps :
  exists w',
    SetMemoryLimit (Watchdog_new 1) 1 (2 ^ 32 - 1) = Ok w' /\
    memory_limit_bytes_ w' = 1 /\
    size_ (memory_window_bytes_ w') = 0%nat.
Proof. eexists. split_and!; reflexivity. Qed.

(** C10.  [SetCpuLimit] with a percentage above 100 fails the first
    check; with a percentage of at most 100 that check never fails. *)
Theorem cpu_percentage_bound (w : Watchdog) (percentage window_ms : Z) :
  (100 < percentage ->
   SetCpuLimit w percentage window_ms = Fatal CHECK_cpu_percentage) /\
  (percentage <= 100 ->
   SetCpuLimit w percentage window_ms <> Fatal CHECK_cpu_percentage).
Proof.
  unfold SetCpuLimit. split; intros H.
  - by replace (percentage <=? 100) with false by (symmetry; apply Z.leb_gt; lia).
  - replace (percentage <=? 100) with true by (symmetry; apply Z.leb_le; lia).
    cbn [CHECK mbind outcome_bind]. unfold IsMultipleOf.
    destruct (polling_interval_ms_ w =? 0); [done|]. cbn [mbind outcome_bind].
    by destruct (_ || _).
Qed.

Lemma cpu_percentage_bound_witness :
  SetCpuLimit (Watchdog_new kDefaultPollingInterval) 101 30000
    = Fatal CHECK_cpu_percentage /\
  SetCpuLimit (Watchdog_new kDefaultPollingInterval) 100 30000
    <> Fatal CHECK_cpu_percentage.
Proof.
  split.
  - apply (proj1 (cpu_percentage_bound _ 101 30000)). lia.
  - apply (proj2 (cpu_percentage_bound _ 100 30000)). lia.
Defined.

(** *** The worker thread *)

Section Worker.

Variables clk_tck kPageSize : Z.

Lemma CheckMemory_outcome (w : Watchdog) (sample : Z) :
  watchdog_ok w ->
  (exists w', CheckMemory w sample = Ok w' /\ watchdog_ok w') \/
  CheckMemory w sample = Fatal KILL_memory_watchdog.
Proof.
  intros Hok. destruct (decide (memory_limit_bytes_ w = 0)) as [E|E].
  - left. exists w. unfold CheckMemory. by rewrite E.
  - destruct (CheckMemory_cases w sample Hok E) as (ring & _ & _ & HC).
    destruct (_ && _); [by right|]. left. eexists. split; [done|].
    by eapply CheckMemory_watchdog_ok.
Qed.

Lemma CheckCpu_outcome (w : Watchdog) (sample : Z) :
  watchdog_ok w ->
  (exists w', CheckCpu clk_tck w sample = Ok w' /\ watchdog_ok w') \/
  CheckCpu clk_tck w sample = Fatal KILL_cpu_watchdog.
Proof.
  intros Hok. destruct (decide (cpu_limit_percentage_ w = 0)) as [E|E].
  - left. exists w. unfold CheckCpu. by rewrite E.
  - destruct (CheckCpu_cases clk_tck w sample Hok E)
      as (ring & newest & oldest & _ & _ & _ & HC).
    destruct (_ && _); [by right|]. left. eexists. split; [done|].
    by eapply CheckCpu_watchdog_ok.
Qed.

Lemma loop_exit_cons (i : poll_input) (inputs : list poll_input)
    (res : outcome (thread_state * Watchdog)) :
  turn_continues i -> loop_exit inputs res -> loop_exit (i :: inputs) res.
Proof.
  intros Hi. unfold loop_exit.
  destruct res as [[st w']|site|]; [destruct st as [|[]]|destruct site|];
    try done;
    first [ intros [? ?]; split; [by constructor|done]
          | intros (pre & j & post & -> & Hpre & Hj);
            exists (i :: pre), j, post;
            split; [done|split; [by constructor|done]] ].
Qed.

Lemma ThreadMain_loop_exit (inputs : list poll_input) (w : Watchdog) :
  watchdog_ok w ->
  loop_exit inputs (ThreadMain_loop clk_tck kPageSize w inputs).
Proof.
  revert w. induction inputs as [|i inputs IH]; intros w Hok.
  - cbn. by split.
  - cbn [ThreadMain_loop].
    destruct (quit_seen i) eqn:Hq.
    { exists [], i, inputs. by split_and!. }
    destruct (stat i) as [|[[[utime stime] rss_pages]|]] eqn:Hs.
    { exists [], i, inputs. by split_and!. }
    2:{ exists [], i, inputs. by split_and!. }
    assert (Hi : turn_continues i) by (split; [done|by eexists]).
    destruct (CheckMemory_outcome w (u64 (u64 rss_pages * kPageSize)) Hok)
      as [(w1 & -> & Hok1)| ->]; cbn [mbind outcome_bind].
    2:{ exists [], i, inputs. by split_and!. }
    destruct (CheckCpu_outcome w1 (u64 (utime + stime)) Hok1)
      as [(w2 & -> & Hok2)| ->]; cbn [mbind outcome_bind].
    2:{ exists [], i, inputs. by split_and!. }
    apply loop_exit_cons; [done|]. by apply IH.
Qed.

End Worker.

Lemma CheckMemory_fatal (w : Watchdog) (sample : Z) (site : crash_site) :
  CheckMemory w sample = Fatal site -> site = KILL_memory_watchdog.
Proof.
  unfold CheckMemory. destruct (_ =? _); [done|].
  unfold Push. destruct (_ || _); [done|]. cbn [mbind outcome_bind].
  destruct (filled_ _ || _); [|done].
  unfold Mean, MeanForArray. cbn [size_ buffer_].
  destruct (_ =? _)%nat; [done|]. cbn [mbind outcome_bind].
  destruct (double_gt _ _); [|done]. by intros [= <-].
Qed.

Lemma CheckCpu_fatal (clk_tck : Z) (w : Watchdog) (sample : Z)
    (site : crash_site) :
  CheckCpu clk_tck w sample = Fatal site -> site = KILL_cpu_watchdog.
Proof.
  unfold CheckCpu. destruct (_ =? _); [done|].
  unfold Push. destruct (_ || _); [done|]. cbn [mbind outcome_bind].
  destruct (filled_ _ || _); [|done].
  destruct (NewestWhenFull _) as [newest|]; [|done].
  destruct (OldestWhenFull _) as [oldest|]; [|done].
  destruct (double_gt _ _); [|done]. by intros [= <-].
Qed.

Section WorkerChecks.

Variables clk_tck kPageSize : Z.

Lemma worker_exit_cons (w w1 : Watchdog) (i : poll_input)
    (inputs : list poll_input) (res : outcome (thread_state * Watchdog)) :
  turn_continues i ->
  turn_checks clk_tck kPageSize w i = Ok w1 ->
  worker_exit clk_tck kPageSize w1 inputs res ->
  worker_exit clk_tck kPageSize w (i :: inputs) res.
Proof.
  intros Hi Hchecks.
  assert (Hended : forall w' j,
            (exists pre post, inputs = pre ++ j :: post /\
               Forall turn_continues pre /\
               turns_checks clk_tck kPageSize w1 pre = Ok w') ->
            exists pre post, i :: inputs = pre ++ j :: post /\
              Forall turn_continues pre /\
              turns_checks clk_tck kPageSize w pre = Ok w').
  { intros w' j (pre & post & -> & Hpre & Hrun).
    exists (i :: pre), post. split_and!; [done|by constructor|].
    cbn [turns_checks]. by rewrite Hchecks. }
  unfold worker_exit.
  destruct res as [[st w']|site|]; [destruct st as [|[]]|destruct site|];
    try done.
  - intros [Hall Hrun]. split; [by constructor|].
    cbn [turns_checks]. by rewrite Hchecks.
  - intros (j & Hj & ?). exists j. split; [by apply Hended|done].
  - intros (j & Hj & ?). exists j. split; [by apply Hended|done].
  - intros (w' & j & Hj & ?). exists w', j. split; [by apply Hended|done].
  - intros (w' & j & rss & cpu & Hj & ?). exists w', j, rss, cpu.
    split; [by apply Hended|done].
  - intros (w' & j & rss & cpu & w2 & Hj & ?). exists w', j, rss, cpu, w2.
    split; [by apply Hended|done].
  - intros (w' & j & Hj & ?). exists w', j. split; [by apply Hended|done].
Qed.

Lemma ThreadMain_loop_worker_exit (inputs : list poll_input) (w : Watchdog) :
  worker_exit clk_tck kPageSize w inputs
    (ThreadMain_loop clk_tck kPageSize w inputs).
Proof.
  revert w. induction inputs as [|i inputs IH]; intros w.
  - cbn. by split.
  - assert (Hhere : exists pre post, i :: inputs = pre ++ i :: post /\
              Forall turn_continues pre /\
              turns_checks clk_tck kPageSize w pre = Ok w).
    { exists [], inputs. by split_and!. }
    cbn [ThreadMain_loop].
    destruct (quit_seen i) eqn:Hq.
    { exists i. by split. }
    destruct (stat i) as [|[[[utime stime] rss_pages]|]] eqn:Hs.
    { exists i. by split_and!. }
    2:{ exists w, i. by split_and!. }
    assert (Hi : turn_continues i) by (split; [done|by eexists]).
    assert (Hsamples : turn_samples kPageSize i =
              Some (u64 (u64 rss_pages * kPageSize), u64 (utime + stime)))
      by (unfold turn_samples; by rewrite Hs).
    destruct (CheckMemory w (u64 (u64 rss_pages * kPageSize)))
      as [w1|site|] eqn:Hmem; cbn [mbind outcome_bind].
    2:{ pose proof (CheckMemory_fatal _ _ _ Hmem) as ->.
        exists w, i. do 2 eexists. by split_and!. }
    2:{ exists w, i. split_and!; [done|done|].
        unfold turn_checks. by rewrite Hsamples, Hmem. }
    destruct (CheckCpu clk_tck w1 (u64 (utime + stime)))
      as [w2|site|] eqn:Hcpu; cbn [mbind outcome_bind].
    2:{ pose proof (CheckCpu_fatal _ _ _ _ Hcpu) as ->.
        exists w, i. do 3 eexists. by split_and!. }
    2:{ exists w, i. split_and!; [done|done|].
        unfold turn_checks. rewrite Hsamples, Hmem. by cbn. }
    apply (worker_exit_cons w w2); [done| |by apply IH].
    unfold turn_checks. rewrite Hsamples, Hmem. by cbn.
Qed.

End WorkerChecks.

(** C9 (as amended).  Once launched, the worker makes its memory check and
    then its CPU check, on the values read, in every turn in which the
    quit flag is clear and [/proc/self/stat] is read and scanned; and it
    keeps polling, or the process is killed (by one of the two checks, or
    by the check on the scan), or the worker returns: at once when the
    file cannot be opened, or in the first turn in which it sees the quit
    flag or fails to read the file.  It ends in no other way, but for a
    check whose behaviour is undefined, which takes a limit without its
    ring. *)
Theorem worker_exits (clk_tck kPageSize : Z) (open_ok : bool) (w : Watchdog)
    (inputs : list poll_input) :
  let res := ThreadMain clk_tck kPageSize open_ok w inputs in
  (if open_ok then worker_exit clk_tck kPageSize w inputs res
   else res = Ok (Returned OpenFailed, w)) /\
  (watchdog_ok w -> res <> Undefined).
Proof.
  intros res. unfold res, ThreadMain. split.
  - destruct open_ok; [|done]. apply ThreadMain_loop_worker_exit.
  - intros Hok. destruct open_ok; [|done].
    pose proof (ThreadMain_loop_exit clk_tck kPageSize inputs w Hok) as Hexit.
    by destruct (ThreadMain_loop _ _ _ _).
Qed.

Lemma worker_exits_witness :
  let w := {| polling_interval_ms_ := 30000; quit_ := false;
              memory_window_bytes_ := Reset WindowedInterval_new 2;
              memory_limit_bytes_ := 8192;
              cpu_window_time_ticks_ := WindowedInterval_new;
              cpu_limit_percentage_ := 0 |} in
  let turn rss_pages :=
    {| quit_seen := false; stat := ReadFields (Some (10, 5, rss_pages)) |} in
  SetMemoryLimit (Watchdog_new 30000) 8192 30000
    = Ok {| polling_interval_ms_ := 30000; quit_ := true;
            memory_window_bytes_ := Reset WindowedInterval_new 2;
            memory_limit_bytes_ := 8192;
            cpu_window_time_ticks_ := WindowedInterval_new;
            cpu_limit_percentage_ := 0 |} /\
  ThreadMain 100 4096 true w [turn 1; turn 2] <> Undefined /\
  ThreadMain 100 4096 true w [turn 1; turn 2] = Ok (Polling,
    {| polling_interval_ms_ := 30000; quit_ := false;
       memory_window_bytes_ :=
         {| filled_ := true; position_ := 0; size_ := 2;
            buffer_ := [4096; 8192] |};
       memory_limit_bytes_ := 8192;
       cpu_window_time_ticks_ := WindowedInterval_new;
       cpu_limit_percentage_ := 0 |}) /\
  ThreadMain 100 4096 true w [turn 1; turn 4] = Fatal KILL_memory_watchdog.
Proof.
  intros w turn. split; [reflexivity|].
  assert (Hok : watchdog_ok w).
  { split; cbn; [intros _|done]. unfold ring_ok. cbn. lia. }
  split; [exact (proj2 (worker_exits 100 4096 true w [turn 1; turn 2]) Hok)|].
  split; vm_compute; reflexivity.
Defined.

(** C9, as stated, fails.  The quit flag is clear and no limit is
    exceeded, yet the worker stops enforcing the limits: a failed read of
    [/proc/self/stat] makes it return, and so does a failed open. *)
Lemma worker_exits_counterexample :
  let w := Watchdog_new kDefaultPollingInterval in
  ThreadMain 100 4096 true w [ {| quit_seen := false; stat := ReadError |} ]
    = Ok (Returned ReadFailed, w) /\
  ThreadMain 100 4096 false w [] = Ok (Returned OpenFailed, w).
Proof. split; reflexivity. Qed.

End WatchdogProofs.

(** ** The probes producer: proofs *)

Module ProbesProofs.
Import Probes ProbesSpec.

(** *** Field updates *)

Lemma emit_nil (p : ProbesProducer) : emit [] p = p.
Proof. destruct p. unfold emit. cbn. by rewrite app_nil_r. Qed.

Lemma emit_emit (es1 es2 : list Effect) (p : ProbesProducer) :
  emit es2 (emit es1 p) = emit (es1 ++ es2) p.
Proof. unfold emit. cbn. by rewrite app_assoc. Qed.

Lemma set_pending_flushes_same (p : ProbesProducer) :
  set_pending_flushes (pending_flushes_ p) p = p.
Proof. by destruct p. Qed.

(** *** Reconnecting *)

Lemma reconnect_delays_app (tr1 tr2 : list Effect) :
  reconnect_delays (tr1 ++ tr2) = reconnect_delays tr1 ++ reconnect_delays tr2.
Proof. apply omap_app. Qed.

Lemma DCHECK_holds (dcheck_is_on : bool) (site : crash_site) (cond : bool) :
  cond = true -> DCHECK dcheck_is_on site cond = Ok tt.
Proof. intros ->. unfold DCHECK. by rewrite andb_false_r. Qed.

Lemma deref_holds (pointer : bool) : pointer = true -> deref pointer = Ok tt.
Proof. by intros ->. Qed.

(** One failed attempt doubles the backoff, up to the cap, and schedules a
    reconnect after the new backoff. *)
Lemma failed_attempt_connecting (dcheck_is_on : bool) (p : ProbesProducer) :
  state_ p = kConnecting ->
  task_runner_ p = true ->
  0 <= connection_backoff_ms_ p <= kMaxConnectionBackoffMs ->
  exists p',
    failed_attempt dcheck_is_on p = Ok p' /\
    state_ p' = kConnecting /\
    task_runner_ p' = true /\
    endpoint_ p' = true /\
    connection_backoff_ms_ p' =
      Z.min (2 * connection_backoff_ms_ p) kMaxConnectionBackoffMs /\
    trace p' =
      trace p ++ [PostDelayedTask_Connect (connection_backoff_ms_ p'); IPC_Connect].
Proof.
  intros Hst Hrunner Hb. unfold failed_attempt, OnDisconnect.
  rewrite Hst. rewrite DCHECK_holds by done. cbn [mbind outcome_bind].
  destruct (decide (kConnecting = kConnected)) as [|_]; [done|].
  rewrite deref_holds by done. cbn [mbind outcome_bind].
  unfold Connect.
  cbn [emit set_connection IncreaseConnectionBackoff state_].
  rewrite DCHECK_holds by done. cbn [mbind outcome_bind].
  eexists. split; [reflexivity|]. cbn.
  unfold kMaxConnectionBackoffMs in *.
  assert (Hu : u32 (connection_backoff_ms_ p * 2) = 2 * connection_backoff_ms_ p).
  { unfold u32. rewrite Z.mod_small; lia. }
  rewrite Hu, <- app_assoc. cbn [app].
  destruct (Z.ltb_spec (30 * 1000) (2 * connection_backoff_ms_ p));
    split_and!; try done; lia.
Qed.

Lemma nth_delay_bounds (k : nat) : 0 <= nth_delay k <= kMaxConnectionBackoffMs.
Proof.
  unfold nth_delay, kMaxConnectionBackoffMs, kInitialConnectionBackoffMs.
  assert (0 < 2 ^ (Z.of_nat k + 1)) by (apply Z.pow_pos_nonneg; lia). lia.
Qed.

Lemma nth_delay_succ (k : nat) :
  Z.min (2 * nth_delay k) kMaxConnectionBackoffMs = nth_delay (S k).
Proof.
  unfold nth_delay, kMaxConnectionBackoffMs, kInitialConnectionBackoffMs.
  rewrite Nat2Z.inj_succ.
  replace (Z.succ (Z.of_nat k) + 1) with (Z.succ (Z.of_nat k + 1)) by lia.
  rewrite Z.pow_succ_r by lia.
  assert (0 < 2 ^ (Z.of_nat k + 1)) by (apply Z.pow_pos_nonneg; lia). lia.
Qed.

Lemma failed_attempts_delays (dcheck_is_on : bool) (n j : nat) (p : ProbesProducer) :
  state_ p = kConnecting ->
  task_runner_ p = true ->
  endpoint_ p = true ->
  Z.min (2 * connection_backoff_ms_ p) kMaxConnectionBackoffMs = nth_delay j ->
  0 <= connection_backoff_ms_ p <= kMaxConnectionBackoffMs ->
  exists p',
    failed_attempts dcheck_is_on n p = Ok p' /\
    state_ p' = kConnecting /\
    endpoint_ p' = true /\
    reconnect_delays (trace p') =
      reconnect_delays (trace p) ++ (nth_delay <$> seq j n).
Proof.
  revert j p. induction n as [|n IH]; intros j p Hst Hrunner Hep Hb Hr.
  - exists p. cbn. by rewrite app_nil_r.
  - destruct (failed_attempt_connecting dcheck_is_on p Hst Hrunner Hr)
      as (p1 & Hp1 & Hst1 & Hrunner1 & Hep1 & Hb1 & Htr1).
    cbn [failed_attempts]. rewrite Hp1. cbn [mbind outcome_bind].
    rewrite Hb in Hb1.
    destruct (IH (S j) p1 Hst1 Hrunner1 Hep1) as (p' & -> & Hst' & Hep' & Htr').
    { rewrite Hb1. apply nth_delay_succ. }
    { rewrite Hb1. apply nth_delay_bounds. }
    exists p'. split_and!; try done.
    rewrite Htr', Htr1, reconnect_delays_app, Hb1. cbn.
    by rewrite <- app_assoc.
Qed.

(** C2 (as amended).  After [ConnectWithRetries], the failure number [k]
    (from 0) in the connecting state schedules the reconnect after
    [min (100 * 2^(k+1)) 30000] ms: the delays begin at 200 ms, double, and
    stay at 30000 ms from the ninth on; four failures schedule 200, 400,
    800 and 1600 ms.  [OnConnect] puts the backoff back to 100 ms. *)
Theorem reconnect_backoff (descriptor_name : Descriptor -> string)
    (dcheck_is_on : bool) (p : ProbesProducer) (n : nat) :
  state_ p = kNotStarted ->
  (exists p0 pn pc,
     ConnectWithRetries dcheck_is_on true p = Ok p0 /\
     failed_attempts dcheck_is_on n p0 = Ok pn /\
     reconnect_delays (trace pn) =
       reconnect_delays (trace p) ++ (nth_delay <$> seq 0 n) /\
     OnConnect descriptor_name dcheck_is_on pn = Ok pc /\
     state_ pc = kConnected /\
     connection_backoff_ms_ pc = 100) /\
  nth_delay <$> seq 0 4 = [200; 400; 800; 1600] /\
  (forall k, nth_delay (S k) = Z.min (2 * nth_delay k) 30000) /\
  (forall k, (8 <= k)%nat -> nth_delay k = 30000).
Proof.
  intros Hst. split_and!.
  - unfold ConnectWithRetries, Connect. rewrite Hst.
    rewrite DCHECK_holds by done. cbn [mbind outcome_bind].
    cbn [ResetConnectionBackoff set_connection set_task_runner state_].
    rewrite DCHECK_holds by done. cbn [mbind outcome_bind].
    set (p0 := emit _ _).
    destruct (failed_attempts_delays dcheck_is_on n 0 p0)
      as (pn & Hpn & Hstn & Hepn & Htrn); [done..|].
    assert (Hconn : exists pc, OnConnect descriptor_name dcheck_is_on pn = Ok pc /\
              state_ pc = kConnected /\ connection_backoff_ms_ pc = 100).
    { unfold OnConnect. rewrite Hstn. rewrite DCHECK_holds by done.
      cbn [mbind outcome_bind].
      cbn [endpoint_ ResetConnectionBackoff set_connection]. rewrite Hepn.
      cbn [deref mbind outcome_bind]. eexists. split; [reflexivity|].
      by destruct (all_data_sources_registered_cb_ _). }
    destruct Hconn as (pc & Hpc & Hstc & Hbc).
    exists p0, pn, pc. split_and!; try done.
    rewrite Htrn. unfold p0. cbn. by rewrite reconnect_delays_app, app_nil_r.
  - reflexivity.
  - intros k. symmetry. apply nth_delay_succ.
  - intros k Hk. unfold nth_delay, kMaxConnectionBackoffMs, kInitialConnectionBackoffMs.
    assert (2 ^ 9 <= 2 ^ (Z.of_nat k + 1)) by (apply Z.pow_le_mono_r; lia). lia.
Qed.

Lemma reconnect_backoff_witness :
  exists p0 pn,
    ConnectWithRetries true true (ProbesProducer_new []) = Ok p0 /\
    failed_attempts true 4 p0 = Ok pn /\
    reconnect_delays (trace pn) = [200; 400; 800; 1600].
Proof.
  destruct (proj1 (reconnect_backoff example_names true (ProbesProducer_new []) 4
                     eq_refl))
    as (p0 & pn & pc & H0 & Hn & Hd & _).
  exists p0, pn. split_and!; [exact H0|exact Hn|exact Hd].
Defined.

(** C2, as stated, fails.  The first failed attempt after
    [ConnectWithRetries] already schedules the reconnect after 200 ms:
    four failures give 200, 400, 800, 1600 and not 100, 200, 400, 800. *)
Lemma reconnect_backoff_counterexample :
  (fun p => reconnect_delays (trace p)) <$> four_failures
    = Ok [200; 400; 800; 1600] /\
  (fun p => reconnect_delays (trace p)) <$> four_failures
    <> Ok [100; 200; 400; 800].
Proof. split; [vm_compute; reflexivity|vm_compute; discriminate]. Qed.

(** *** Flushes *)

Lemma erase_first_absent {A} `{EqDecision A} (x : A) (l : list A) :
  x ∉ l -> erase_first x l = l.
Proof.
  induction l as [|y l IH]; [done|]. intros Hx. cbn.
  destruct (decide (x = y)) as [->|_].
  - exfalso. apply Hx. by left.
  - f_equal. apply IH. intros ?. apply Hx. by right.
Qed.

Lemma count_key_0_absent (flush_id id : N) (l : list (N * N)) :
  count_key flush_id l = 0%nat -> (flush_id, id) ∉ l.
Proof.
  unfold count_key, equal_range. rewrite length_fmap. intros Hc Hin.
  apply length_zero_iff_nil in Hc.
  assert (Hf : (flush_id, id) ∈ filter (fun kv : N * N => kv.1 = flush_id) l)
    by (by apply list_elem_of_filter).
  rewrite Hc in Hf. by apply not_elem_of_nil in Hf.
Qed.

(** An acknowledgement that finds nothing pending for its flush tells the
    service that the flush is complete. *)
Lemma late_ack_notifies (p : ProbesProducer) (flush_id id : N) :
  endpoint_ p = true ->
  count_key flush_id (pending_flushes_ p) = 0%nat ->
  OnDataSourceFlushComplete p flush_id id =
    Ok (emit [NotifyFlushComplete flush_id] p).
Proof.
  intros Hep Hc. unfold OnDataSourceFlushComplete.
  rewrite erase_first_absent by (by apply count_key_0_absent).
  rewrite set_pending_flushes_same. by rewrite Hc, Hep.
Qed.

(** The timeout of a flush that has nothing pending does nothing. *)
Lemma OnFlushTimeout_idle (p : ProbesProducer) (flush_id : N) :
  count_key flush_id (pending_flushes_ p) = 0%nat ->
  OnFlushTimeout p flush_id = Ok p.
Proof. intros Hc. unfold OnFlushTimeout. by rewrite Hc. Qed.

(** C1, on the code.  Flush 42 of the started data sources 1 and 2; data
    source 1 acknowledges; the timeout erases the entry of data source 2
    and notifies the service; the late acknowledgement of data source 2
    notifies the service a second time. *)
Theorem late_ack_notifies_twice :
  exists p p1 p2 p3,
    flush_started = Ok p /\
    pending_flushes_ p = [(42, 1); (42, 2)]%N /\
    OnDataSourceFlushComplete p 42 1 = Ok p1 /\
    OnFlushTimeout p1 42 = Ok p2 /\
    OnDataSourceFlushComplete p2 42 2 = Ok p3 /\
    flush_notifications 42 (trace p1) = 0%nat /\
    flush_notifications 42 (trace p2) = 1%nat /\
    pending_flushes_ p2 = [] /\
    flush_notifications 42 (trace p3) = 2%nat.
Proof.
  destruct flush_started as [p| |] eqn:Hp; try (vm_compute in Hp; discriminate).
  destruct (OnDataSourceFlushComplete p 42 1) as [p1| |] eqn:H1;
    try (vm_compute in Hp; injection Hp as <-; vm_compute in H1; discriminate).
  destruct (OnFlushTimeout p1 42) as [p2| |] eqn:H2;
    try (vm_compute in Hp; injection Hp as <-;
         vm_compute in H1; injection H1 as <-;
         vm_compute in H2; discriminate).
  destruct (OnDataSourceFlushComplete p2 42 2) as [p3| |] eqn:H3;
    try (vm_compute in Hp; injection Hp as <-;
         vm_compute in H1; injection H1 as <-;
         vm_compute in H2; injection H2 as <-;
         vm_compute in H3; discriminate).
  exists p, p1, p2, p3.
  vm_compute in Hp; injection Hp as <-.
  vm_compute in H1; injection H1 as <-.
  vm_compute in H2; injection H2 as <-.
  vm_compute in H3; injection H3 as <-.
  split_and!; vm_compute; reflexivity.
Qed.

(** *** Setting up a data source *)

Lemma notifications_app (tr1 tr2 : list Effect) :
  notifications (tr1 ++ tr2) = notifications tr1 ++ notifications tr2.
Proof. apply filter_app. Qed.

(** A factory that yields nothing leaves the registry alone and tells the
    service nothing. *)
Lemma CreateDSInstance_none (on_demand_dumps_of : DataSourceConfig -> bool)
    (to_BufferID : Z -> Z)
    (d : Descriptor) (env : FtraceEnv) (p p' : ProbesProducer)
    (session_id : N) (config : DataSourceConfig) :
  CreateDSInstance on_demand_dumps_of to_BufferID d env p session_id config
    = Ok (None, p') ->
  data_sources_ p' = data_sources_ p /\
  session_data_sources_ p' = session_data_sources_ p /\
  watchdogs_ p' = watchdogs_ p /\
  pending_flushes_ p' = pending_flushes_ p /\
  heap p' = heap p /\
  exists es, trace p' = trace p ++ es /\ notifications es = [].
Proof.
  unfold CreateDSInstance.
  destruct d; try (by destruct (endpoint_ p)).
  destruct (ftrace_creation_failed_ p).
  { intros [= <-]. split_and!; try done. exists []. by rewrite app_nil_r. }
  destruct (ftrace_ p).
  - destruct (endpoint_ p); [|done]. cbn [deref mbind outcome_bind].
    destruct (add_ok env); [done|]. intros [= <-]. split_and!; try done.
    eexists. split; [cbn; by rewrite <- app_assoc|done].
  - destruct (create_ok env).
    + cbn [endpoint_ set_ftrace].
      destruct (endpoint_ p); [|done]. cbn [deref mbind outcome_bind].
      destruct (add_ok env); [done|]. intros [= <-]. split_and!; try done.
      eexists. split; [cbn; by rewrite <- app_assoc|done].
    + intros [= <-]. split_and!; try done. eexists. split; [reflexivity|done].
Qed.

(** C6.  [SetupDataSource] is fatal for session id 0 and, where
    [PERFETTO_DCHECK] is on, for an instance id in use.  With the id free
    and the session id positive, a config whose name is in no descriptor,
    or whose factory yields nothing, makes it log and return: both indices
    and the heap are as before and the service is told nothing; and
    [StartDataSource] on that id then only logs. *)
Theorem setup_failure (descriptor_name : Descriptor -> string)
    (dcheck_is_on : bool) (on_demand_dumps_of : DataSourceConfig -> bool)
    (to_BufferID : Z -> Z)
    (env : FtraceEnv) (p : ProbesProducer) (instance_id : N)
    (config : DataSourceConfig) :
  let setup :=
    SetupDataSource descriptor_name dcheck_is_on on_demand_dumps_of to_BufferID env p
      instance_id config in
  (dcheck_is_on = true -> data_sources_ p !! instance_id <> None ->
   setup = Fatal DCHECK_instance_id_unused) /\
  (data_sources_ p !! instance_id = None -> tracing_session_id config = 0%N ->
   setup = Fatal CHECK_session_id) /\
  (data_sources_ p !! instance_id = None ->
   (0 < tracing_session_id config)%N ->
   find_data_source descriptor_name (name config) = None \/
   (exists d p1, find_data_source descriptor_name (name config) = Some d /\
      CreateDSInstance on_demand_dumps_of to_BufferID d env p
        (tracing_session_id config) config = Ok (None, p1)) ->
   exists p' es,
     setup = Ok p' /\
     data_sources_ p' = data_sources_ p /\
     session_data_sources_ p' = session_data_sources_ p /\
     heap p' = heap p /\
     trace p' = trace p ++ es ++ [ELOG "Failed to create data source"] /\
     notifications (trace p') = notifications (trace p) /\
     forall config',
       StartDataSource p' instance_id config' =
         Ok (emit [ELOG "Data source not found"] p')).
Proof.
  intros setup. subst setup. unfold SetupDataSource. split_and!.
  - intros -> Hused. unfold DCHECK.
    rewrite bool_decide_eq_false_2 by done. done.
  - intros Hfree Hsession. rewrite DCHECK_holds by (by apply bool_decide_eq_true).
    cbn [mbind outcome_bind]. by rewrite Hsession.
  - intros Hfree Hsession Hfail.
    rewrite DCHECK_holds by (by apply bool_decide_eq_true).
    cbn [mbind outcome_bind].
    replace (0 <? tracing_session_id config)%N with true
      by (symmetry; by apply N.ltb_lt).
    cbn [CHECK mbind outcome_bind].
    assert (Hnone : exists p1 es,
      match find_data_source descriptor_name (name config) with
      | Some d => CreateDSInstance on_demand_dumps_of to_BufferID d env p
                    (tracing_session_id config) config
      | None => Ok (None, p)
      end = Ok (None, p1) /\
      data_sources_ p1 = data_sources_ p /\
      session_data_sources_ p1 = session_data_sources_ p /\
      heap p1 = heap p /\
      trace p1 = trace p ++ es /\ notifications es = []).
    { destruct Hfail as [->|(d & p1 & -> & HC)].
      - exists p, []. split_and!; try done. by rewrite app_nil_r.
      - destruct (CreateDSInstance_none _ _ _ _ _ _ _ _ HC)
          as (H1 & H2 & _ & _ & H5 & es & H6 & H7).
        exists p1, es. by split_and!. }
    destruct Hnone as (p1 & es & -> & H1 & H2 & H3 & H4 & H5).
    cbn [mbind outcome_bind].
    eexists _, es. split; [reflexivity|]. cbn.
    split_and!; try done.
    + rewrite H4. symmetry. apply app_assoc.
    + fold (notifications (trace p1 ++ [ELOG "Failed to create data source"])).
      rewrite H4, !notifications_app, H5. cbn. by rewrite !app_nil_r.
    + intros config'. unfold StartDataSource. cbn. by rewrite H1, Hfree.
Qed.

Lemma setup_failure_witness :
  exists p',
    SetupDataSource example_names true (fun _ => true) example_BufferID ftrace_works
      (ProbesProducer_new []) 1%N (example_config "no.such.source" 7) = Ok p' /\
    data_sources_ p' = ∅ /\
    session_data_sources_ p' = ∅ /\
    StartDataSource p' 1%N (example_config "no.such.source" 7) =
      Ok (emit [ELOG "Data source not found"] p').
Proof.
  destruct (proj2 (proj2 (setup_failure example_names true (fun _ => true) example_BufferID
              ftrace_works (ProbesProducer_new []) 1%N
              (example_config "no.such.source" 7)))
              eq_refl eq_refl (or_introl eq_refl))
    as (p' & es & H1 & H2 & H3 & _ & _ & _ & H7).
  exists p'. split_and!; [exact H1|exact H2|exact H3|apply H7].
Defined.

(** *** The registry *)

#[local] Instance same_identity_refl : Reflexive same_identity.
Proof. by intros x. Qed.
#[local] Instance same_identity_trans : Transitive same_identity.
Proof. intros x y z [? ?] [? ?]. split; congruence. Qed.
#[local] Instance same_but_metadata_refl : Reflexive same_but_metadata.
Proof. by intros x. Qed.
#[local] Instance same_but_metadata_trans : Transitive same_but_metadata.
Proof. intros x y z (? & ? & ? & ?) (? & ? & ? & ?). split_and!; congruence. Qed.

Lemma similar_refl (R : relation ProbesDataSource) `{!Reflexive R}
    (p : ProbesProducer) : similar R p p.
Proof. split_and!; [done..|]. intros a. by destruct (heap p !! a); constructor. Qed.

Lemma similar_trans (R : relation ProbesDataSource) `{!Transitive R}
    (p1 p2 p3 : ProbesProducer) :
  similar R p1 p2 -> similar R p2 p3 -> similar R p1 p3.
Proof.
  intros (H1 & H2 & H3) (H4 & H5 & H6). split_and!; [congruence..|].
  intros a. specialize (H3 a). specialize (H6 a).
  destruct H3; inversion H6; subst; constructor. by etrans.
Qed.

Lemma similar_weaken (p p' : ProbesProducer) :
  similar same_but_metadata p p' -> similar same_identity p p'.
Proof.
  intros (H1 & H2 & H3). split_and!; try done. intros a.
  destruct (H3 a) as [x y (? & ? & _)|]; constructor. by split.
Qed.

Lemma similar_same_heap (R : relation ProbesDataSource) `{!Reflexive R}
    (p p' : ProbesProducer) :
  data_sources_ p' = data_sources_ p ->
  session_data_sources_ p' = session_data_sources_ p ->
  heap p' = heap p -> similar R p p'.
Proof.
  intros H1 H2 H3. split_and!; try done. intros a. rewrite H3.
  by destruct (heap p !! a); constructor.
Qed.

(** Replacing a live object by a related one. *)
Lemma similar_insert (R : relation ProbesDataSource) `{!Reflexive R}
    (p : ProbesProducer) (a : addr) (x y : ProbesDataSource) :
  heap p !! a = Some x -> R x y ->
  similar R p (set_heap (<[a := y]> (heap p)) p).
Proof.
  intros Ha HR. split_and!; try done. intros b. cbn.
  destruct (decide (a = b)) as [<-|Hne].
  - rewrite lookup_insert_eq, Ha. by constructor.
  - rewrite lookup_insert_ne by done. by destruct (heap p !! b); constructor.
Qed.

Lemma similar_emit (R : relation ProbesDataSource) (es : list Effect)
    (p p' : ProbesProducer) :
  similar R p p' -> similar R p (emit es p').
Proof. done. Qed.

Lemma registry_coherent_similar (p p' : ProbesProducer) :
  similar same_identity p p' -> registry_coherent p -> registry_coherent p'.
Proof.
  intros (Hds & Hsds & Hheap) [H1 H2 H3].
  assert (Hse : forall sid, session_entries p' sid = session_entries p sid)
    by (intros sid; unfold session_entries; by rewrite Hsds).
  split.
  - intros id a. rewrite Hds. intros Hid.
    destruct (H1 id a Hid) as (ds & Ha & Hocc).
    specialize (Hheap a). rewrite Ha in Hheap.
    inversion Hheap as [x ds' [Hd Hs] Hx Hy|]; subst.
    exists ds'. split; [done|]. rewrite Hse, <- Hd, <- Hs. done.
  - intros sid d a. rewrite Hse. intros Hin.
    destruct (H2 sid d a Hin) as (id & ds & Hid & Ha & Hd & Hs).
    specialize (Hheap a). rewrite Ha in Hheap.
    inversion Hheap as [x ds' [Hd' Hs'] Hx Hy|]; subst.
    exists id, ds'. rewrite Hds. split_and!; done.
  - intros id1 id2 a. rewrite Hds. apply H3.
Qed.

Lemma for_each_invariant {A S} (I : S -> S -> Prop)
    (body : S -> A -> outcome S) (l : list A) (s s' : S) :
  (forall s, I s s) ->
  (forall s1 s2 s3, I s1 s2 -> I s2 s3 -> I s1 s3) ->
  (forall s x s', body s x = Ok s' -> I s s') ->
  for_each body l s = Ok s' -> I s s'.
Proof.
  intros Hrefl Htrans Hbody. revert s. induction l as [|x l IH]; intros s; cbn.
  - intros [= <-]. apply Hrefl.
  - destruct (body s x) as [s1| |] eqn:Hb; cbn; [|done..].
    intros Hrest. eapply Htrans; [by eapply Hbody|by apply IH].
Qed.

Lemma notify_process_stats_similar (md : FtraceMetadata)
    (p p' : ProbesProducer) (ps : addr) :
  notify_process_stats md p ps = Ok p' ->
  similar same_but_metadata p p' /\ heap p' = heap p.
Proof.
  unfold notify_process_stats. destruct (heap p !! ps) as [ps_ds|]; [|done].
  destruct (_ || _).
  - intros [= <-]. split; [apply similar_refl, _|done].
  - intros [= <-]. split.
    + destruct (rename_pids md), (pids md);
        by apply similar_same_heap; [apply _|..].
    + by destruct (rename_pids md), (pids md).
Qed.

Lemma notify_inode_file_similar (md : FtraceMetadata)
    (p p' : ProbesProducer) (ino : addr) :
  notify_inode_file md p ino = Ok p' ->
  similar same_but_metadata p p' /\ heap p' = heap p.
Proof.
  unfold notify_inode_file. destruct (heap p !! ino) as [inode_ds|]; [|done].
  destruct (negb _); intros [= <-];
    (split; [by apply similar_same_heap; [apply _|..]|done]).
Qed.

Lemma broadcast_ftrace_similar (ds_by_type : list (Descriptor * addr))
    (p p' : ProbesProducer) (ft : addr) :
  broadcast_ftrace ds_by_type p ft = Ok p' -> similar same_but_metadata p p'.
Proof.
  unfold broadcast_ftrace. destruct (heap p !! ft) as [ftrace_ds|] eqn:Hft; [|done].
  destruct (negb _).
  { intros [= <-]. by apply similar_same_heap; [apply _|..]. }
  destruct (for_each (notify_process_stats _) _ p) as [p1| |] eqn:H1;
    cbn [mbind outcome_bind]; [|done..].
  destruct (for_each (notify_inode_file _) _ p1) as [p2| |] eqn:H2;
    cbn [mbind outcome_bind]; [|done..].
  intros [= <-].
  pose (I := fun q q' : ProbesProducer =>
               similar same_but_metadata q q' /\ heap q' = heap q).
  assert (HIrefl : forall q, I q q) by (intros q; split; [apply similar_refl, _|done]).
  assert (HItrans : forall q1 q2 q3, I q1 q2 -> I q2 q3 -> I q1 q3).
  { intros q1 q2 q3 [? E1] [? E2]. split; [by eapply similar_trans; [apply _|..]|].
    congruence. }
  assert (I p p1) as [S1 E1].
  { eapply (for_each_invariant I); [done|done| |exact H1].
    intros ???. apply notify_process_stats_similar. }
  assert (I p1 p2) as [S2 E2].
  { eapply (for_each_invariant I); [done|done| |exact H2].
    intros ???. apply notify_inode_file_similar. }
  eapply similar_trans; [apply _|exact S1|].
  eapply similar_trans; [apply _|exact S2|].
  apply similar_insert with (x := ftrace_ds); [apply _|congruence|by split_and!].
Qed.

Lemma OnFtraceDataWritten_similar (p p' : ProbesProducer) :
  OnFtraceDataWrittenIntoDataSourceBuffers p = Ok p' ->
  similar same_but_metadata p p'.
Proof.
  unfold OnFtraceDataWrittenIntoDataSourceBuffers.
  apply (for_each_invariant (similar same_but_metadata)).
  - intros q. apply similar_refl, _.
  - intros q1 q2 q3. apply similar_trans, _.
  - intros q l q'. unfold broadcast_session.
    apply (for_each_invariant (similar same_but_metadata)).
    + intros ?. apply similar_refl, _.
    + intros ???. apply similar_trans, _.
    + intros ???. apply broadcast_ftrace_similar.
Qed.

Lemma Flush_loop_similar (flush_id : N) (ids : list N) (queued queued' : bool)
    (p p' : ProbesProducer) :
  Flush_loop flush_id ids queued p = Ok (queued', p') ->
  similar same_identity p p'.
Proof.
  revert queued p. induction ids as [|id ids IH]; intros queued p; cbn.
  - intros [= _ <-]. by apply similar_same_heap; [apply _|..].
  - destruct (data_sources_ p !! id) as [a|]; [|apply IH].
    destruct (heap p !! a) as [ds|]; [|done].
    destruct (started ds); [|apply IH].
    intros H. apply IH in H. destruct H as (H1 & H2 & H3). by split_and!.
Qed.

Lemma ClearIncrementalState_similar (ids : list N) (p p' : ProbesProducer) :
  ClearIncrementalState p ids = Ok p' -> similar same_identity p p'.
Proof.
  revert p. induction ids as [|id ids IH]; intros p; cbn.
  - intros [= <-]. by apply similar_same_heap; [apply _|..].
  - destruct (data_sources_ p !! id) as [a|]; [|apply IH].
    destruct (heap p !! a) as [ds|]; [|done].
    destruct (started ds); [|apply IH].
    intros H. apply IH in H. destruct H as (H1 & H2 & H3). by split_and!.
Qed.

Lemma StartDataSource_similar (p p' : ProbesProducer) (id : N)
    (config : DataSourceConfig) :
  StartDataSource p id config = Ok p' -> similar same_identity p p'.
Proof.
  unfold StartDataSource. destruct (data_sources_ p !! id) as [a|].
  2:{ intros [= <-]. by apply similar_same_heap; [apply _|..]. }
  destruct (heap p !! a) as [ds|] eqn:Ha; [|done].
  destruct (started ds).
  { intros [= <-]. by apply similar_same_heap; [apply _|..]. }
  destruct (deref _) as [[]| |]; cbn [mbind outcome_bind]; [|done..].
  intros [= <-]. split_and!.
  - by destruct (trace_duration_ms config =? 0).
  - by destruct (trace_duration_ms config =? 0).
  - intros b. cbn.
    assert (Hh : heap (if trace_duration_ms config =? 0 then p
                       else emit [CreateFatalTimer (u32 (5000 + 2 * trace_duration_ms config))]
                              (set_registry (data_sources_ p) (session_data_sources_ p)
                                 match watchdogs_ p !! id with
                                 | Some _ => watchdogs_ p
                                 | None => <[id:=u32 (5000 + 2 * trace_duration_ms config)]>
                                             (watchdogs_ p)
                                 end (heap p) p)) = heap p)
      by (by destruct (trace_duration_ms config =? 0)).
    rewrite Hh. destruct (decide (a = b)) as [<-|Hne].
    + rewrite lookup_insert_eq, Ha. by constructor.
    + rewrite lookup_insert_ne by done. by destruct (heap p !! b); constructor.
Qed.

Lemma registry_coherent_new (tr : list Effect) :
  registry_coherent (ProbesProducer_new tr).
Proof.
  split; cbn.
  - intros id a H. by rewrite lookup_empty in H.
  - intros sid d a. unfold session_entries. cbn. rewrite lookup_empty. cbn.
    intros H. by apply not_elem_of_nil in H.
  - intros id1 id2 a H. by rewrite lookup_empty in H.
Qed.

Lemma occurrences_app (x : Descriptor * addr) (l1 l2 : list (Descriptor * addr)) :
  occurrences x (l1 ++ l2) = (occurrences x l1 + occurrences x l2)%nat.
Proof. unfold occurrences. by rewrite filter_app, length_app. Qed.

Lemma occurrences_absent (x : Descriptor * addr) (l : list (Descriptor * addr)) :
  x ∉ l <-> occurrences x l = 0%nat.
Proof.
  unfold occurrences. rewrite length_zero_iff_nil. split.
  - intros Hx. destruct (filter _ l) as [|y l'] eqn:Hf; [done|].
    assert (Hy : y ∈ filter (fun e => e = x) l) by (rewrite Hf; by left).
    apply list_elem_of_filter in Hy as [-> ?]. done.
  - intros Hf Hx.
    assert (Hy : x ∈ filter (fun e => e = x) l) by (by apply list_elem_of_filter).
    rewrite Hf in Hy. by apply not_elem_of_nil in Hy.
Qed.

Lemma occurrences_singleton_ne (x y : Descriptor * addr) :
  x <> y -> occurrences x [y] = 0%nat.
Proof.
  intros Hne. apply occurrences_absent. intros H.
  apply list_elem_of_singleton in H. done.
Qed.

Lemma occurrences_singleton_eq (x : Descriptor * addr) : occurrences x [x] = 1%nat.
Proof. unfold occurrences. cbn. by rewrite decide_True. Qed.

Lemma elem_of_erase_first {A} `{EqDecision A} (x y : A) (l : list A) :
  y ∈ erase_first x l -> y ∈ l.
Proof.
  induction l as [|z l IH]; [done|]. cbn. destruct (decide (x = z)) as [->|Hne].
  - intros ?. by right.
  - intros [->|?]%elem_of_cons; [by left|]. right. by apply IH.
Qed.

Lemma occurrences_cons (x y : Descriptor * addr) (l : list (Descriptor * addr)) :
  occurrences x (y :: l) =
    ((if decide (y = x) then 1 else 0) + occurrences x l)%nat.
Proof. unfold occurrences. rewrite filter_cons. by destruct (decide (y = x)). Qed.

Lemma occurrences_erase_first_ne (x y : Descriptor * addr)
    (l : list (Descriptor * addr)) :
  x <> y -> occurrences y (erase_first x l) = occurrences y l.
Proof.
  intros Hne. induction l as [|z l IH]; [done|]. cbn [erase_first].
  destruct (decide (x = z)) as [<-|Hz].
  - rewrite occurrences_cons. by rewrite decide_False.
  - by rewrite !occurrences_cons, IH.
Qed.

Lemma occurrences_erase_first_eq (x : Descriptor * addr)
    (l : list (Descriptor * addr)) :
  occurrences x (erase_first x l) = pred (occurrences x l).
Proof.
  induction l as [|z l IH]; [done|]. cbn [erase_first].
  destruct (decide (x = z)) as [<-|Hz].
  - rewrite occurrences_cons. by rewrite decide_True.
  - rewrite !occurrences_cons, IH. by rewrite decide_False.
Qed.

(** No factory touches the registry, and what a factory builds carries the
    descriptor of its table entry and the session of the config. *)
Lemma CreateDSInstance_registry (on_demand_dumps_of : DataSourceConfig -> bool)
    (to_BufferID : Z -> Z)
    (d : Descriptor) (env : FtraceEnv) (p p' : ProbesProducer)
    (session_id : N) (config : DataSourceConfig) (o : option ProbesDataSource) :
  CreateDSInstance on_demand_dumps_of to_BufferID d env p session_id config
    = Ok (o, p') ->
  data_sources_ p' = data_sources_ p /\
  session_data_sources_ p' = session_data_sources_ p /\
  watchdogs_ p' = watchdogs_ p /\
  heap p' = heap p /\
  forall ds, o = Some ds -> descriptor ds = d /\ ds_session_id ds = session_id.
Proof.
  unfold CreateDSInstance.
  destruct d;
    try (destruct (endpoint_ p); [|done]; cbn [deref mbind outcome_bind];
         intros [= <- <-]; split_and!; try done; by intros ? [= <-]).
  destruct (ftrace_creation_failed_ p); [by intros [= <- <-]|].
  destruct (ftrace_ p), (create_ok env); cbn [endpoint_ set_ftrace];
    try (destruct (endpoint_ p); [|done]); cbn [deref mbind outcome_bind];
    try destruct (add_ok env);
    intros [= <- <-]; split_and!; try done; by intros ? [= <-].
Qed.

(** The factory call of [SetupDataSource], when it returns. *)
Lemma factory_registry (descriptor_name : Descriptor -> string)
    (on_demand_dumps_of : DataSourceConfig -> bool) (to_BufferID : Z -> Z)
    (env : FtraceEnv) (p p1 : ProbesProducer) (session_id : N)
    (config : DataSourceConfig) (o : option ProbesDataSource) :
  match find_data_source descriptor_name (name config) with
  | Some d => CreateDSInstance on_demand_dumps_of to_BufferID d env p
                session_id config
  | None => Ok (None, p)
  end = Ok (o, p1) ->
  data_sources_ p1 = data_sources_ p /\
  session_data_sources_ p1 = session_data_sources_ p /\
  watchdogs_ p1 = watchdogs_ p /\
  heap p1 = heap p /\
  forall ds, o = Some ds ->
    find_data_source descriptor_name (name config) = Some (descriptor ds) /\
    ds_session_id ds = session_id.
Proof.
  destruct (find_data_source _ _) as [d|].
  - intros HC.
    destruct (CreateDSInstance_registry _ _ _ _ _ _ _ _ _ HC)
      as (H1 & H2 & H3 & H4 & H5).
    split_and!; try done. intros ds Hds. destruct (H5 ds Hds) as [<- ?]. done.
  - by intros [= <- <-].
Qed.

Lemma SetupDataSource_coherent (descriptor_name : Descriptor -> string)
    (dcheck_is_on : bool) (on_demand_dumps_of : DataSourceConfig -> bool)
    (to_BufferID : Z -> Z)
    (env : FtraceEnv) (p p' : ProbesProducer) (id : N) (config : DataSourceConfig) :
  registry_coherent p ->
  data_sources_ p !! id = None ->
  SetupDataSource descriptor_name dcheck_is_on on_demand_dumps_of to_BufferID env p id config
    = Ok p' ->
  registry_coherent p'.
Proof.
  intros Hco Hfree. unfold SetupDataSource.
  destruct (DCHECK _ _ _) as [[]| |]; cbn [mbind outcome_bind]; [|done..].
  destruct (CHECK _ _) as [[]| |]; cbn [mbind outcome_bind]; [|done..].
  set (sid := tracing_session_id config).
  destruct (match find_data_source _ _ with Some _ => _ | None => _ end)
    as [[o p1]| |] eqn:HC; cbn [mbind outcome_bind]; [|done..].
  destruct (factory_registry _ _ _ _ _ _ _ _ _ HC)
    as (Hds & Hsds & _ & Hheap & Ho).
  destruct o as [ds|].
  2:{ intros [= <-]. eapply registry_coherent_similar; [|exact Hco].
      by apply similar_same_heap; [apply _|..]. }
  destruct (Ho ds eq_refl) as [_ Ho']. clear Ho. rename Ho' into Ho.
  rewrite Hds, Hsds, Hheap, Hfree.
  cbn zeta. intros [= <-]. destruct Hco as [H1 H2 H3].
  set (a := fresh (dom (heap p))).
  assert (Hfresh : heap p !! a = None).
  { apply not_elem_of_dom. apply is_fresh. }
  set (q := set_registry _ _ _ _ _).
  assert (Hqds : data_sources_ q = <[id:=a]> (data_sources_ p)) by done.
  assert (Hqh : heap q = <[a:=ds]> (heap p)) by done.
  assert (Hse : forall s, session_entries q s
          = if decide (s = sid) then session_entries p sid ++ [(descriptor ds, a)]
            else session_entries p s).
  { intros s. unfold session_entries, q. cbn [session_data_sources_ set_registry].
    destruct (decide (s = sid)) as [->|Hne].
    - by rewrite lookup_insert_eq.
    - by rewrite lookup_insert_ne. }
  clearbody q.
  assert (Hnew : forall s d, (d, a) ∉ session_entries p s).
  { intros s d Hin. destruct (H2 s d a Hin) as (? & ? & _ & Ha & _). congruence. }
  split.
  - intros id' a'. rewrite Hqds, Hqh.
    destruct (decide (id = id')) as [<-|Hne].
    + rewrite lookup_insert_eq. intros [= <-]. exists ds.
      rewrite lookup_insert_eq. split; [done|]. rewrite Hse, Ho, decide_True by done.
      rewrite occurrences_app, occurrences_singleton_eq.
      by rewrite (proj1 (occurrences_absent _ _) (Hnew sid (descriptor ds))).
    + rewrite lookup_insert_ne by done. intros Hid'.
      destruct (H1 id' a' Hid') as (ds' & Ha' & Hocc).
      assert (a <> a') by congruence.
      exists ds'. rewrite lookup_insert_ne by done. split; [done|].
      rewrite Hse. destruct (decide (ds_session_id ds' = sid)) as [E|E]; [|done].
      rewrite occurrences_app, occurrences_singleton_ne by congruence.
      rewrite <- E. lia.
  - intros s d a'. rewrite Hse, Hqds, Hqh.
    destruct (decide (s = sid)) as [->|Hne].
    + intros [Hin|Hin%list_elem_of_singleton]%elem_of_app.
      * destruct (H2 sid d a' Hin) as (id' & ds' & Hid' & Ha' & Hd & Hs).
        exists id', ds'. rewrite !lookup_insert_ne by congruence. by split_and!.
      * injection Hin as -> ->. exists id, ds. rewrite !lookup_insert_eq. by split_and!.
    + intros Hin. destruct (H2 s d a' Hin) as (id' & ds' & Hid' & Ha' & Hd & Hs).
      exists id', ds'. rewrite !lookup_insert_ne by congruence. by split_and!.
  - intros id1 id2 a'. rewrite Hqds.
    destruct (decide (id = id1)) as [<-|Hne1], (decide (id = id2)) as [<-|Hne2];
      rewrite ?lookup_insert_eq, ?lookup_insert_ne by done; try done.
    + intros [= <-] Hid2. destruct (H1 _ _ Hid2) as (? & ? & _). congruence.
    + intros Hid1 [= <-]. destruct (H1 _ _ Hid1) as (? & ? & _). congruence.
    + apply H3.
Qed.

(** What [StopDataSource] does to an instance that is there. *)
Lemma StopDataSource_found (p : ProbesProducer) (id : N) (a : addr)
    (ds : ProbesDataSource) :
  data_sources_ p !! id = Some a -> heap p !! a = Some ds ->
  endpoint_ p = true ->
  exists p',
    StopDataSource p id = Ok p' /\
    data_sources_ p' = delete id (data_sources_ p) /\
    watchdogs_ p' = delete id (watchdogs_ p) /\
    heap p' = delete a (heap p) /\
    (forall s, session_entries p' s =
       if decide (s = ds_session_id ds)
       then erase_first (descriptor ds, a) (session_entries p s)
       else session_entries p s) /\
    exists es, trace p' = trace p ++ es /\ NotifyDataSourceStopped id ∈ es.
Proof.
  intros Hid Ha Hep. unfold StopDataSource. rewrite Hid, Ha.
  assert (Hep0 : endpoint_ (if decide (descriptor ds = MetatraceDataSource)
                            then emit [DS_Flush a 0%N] p else p) = true)
    by (by destruct (decide _)).
  rewrite Hep0. cbn [deref mbind outcome_bind]. clear Hep0.
  set (p0 := emit [NotifyDataSourceStopped id]
               (if decide (descriptor ds = MetatraceDataSource)
                then emit [DS_Flush a 0%N] p else p)).
  assert (Hsds : session_data_sources_ p0 = session_data_sources_ p)
    by (unfold p0; by destruct (decide _)).
  assert (Hds0 : data_sources_ p0 = data_sources_ p)
    by (unfold p0; by destruct (decide _)).
  assert (Hwd0 : watchdogs_ p0 = watchdogs_ p)
    by (unfold p0; by destruct (decide _)).
  assert (Hh0 : heap p0 = heap p)
    by (unfold p0; by destruct (decide _)).
  assert (Htr0 : exists es, trace p0 = trace p ++ es /\ NotifyDataSourceStopped id ∈ es).
  { unfold p0. destruct (decide _); cbn [trace emit].
    - eexists. split; [by rewrite <- app_assoc|]. cbn. set_solver.
    - eexists. split; [done|]. set_solver. }
  clearbody p0. rewrite Hsds, Hds0, Hwd0, Hh0.
  eexists. split; [reflexivity|]. cbn [data_sources_ watchdogs_ heap set_registry trace].
  split_and!; [done..| |done].
  intros s. unfold session_entries. cbn [session_data_sources_ set_registry].
  destruct (session_data_sources_ p !! ds_session_id ds) as [entries|] eqn:He.
  - destruct (decide ((descriptor ds, a) ∈ entries)) as [Hin|Hnin].
    + destruct (erase_first (descriptor ds, a) entries) as [|e entries'] eqn:Her;
        destruct (decide (s = ds_session_id ds)) as [->|Hne];
        rewrite ?lookup_delete_eq, ?lookup_delete_ne, ?lookup_insert_eq,
          ?lookup_insert_ne, ?He by done; cbn; by rewrite ?Her.
    + destruct (decide (s = ds_session_id ds)) as [->|Hne]; [|done].
      rewrite He. cbn. by rewrite erase_first_absent.
  - destruct (decide (s = ds_session_id ds)) as [->|Hne]; [|done].
    by rewrite He.
Qed.

Lemma StopDataSource_coherent (p p' : ProbesProducer) (id : N) :
  registry_coherent p -> StopDataSource p id = Ok p' -> registry_coherent p'.
Proof.
  intros Hco. destruct (data_sources_ p !! id) as [a|] eqn:Hid.
  2:{ unfold StopDataSource. rewrite Hid. intros [= <-].
      eapply registry_coherent_similar; [|exact Hco].
      by apply similar_same_heap; [apply _|..]. }
  pose proof Hco as [H1 H2 H3].
  destruct (H1 id a Hid) as (ds & Ha & Hocc).
  destruct (endpoint_ p) eqn:Hep.
  2:{ unfold StopDataSource. rewrite Hid, Ha.
      assert (Hep0 : endpoint_ (if decide (descriptor ds = MetatraceDataSource)
                                then emit [DS_Flush a 0%N] p else p) = false)
        by (by destruct (decide _)).
      by rewrite Hep0. }
  destruct (StopDataSource_found p id a ds Hid Ha Hep)
    as (p'' & -> & Hds & _ & Hheap & Hse & _).
  intros [= <-]. split.
  - intros id' a'. rewrite Hds, Hheap.
    intros [Hne Hid']%lookup_delete_Some.
    destruct (H1 id' a' Hid') as (ds' & Ha' & Hocc').
    assert (a <> a') by (intros <-; apply Hne; by eapply H3).
    exists ds'. rewrite lookup_delete_ne by done. split; [done|].
    rewrite Hse. destruct (decide _) as [E|E]; [|done].
    by rewrite occurrences_erase_first_ne by congruence.
  - intros s d a'. rewrite Hse, Hds, Hheap. intros Hin.
    assert (Hold : (d, a') ∈ session_entries p s).
    { destruct (decide _); [by eapply elem_of_erase_first|done]. }
    destruct (H2 s d a' Hold) as (id' & ds' & Hid' & Ha' & Hd & Hs).
    assert (Hne : a <> a').
    { intros <-. assert (ds' = ds) by congruence. subst ds'.
      rewrite decide_True in Hin by done. subst d.
      apply (proj2 (occurrences_absent _ _)) in Hin; [done|].
      rewrite <- Hs, occurrences_erase_first_eq, Hocc. done. }
    exists id', ds'. rewrite !lookup_delete_ne by congruence. by split_and!.
  - intros id1 id2 a'. rewrite Hds.
    intros [_ ?]%lookup_delete_Some [_ ?]%lookup_delete_Some. by eapply H3.
Qed.

(** Every call on the producer keeps the registry coherent. *)
Lemma dispatch_coherent (descriptor_name : Descriptor -> string)
    (dcheck_is_on : bool) (on_demand_dumps_of : DataSourceConfig -> bool)
    (to_BufferID : Z -> Z)
    (p p' : ProbesProducer) (c : Callback) :
  registry_coherent p -> admissible p c ->
  dispatch descriptor_name dcheck_is_on on_demand_dumps_of to_BufferID p c = Ok p' ->
  registry_coherent p'.
Proof.
  intros Hco Hadm.
  assert (Hconnect : forall q q', registry_coherent q ->
            Connect dcheck_is_on q = Ok q' -> registry_coherent q').
  { intros q q' Hq. unfold Connect.
    destruct (DCHECK _ _ _); cbn [mbind outcome_bind]; [|done..].
    intros [= <-]. eapply registry_coherent_similar; [|exact Hq].
    by apply similar_same_heap; [apply _|..]. }
  assert (Hcwr : forall t q q', registry_coherent q ->
            ConnectWithRetries dcheck_is_on t q = Ok q' -> registry_coherent q').
  { intros t q q' Hq. unfold ConnectWithRetries.
    destruct (DCHECK _ _ _); cbn [mbind outcome_bind]; [|done..].
    apply Hconnect. eapply registry_coherent_similar; [|exact Hq].
    by apply similar_same_heap; [apply _|..]. }
  destruct c; cbn [dispatch].
  - by apply Hcwr.
  - by apply Hconnect.
  - unfold OnConnect. destruct (DCHECK _ _ _); cbn [mbind outcome_bind]; [|done..].
    destruct (deref _) as [[]| |]; cbn [mbind outcome_bind]; [|done..].
    intros [= <-]. eapply registry_coherent_similar; [|exact Hco].
    destruct (all_data_sources_registered_cb_ _);
      by apply similar_same_heap; [apply _|..].
  - unfold OnDisconnect. destruct (DCHECK _ _ _); cbn [mbind outcome_bind]; [|done..].
    destruct (decide _);
      (destruct (deref _) as [[]| |]; cbn [mbind outcome_bind]; [|done..]);
      intros [= <-];
      (eapply registry_coherent_similar; [|exact Hco]);
      by apply similar_same_heap; [apply _|..].
  - unfold Restart. apply Hcwr, registry_coherent_new.
  - by apply SetupDataSource_coherent.
  - intros H. eapply registry_coherent_similar; [|exact Hco].
    by eapply StartDataSource_similar.
  - by apply StopDataSource_coherent.
  - unfold Flush. destruct (DCHECK _ _ _); cbn [mbind outcome_bind]; [|done..].
    destruct (Flush_loop _ _ _ _) as [[queued q]| |] eqn:HF;
      cbn [mbind outcome_bind]; [|done..].
    apply Flush_loop_similar in HF.
    destruct queued;
      (destruct (deref _) as [[]| |]; cbn [mbind outcome_bind]; [|done..]);
      intros [= <-];
      (eapply registry_coherent_similar; [|exact Hco]); exact HF.
  - unfold OnDataSourceFlushComplete. destruct (_ =? _)%nat;
      [destruct (deref _) as [[]| |]; cbn [mbind outcome_bind]; [|done..]|];
      intros [= <-]; (eapply registry_coherent_similar; [|exact Hco]);
      by apply similar_same_heap; [apply _|..].
  - unfold OnFlushTimeout. destruct (_ =? _)%nat;
      [|destruct (deref _) as [[]| |]; cbn [mbind outcome_bind]; [|done..]];
      intros [= <-]; (eapply registry_coherent_similar; [|exact Hco]);
      by apply similar_same_heap; [apply _|..].
  - intros H. eapply registry_coherent_similar; [|exact Hco].
    by eapply ClearIncrementalState_similar.
  - intros H. eapply registry_coherent_similar; [|exact Hco].
    by apply similar_weaken, OnFtraceDataWritten_similar.
Qed.

(** Where the build has [PERFETTO_DCHECK] on, a call that returns was
    admissible. *)
Lemma dispatch_admissible (descriptor_name : Descriptor -> string)
    (on_demand_dumps_of : DataSourceConfig -> bool) (to_BufferID : Z -> Z)
    (p p' : ProbesProducer) (c : Callback) :
  dispatch descriptor_name true on_demand_dumps_of to_BufferID p c = Ok p' ->
  admissible p c.
Proof.
  destruct c; try done. cbn [dispatch admissible].
  unfold SetupDataSource, DCHECK. cbn [andb].
  destruct (data_sources_ p !! id); [|done].
  by rewrite bool_decide_eq_false_2.
Qed.

Lemma run_coherent (descriptor_name : Descriptor -> string)
    (on_demand_dumps_of : DataSourceConfig -> bool) (to_BufferID : Z -> Z)
    (cs : list Callback) (p p' : ProbesProducer) :
  registry_coherent p ->
  run descriptor_name true on_demand_dumps_of to_BufferID p cs = Ok p' ->
  registry_coherent p'.
Proof.
  unfold run. revert p. induction cs as [|c cs IH]; intros p Hco.
  - by intros [= <-].
  - cbn [for_each].
    destruct (dispatch _ _ _ _ p c) as [p1| |] eqn:Hc; cbn [mbind outcome_bind];
      [|done..].
    apply IH. eapply dispatch_coherent; [exact Hco| |exact Hc].
    by eapply dispatch_admissible.
Qed.

(** With an endpoint every factory returns. *)
Lemma CreateDSInstance_returns (on_demand_dumps_of : DataSourceConfig -> bool)
    (to_BufferID : Z -> Z) (d : Descriptor) (env : FtraceEnv)
    (p : ProbesProducer) (session_id : N) (config : DataSourceConfig) :
  endpoint_ p = true ->
  exists o p1,
    CreateDSInstance on_demand_dumps_of to_BufferID d env p session_id config
      = Ok (o, p1).
Proof.
  intros Hep. unfold CreateDSInstance.
  destruct d; try (rewrite Hep; cbn; by do 2 eexists).
  destruct (ftrace_creation_failed_ p); [by do 2 eexists|].
  destruct (ftrace_ p), (create_ok env); cbn [endpoint_ set_ftrace];
    rewrite ?Hep; cbn [deref mbind outcome_bind];
    try destruct (add_ok env); by do 2 eexists.
Qed.

(** C5.  A new producer has a coherent registry, and every call on the
    producer (the service using a free id for each instance it sets up)
    leaves it coherent.  On a producer that has its endpoint,
    [SetupDataSource] with a free id and a positive session id returns,
    and [StopDataSource] of an instance that is there returns, notifies
    the service, and leaves the instance in neither index, not on the
    heap, and without a fatal timer. *)
Theorem registry_coherence (descriptor_name : Descriptor -> string)
    (dcheck_is_on : bool) (on_demand_dumps_of : DataSourceConfig -> bool)
    (to_BufferID : Z -> Z) :
  (forall tr, registry_coherent (ProbesProducer_new tr)) /\
  (forall p c p',
     registry_coherent p -> admissible p c ->
     dispatch descriptor_name dcheck_is_on on_demand_dumps_of to_BufferID p c = Ok p' ->
     registry_coherent p') /\
  (forall env p id config,
     registry_coherent p -> data_sources_ p !! id = None ->
     (0 < tracing_session_id config)%N ->
     endpoint_ p = true ->
     exists p',
       SetupDataSource descriptor_name dcheck_is_on on_demand_dumps_of to_BufferID
         env p id config = Ok p' /\
       registry_coherent p') /\
  (forall p id a,
     registry_coherent p -> data_sources_ p !! id = Some a ->
     endpoint_ p = true ->
     exists p',
       StopDataSource p id = Ok p' /\
       registry_coherent p' /\
       NotifyDataSourceStopped id ∈ trace p' /\
       data_sources_ p' !! id = None /\
       (forall session_id d, (d, a) ∉ session_entries p' session_id) /\
       heap p' !! a = None /\
       watchdogs_ p' !! id = None).
Proof.
  split_and!.
  - apply registry_coherent_new.
  - intros p c p'. apply dispatch_coherent.
  - intros env p id config Hco Hfree Hsession Hep.
    assert (Hok : exists p', SetupDataSource descriptor_name dcheck_is_on
                    on_demand_dumps_of to_BufferID env p id config = Ok p').
    { unfold SetupDataSource.
      rewrite DCHECK_holds by (by apply bool_decide_eq_true).
      cbn [mbind outcome_bind].
      replace (0 <? tracing_session_id config)%N with true
        by (symmetry; by apply N.ltb_lt).
      cbn [CHECK mbind outcome_bind].
      assert (HC : exists o p1,
        match find_data_source descriptor_name (name config) with
        | Some d => CreateDSInstance on_demand_dumps_of to_BufferID d env p
                      (tracing_session_id config) config
        | None => Ok (None, p)
        end = Ok (o, p1)).
      { destruct (find_data_source _ _) as [d|]; [|by do 2 eexists].
        by apply CreateDSInstance_returns. }
      destruct HC as ([ds|] & p1 & ->); cbn [mbind outcome_bind]; by eexists. }
    destruct Hok as [p' Hp']. exists p'. split; [done|].
    by eapply SetupDataSource_coherent.
  - intros p id a Hco Hid Hep.
    destruct (owned_filed_once p Hco id a Hid) as (ds & Ha & Hocc).
    destruct (StopDataSource_found p id a ds Hid Ha Hep)
      as (p' & Hstop & Hds & Hwd & Hheap & Hse & es & Htr & Hes).
    pose proof (StopDataSource_coherent p p' id Hco Hstop) as Hco'.
    exists p'. split_and!; try done.
    + rewrite Htr. apply elem_of_app. by right.
    + rewrite Hds. apply lookup_delete_eq.
    + intros s d Hin.
      destruct (filed_owned p' Hco' s d a Hin) as (? & ? & _ & Ha' & _).
      rewrite Hheap, lookup_delete_eq in Ha'. done.
    + rewrite Hheap. apply lookup_delete_eq.
    + rewrite Hwd. apply lookup_delete_eq.
Qed.

Lemma registry_coherence_witness :
  exists p p1 p2,
    run example_names true (fun _ => true) example_BufferID (ProbesProducer_new [])
      [CallConnectWithRetries; CallOnConnect] = Ok p /\
    SetupDataSource example_names true (fun _ => true) example_BufferID
      ftrace_works p 1%N (example_config "linux.ftrace" 3) = Ok p1 /\
    registry_coherent p1 /\
    data_sources_ p1 !! 1%N = Some 0%nat /\
    StopDataSource p1 1%N = Ok p2 /\
    registry_coherent p2 /\
    data_sources_ p2 !! 1%N = None.
Proof.
  pose proof (registry_coherence example_names true (fun _ => true)
                example_BufferID) as (Hnew & _ & Hsetup & Hstop).
  destruct (run example_names true (fun _ => true) example_BufferID
              (ProbesProducer_new []) [CallConnectWithRetries; CallOnConnect])
    as [p| |] eqn:Hp; try (vm_compute in Hp; discriminate).
  assert (Hco : registry_coherent p) by (eapply run_coherent; [apply Hnew|exact Hp]).
  assert (Hep : endpoint_ p = true)
    by (vm_compute in Hp; injection Hp as <-; reflexivity).
  assert (Hfree : data_sources_ p !! 1%N = None)
    by (vm_compute in Hp; injection Hp as <-; reflexivity).
  destruct (Hsetup ftrace_works p 1%N (example_config "linux.ftrace" 3)
              Hco Hfree eq_refl Hep) as (p1 & H1 & Hco1).
  assert (Hid : data_sources_ p1 !! 1%N = Some 0%nat).
  { vm_compute in Hp. injection Hp as <-.
    vm_compute in H1. injection H1 as <-. reflexivity. }
  assert (Hep1 : endpoint_ p1 = true).
  { vm_compute in Hp. injection Hp as <-.
    vm_compute in H1. injection H1 as <-. reflexivity. }
  destruct (Hstop p1 1%N 0%nat Hco1 Hid Hep1) as (p2 & H2 & Hco2 & _ & Hgone & _).
  exists p, p1, p2. by split_and!.
Defined.

(** *** The ftrace broadcast *)

Lemma for_each_app {A S} (body : S -> A -> outcome S) (l1 l2 : list A) (s : S) :
  for_each body (l1 ++ l2) s = (s ← for_each body l1 s; for_each body l2 s).
Proof.
  revert s. induction l1 as [|x l1 IH]; intros s; cbn; [done|].
  destruct (body s x); cbn; [apply IH|done..].
Qed.

Lemma for_each_fmap {A B S} (body : S -> B -> outcome S) (f : A -> B)
    (l : list A) (s : S) :
  for_each body (f <$> l) s = for_each (fun s x => body s (f x)) l s.
Proof.
  revert s. induction l as [|x l IH]; intros s; cbn; [done|].
  destruct (body s (f x)); cbn; [apply IH|done..].
Qed.

(** The two nested loops visit the ftrace data sources in the order of
    [ftrace_work]. *)
Lemma broadcast_sessions_work (sessions : list (list (Descriptor * addr)))
    (p : ProbesProducer) :
  for_each broadcast_session sessions p =
    for_each (fun p w => broadcast_ftrace w.1 p w.2) (ftrace_work sessions) p.
Proof.
  revert p. induction sessions as [|l sessions IH]; intros p; [done|].
  cbn [for_each ftrace_work flat_map]. rewrite for_each_app, for_each_fmap.
  change (broadcast_session p l)
    with (for_each (broadcast_ftrace l) (equal_range FtraceDataSource l) p).
  change (for_each (fun s x => broadcast_ftrace (l, x).1 s (l, x).2))
    with (for_each (broadcast_ftrace l)).
  destruct (for_each (broadcast_ftrace l) _ p); cbn [mbind outcome_bind];
    [apply IH|done..].
Qed.

Lemma process_stats_events_similar (h h' : gmap addr ProbesDataSource)
    (md : FtraceMetadata) (ps : addr) :
  option_Forall2 same_but_metadata (h !! ps) (h' !! ps) ->
  process_stats_events h md ps = process_stats_events h' md ps.
Proof.
  unfold process_stats_events.
  intros [x y (_ & _ & -> & ->)|]; done.
Qed.

Lemma inode_file_events_similar (h h' : gmap addr ProbesDataSource)
    (md : FtraceMetadata) (ino : addr) :
  option_Forall2 same_but_metadata (h !! ino) (h' !! ino) ->
  inode_file_events h md ino = inode_file_events h' md ino.
Proof.
  unfold inode_file_events.
  intros [x y (_ & _ & -> & _)|]; done.
Qed.

Lemma flat_map_ext_elem {A B} (f g : A -> list B) (l : list A) :
  (forall x, x ∈ l -> f x = g x) -> flat_map f l = flat_map g l.
Proof.
  induction l as [|x l IH]; intros H; [done|]. cbn.
  rewrite (H x) by (by left). f_equal. apply IH. intros y Hy. apply H. by right.
Qed.

Lemma flat_map_elem_split {A B} (f : A -> list B) (l : list A) (x : A) :
  x ∈ l -> exists l1 l2, flat_map f l = l1 ++ f x ++ l2.
Proof.
  intros (l1 & l2 & ->)%list_elem_of_split.
  exists (flat_map f l1), (flat_map f l2). by rewrite flat_map_app.
Qed.

Lemma notify_process_stats_ok (md : FtraceMetadata) (p : ProbesProducer)
    (ps : addr) :
  is_Some (heap p !! ps) ->
  notify_process_stats md p ps =
    Ok (emit (process_stats_events (heap p) md ps) p).
Proof.
  intros [ps_ds Hps]. unfold notify_process_stats, process_stats_events.
  rewrite Hps. destruct (_ || _); [by rewrite emit_nil|].
  destruct (rename_pids md), (pids md); cbn [app];
    by rewrite ?emit_nil, ?emit_emit.
Qed.

Lemma notify_inode_file_ok (md : FtraceMetadata) (p : ProbesProducer)
    (ino : addr) :
  is_Some (heap p !! ino) ->
  notify_inode_file md p ino = Ok (emit (inode_file_events (heap p) md ino) p).
Proof.
  intros [inode_ds Hino]. unfold notify_inode_file, inode_file_events.
  rewrite Hino. destruct (negb _); by rewrite ?emit_nil.
Qed.

Lemma notify_process_stats_loop (md : FtraceMetadata) (pss : list addr)
    (p : ProbesProducer) :
  (forall ps, ps ∈ pss -> is_Some (heap p !! ps)) ->
  for_each (notify_process_stats md) pss p =
    Ok (emit (flat_map (process_stats_events (heap p) md) pss) p).
Proof.
  revert p. induction pss as [|ps pss IH]; intros p Hlive.
  - cbn. by rewrite emit_nil.
  - cbn [for_each flat_map].
    rewrite notify_process_stats_ok by (apply Hlive; by left).
    cbn [mbind outcome_bind].
    rewrite IH by (intros ps' Hps'; apply Hlive; by right).
    by rewrite emit_emit.
Qed.

Lemma notify_inode_file_loop (md : FtraceMetadata) (inos : list addr)
    (p : ProbesProducer) :
  (forall ino, ino ∈ inos -> is_Some (heap p !! ino)) ->
  for_each (notify_inode_file md) inos p =
    Ok (emit (flat_map (inode_file_events (heap p) md) inos) p).
Proof.
  revert p. induction inos as [|ino inos IH]; intros p Hlive.
  - cbn. by rewrite emit_nil.
  - cbn [for_each flat_map].
    rewrite notify_inode_file_ok by (apply Hlive; by left).
    cbn [mbind outcome_bind].
    rewrite IH by (intros ino' Hino'; apply Hlive; by right).
    by rewrite emit_emit.
Qed.

Lemma elem_of_equal_range (d : Descriptor) (a : addr)
    (l : list (Descriptor * addr)) :
  a ∈ equal_range d l <-> (d, a) ∈ l.
Proof.
  unfold equal_range. rewrite list_elem_of_fmap. split.
  - intros ([d' a'] & -> & [E Hin]%list_elem_of_filter). cbn in E. by subst.
  - intros Hin. exists (d, a). split; [done|]. by apply list_elem_of_filter.
Qed.

(** One turn of the loop over the ftrace data sources of a session. *)
Lemma broadcast_ftrace_step (l : list (Descriptor * addr)) (p : ProbesProducer)
    (ft : addr) (ftrace_ds : ProbesDataSource) :
  heap p !! ft = Some ftrace_ds ->
  (forall d a, (d, a) ∈ l -> is_Some (heap p !! a)) ->
  exists p',
    broadcast_ftrace l p ft = Ok p' /\
    trace p' = trace p ++ ftrace_events (heap p) (l, ft) /\
    data_sources_ p' = data_sources_ p /\
    session_data_sources_ p' = session_data_sources_ p /\
    heap p' =
      if started ftrace_ds
      then <[ft := set_metadata FtraceMetadata_empty ftrace_ds]> (heap p)
      else heap p.
Proof.
  intros Hft Hlive. unfold broadcast_ftrace, ftrace_events. rewrite Hft.
  destruct (started ftrace_ds); cbn [negb].
  2:{ exists p. by rewrite app_nil_r. }
  rewrite notify_process_stats_loop
    by (intros ps Hps; apply (Hlive ProcessStatsDataSource);
        by apply elem_of_equal_range).
  cbn [mbind outcome_bind].
  rewrite notify_inode_file_loop
    by (intros ino Hino; apply (Hlive InodeFileDataSource);
        by apply elem_of_equal_range).
  cbn [mbind outcome_bind]. eexists. split; [reflexivity|].
  cbn. by rewrite app_assoc.
Qed.

Lemma ftrace_events_similar (h0 h : gmap addr ProbesDataSource)
    (w : list (Descriptor * addr) * addr) :
  (forall a, option_Forall2 same_but_metadata (h0 !! a) (h !! a)) ->
  h !! w.2 = h0 !! w.2 ->
  ftrace_events h w = ftrace_events h0 w.
Proof.
  intros Hsim Hft. destruct w as [l ft]. cbn in Hft. unfold ftrace_events.
  rewrite Hft. destruct (h0 !! ft) as [ftrace_ds|]; [|done].
  destruct (negb _); [done|]. f_equal.
  - apply flat_map_ext_elem. intros ps _. symmetry.
    by apply process_stats_events_similar.
  - apply flat_map_ext_elem. intros ino _. symmetry.
    by apply inode_file_events_similar.
Qed.

(** The loops over a list of ftrace data sources no two of which are the
    same object: each is served from the metadata it had at the start, and
    ends up with that metadata cleared if it is started. *)
Lemma broadcast_work (h0 : gmap addr ProbesDataSource)
    (work : list (list (Descriptor * addr) * addr)) (p : ProbesProducer) :
  (forall a, option_Forall2 same_but_metadata (h0 !! a) (heap p !! a)) ->
  (forall w, w ∈ work -> heap p !! w.2 = h0 !! w.2) ->
  (forall w, w ∈ work ->
     is_Some (h0 !! w.2) /\ forall d a, (d, a) ∈ w.1 -> is_Some (h0 !! a)) ->
  NoDup work.*2 ->
  exists p',
    for_each (fun p w => broadcast_ftrace w.1 p w.2) work p = Ok p' /\
    trace p' = trace p ++ flat_map (ftrace_events h0) work /\
    data_sources_ p' = data_sources_ p /\
    session_data_sources_ p' = session_data_sources_ p /\
    (forall a, option_Forall2 same_but_metadata (h0 !! a) (heap p' !! a)) /\
    (forall a, a ∉ work.*2 -> heap p' !! a = heap p !! a) /\
    (forall w ftrace_ds, w ∈ work -> h0 !! w.2 = Some ftrace_ds ->
       started ftrace_ds = true ->
       heap p' !! w.2 = Some (set_metadata FtraceMetadata_empty ftrace_ds)).
Proof.
  revert p. induction work as [|[l ft] work IH]; intros p Hsim Hsame Hlive Hnd.
  - exists p. cbn. rewrite app_nil_r. split_and!; try done.
    intros w ? Hw. by apply not_elem_of_nil in Hw.
  - cbn [fmap list_fmap snd] in Hnd. apply NoDup_cons in Hnd as [Hft Hnd].
    destruct (Hlive (l, ft)) as [[ftrace_ds Hds] Hl]; [by left|]. cbn [fst snd] in *.
    assert (Hcur : heap p !! ft = Some ftrace_ds).
    { rewrite <- Hds. apply (Hsame (l, ft)). by left. }
    assert (Hlivep : forall d a, (d, a) ∈ l -> is_Some (heap p !! a)).
    { intros d a Hin. destruct (Hl d a Hin) as [x Hx].
      specialize (Hsim a). rewrite Hx in Hsim. inversion Hsim. by eexists. }
    destruct (broadcast_ftrace_step l p ft ftrace_ds Hcur Hlivep)
      as (p1 & Hstep & Htr1 & Hds1 & Hsds1 & Hh1).
    assert (Hne : forall a, a <> ft -> heap p1 !! a = heap p !! a).
    { intros a Ha. rewrite Hh1. destruct (started ftrace_ds); [|done].
      by rewrite lookup_insert_ne. }
    destruct (IH p1) as (p' & Hrun & Htr & Hds' & Hsds' & Hsim' & Hout & Hclr).
    { intros a. destruct (decide (a = ft)) as [->|Ha].
      - rewrite Hh1, Hds. destruct (started ftrace_ds).
        + rewrite lookup_insert_eq. constructor. by split_and!.
        + rewrite Hcur. by constructor.
      - rewrite Hne by done. apply Hsim. }
    { intros w Hw. rewrite Hne.
      - apply Hsame. by right.
      - intros E. apply Hft. rewrite <- E. apply list_elem_of_fmap. by exists w. }
    { intros w Hw. apply Hlive. by right. }
    { done. }
    exists p'. cbn [for_each fst snd]. rewrite Hstep. cbn [mbind outcome_bind].
    split_and!; try done.
    + rewrite Htr, Htr1. cbn [flat_map].
      rewrite (ftrace_events_similar h0 (heap p) (l, ft))
        by (done || (cbn; congruence)).
      by rewrite app_assoc.
    + congruence.
    + congruence.
    + intros a Ha. cbn [fmap list_fmap snd] in Ha.
      apply not_elem_of_cons in Ha as [Ha1 Ha2].
      rewrite Hout by done. by apply Hne.
    + intros w fds [->|Hw]%elem_of_cons Hw0 Hst.
      * cbn [snd] in *. rewrite Hout by done.
        assert (fds = ftrace_ds) by congruence. subst fds.
        by rewrite Hh1, Hst, lookup_insert_eq.
      * by apply Hclr.
Qed.

Lemma elem_of_flat_map {A B} (f : A -> list B) (l : list A) (y : B) :
  y ∈ flat_map f l <-> exists x, x ∈ l /\ y ∈ f x.
Proof.
  rewrite list_elem_of_In, in_flat_map. split.
  - intros (x & Hx & Hy). exists x. by rewrite !list_elem_of_In.
  - intros (x & Hx & Hy). exists x. by rewrite <- !list_elem_of_In.
Qed.

Lemma elem_of_ftrace_work (sessions : list (list (Descriptor * addr)))
    (l : list (Descriptor * addr)) (ft : addr) :
  (l, ft) ∈ ftrace_work sessions <-> l ∈ sessions /\ (FtraceDataSource, ft) ∈ l.
Proof.
  unfold ftrace_work. rewrite elem_of_flat_map. split.
  - intros (l' & Hl' & Hin). apply list_elem_of_fmap in Hin as (ft' & [= -> ->] & Hft).
    split; [done|]. by apply elem_of_equal_range.
  - intros [Hl Hft]. exists l. split; [done|].
    apply list_elem_of_fmap. exists ft. split; [done|]. by apply elem_of_equal_range.
Qed.

Lemma ftrace_work_addrs (sessions : list (list (Descriptor * addr))) :
  (ftrace_work sessions).*2 = flat_map (equal_range FtraceDataSource) sessions.
Proof.
  induction sessions as [|l sessions IH]; [done|].
  cbn [ftrace_work flat_map]. rewrite fmap_app. f_equal; [|exact IH].
  rewrite <- list_fmap_compose. by rewrite list_fmap_id.
Qed.

Lemma NoDup_flat_map_keyed {K A B} (key : B -> option K) (g : A -> list B)
    (kvs : list (K * A)) :
  NoDup kvs.*1 ->
  (forall k a, (k, a) ∈ kvs ->
     NoDup (g a) /\ forall b, b ∈ g a -> key b = Some k) ->
  NoDup (flat_map g kvs.*2).
Proof.
  induction kvs as [|[k a] kvs IH]; intros Hnd Hkvs; [constructor|].
  cbn [fmap list_fmap fst snd flat_map] in *.
  apply NoDup_cons in Hnd as [Hk Hnd]. apply NoDup_app. split_and!.
  - apply (Hkvs k a). by left.
  - intros b Hb Hb'. apply elem_of_flat_map in Hb' as (a' & Ha' & Hba').
    apply list_elem_of_fmap in Ha' as ([k' a''] & -> & Hin). cbn in Hba'.
    assert (E1 : key b = Some k) by (apply (Hkvs k a); [by left|done]).
    assert (E2 : key b = Some k') by (apply (Hkvs k' a''); [by right|done]).
    apply Hk. apply list_elem_of_fmap. exists (k', a''). split; [|done].
    cbn. congruence.
  - apply IH; [done|]. intros k' a' Hin. apply Hkvs. by right.
Qed.

Lemma NoDup_equal_range (d : Descriptor) (l : list (Descriptor * addr)) :
  (forall a, (d, a) ∈ l -> occurrences (d, a) l = 1%nat) ->
  NoDup (equal_range d l).
Proof.
  induction l as [|[d' a'] l IH]; intros Hocc; [constructor|].
  unfold equal_range. rewrite filter_cons. cbn [fst].
  destruct (decide (d' = d)) as [->|Hne].
  - cbn [fmap list_fmap snd]. fold (equal_range d l).
    assert (Hnot : (d, a') ∉ l).
    { intros Hin. specialize (Hocc a' ltac:(by left)).
      rewrite occurrences_cons, decide_True in Hocc by done.
      apply occurrences_absent in Hin; [done|]. lia. }
    apply NoDup_cons. split.
    + by rewrite elem_of_equal_range.
    + apply IH. intros a Hin. specialize (Hocc a ltac:(by right)).
      rewrite occurrences_cons in Hocc.
      destruct (decide ((d, a') = (d, a))) as [[= ->]|_]; [done|]. done.
  - fold (equal_range d l). apply IH. intros a Hin.
    specialize (Hocc a ltac:(by right)). rewrite occurrences_cons in Hocc.
    by rewrite decide_False in Hocc by congruence.
Qed.

Lemma session_entries_lookup (p : ProbesProducer) (session_id : N)
    (l : list (Descriptor * addr)) :
  session_data_sources_ p !! session_id = Some l -> session_entries p session_id = l.
Proof. unfold session_entries. by intros ->. Qed.

(** In a coherent registry no ftrace data source is visited twice. *)
Lemma ftrace_work_NoDup (p : ProbesProducer) :
  registry_coherent p ->
  NoDup (ftrace_work (map_to_list (session_data_sources_ p)).*2).*2.
Proof.
  intros [H1 H2 H3]. rewrite ftrace_work_addrs.
  apply (NoDup_flat_map_keyed (fun a => ds_session_id <$> heap p !! a)).
  - apply NoDup_fst_map_to_list.
  - intros sid l Hin%elem_of_map_to_list.
    apply session_entries_lookup in Hin. subst l. split.
    + apply NoDup_equal_range. intros a Ha.
      destruct (H2 _ _ _ Ha) as (id & ds & Hid & Hds & Hd & Hs).
      destruct (H1 _ _ Hid) as (ds' & Hds' & Hocc).
      assert (ds' = ds) by congruence. subst ds'. by rewrite Hd, Hs in Hocc.
    + intros a Ha%elem_of_equal_range.
      destruct (H2 _ _ _ Ha) as (id & ds & Hid & Hds & Hd & Hs).
      by rewrite Hds, <- Hs.
Qed.

(** Recording metadata in an ftrace data source changes nothing else. *)
Lemma record_metadata_similar (id : N) (md : FtraceMetadata) (p : ProbesProducer) :
  similar same_but_metadata p (record_metadata id md p).
Proof.
  unfold record_metadata. destruct (data_sources_ p !! id) as [a|];
    [|apply similar_refl, _].
  split_and!; [done..|]. intros b. cbn. rewrite lookup_alter.
  destruct (decide (a = b)) as [<-|_];
    destruct (heap p !! _); constructor; done.
Qed.

(** The state of the scenario of the specification, reached by callbacks
    on a new producer. *)
Lemma metadata_scenario_state :
  exists p,
    metadata_scenario = Ok p /\
    registry_coherent p /\
    session_entries p 3 =
      [(FtraceDataSource, 0%nat); (ProcessStatsDataSource, 1%nat);
       (InodeFileDataSource, 2%nat)] /\
    heap p !! 0%nat = Some scenario_ftrace /\
    heap p !! 1%nat =
      Some (set_started (new_data_source (fun _ => true) ProcessStatsDataSource 3
                           (example_config "linux.process_stats" 3))) /\
    heap p !! 2%nat =
      Some (set_started (new_data_source (fun _ => true) InodeFileDataSource 3
                           (example_config "linux.inode_file_map" 3))).
Proof.
  unfold metadata_scenario.
  destruct (run example_names true (fun _ => true) example_BufferID
              (ProbesProducer_new []) metadata_calls) as [q| |] eqn:Hq;
    try (vm_compute in Hq; discriminate).
  cbn [mbind outcome_bind]. eexists. split; [reflexivity|]. split.
  - eapply registry_coherent_similar;
      [apply similar_weaken, record_metadata_similar|].
    eapply run_coherent; [apply (registry_coherent_new [])|exact Hq].
  - vm_compute in Hq. injection Hq as <-.
    split_and!; vm_compute; reflexivity.
Qed.

(** C7.  On a coherent registry the batch runs to its end, changes
    neither index and no object but for ftrace metadata, and for every
    started ftrace data source of every session: each started
    process-stats data source of the session with on-demand dumps enabled
    is sent the renamed pids and then, with nothing in between, the seen
    pids (a set that is empty is not sent); each started inode-file data
    source of the session is sent the inode and device pairs; and the
    metadata of the ftrace data source is empty afterwards.  On the
    scenario of the specification the calls are [OnRenamePids({100})],
    [OnPids({100,101})], [OnInodes({(9,42)})], in this order. *)
Theorem ftrace_metadata_broadcast :
  (forall p : ProbesProducer,
     registry_coherent p ->
     exists p' es,
       OnFtraceDataWrittenIntoDataSourceBuffers p = Ok p' /\
       trace p' = trace p ++ es /\
       similar same_but_metadata p p' /\
       forall session_id ft ftrace_ds,
         (FtraceDataSource, ft) ∈ session_entries p session_id ->
         heap p !! ft = Some ftrace_ds ->
         started ftrace_ds = true ->
         let md := metadata ftrace_ds in
         (forall ps ps_ds,
            (ProcessStatsDataSource, ps) ∈ session_entries p session_id ->
            heap p !! ps = Some ps_ds ->
            started ps_ds = true ->
            on_demand_dumps_enabled ps_ds = true ->
            exists es1 es2,
              es = es1 ++
                   (match rename_pids md with
                    | [] => []
                    | _ => [DS_OnRenamePids ps (rename_pids md)]
                    end ++
                    match pids md with
                    | [] => []
                    | _ => [DS_OnPids ps (pids md)]
                    end) ++ es2) /\
         (forall ino inode_ds,
            (InodeFileDataSource, ino) ∈ session_entries p session_id ->
            heap p !! ino = Some inode_ds ->
            started inode_ds = true ->
            DS_OnInodes ino (inode_and_device md) ∈ es) /\
         heap p' !! ft = Some (set_metadata FtraceMetadata_empty ftrace_ds)) /\
  metadata_broadcast_run =
    Ok ([DS_OnRenamePids 1%nat [100]; DS_OnPids 1%nat [100; 101];
         DS_OnInodes 2%nat [(9, 42)]],
        Some FtraceMetadata_empty).
Proof.
  split; [|by vm_compute].
  intros p Hco.
  set (sessions := (map_to_list (session_data_sources_ p)).*2).
  assert (Hsess : forall l, l ∈ sessions <->
            exists sid, session_data_sources_ p !! sid = Some l).
  { intros l. unfold sessions. rewrite list_elem_of_fmap. split.
    - intros ([sid l'] & -> & Hin%elem_of_map_to_list). by exists sid.
    - intros (sid & Hsid). exists (sid, l). split; [done|].
      by apply elem_of_map_to_list. }
  assert (Hlive : forall w, w ∈ ftrace_work sessions ->
            is_Some (heap p !! w.2) /\
            forall d a, (d, a) ∈ w.1 -> is_Some (heap p !! a)).
  { intros [l ft] [Hl Hft]%elem_of_ftrace_work.
    apply Hsess in Hl as (sid & Hsid%session_entries_lookup). subst l.
    cbn [fst snd]. split.
    - destruct (filed_owned p Hco _ _ _ Hft) as (? & ? & _ & -> & _). by eexists.
    - intros d a Hin.
      destruct (filed_owned p Hco _ _ _ Hin) as (? & ? & _ & -> & _). by eexists. }
  destruct (broadcast_work (heap p) (ftrace_work sessions) p)
    as (p' & Hrun & Htr & Hds & Hsds & Hsim & _ & Hclr).
  { intros a. by destruct (heap p !! a); constructor. }
  { done. }
  { exact Hlive. }
  { by apply ftrace_work_NoDup. }
  exists p', (flat_map (ftrace_events (heap p)) (ftrace_work sessions)).
  split_and!; try done.
  { unfold OnFtraceDataWrittenIntoDataSourceBuffers.
    fold sessions. by rewrite broadcast_sessions_work. }
  intros sid ft ftrace_ds Hft Hheap Hst md.
  assert (Hw : (session_entries p sid, ft) ∈ ftrace_work sessions).
  { apply elem_of_ftrace_work. split; [|done]. apply Hsess. exists sid.
    unfold session_entries in *.
    destruct (session_data_sources_ p !! sid); [done|].
    by apply not_elem_of_nil in Hft. }
  destruct (flat_map_elem_split (ftrace_events (heap p)) _ _ Hw) as (A & B & ->).
  subst md.
  assert (Hev : ftrace_events (heap p) (session_entries p sid, ft) =
            flat_map (process_stats_events (heap p) (metadata ftrace_ds))
              (equal_range ProcessStatsDataSource (session_entries p sid)) ++
            flat_map (inode_file_events (heap p) (metadata ftrace_ds))
              (equal_range InodeFileDataSource (session_entries p sid)))
    by (unfold ftrace_events; by rewrite Hheap, Hst).
  rewrite Hev. clear Hev.
  split_and!.
  - intros ps ps_ds Hps Hpsh Hpst Hpso.
    apply elem_of_equal_range in Hps.
    destruct (flat_map_elem_split
                (process_stats_events (heap p) (metadata ftrace_ds)) _ _ Hps)
      as (C & D & ->).
    assert (Hev : process_stats_events (heap p) (metadata ftrace_ds) ps =
              match rename_pids (metadata ftrace_ds) with
              | [] => []
              | _ => [DS_OnRenamePids ps (rename_pids (metadata ftrace_ds))]
              end ++
              match pids (metadata ftrace_ds) with
              | [] => []
              | _ => [DS_OnPids ps (pids (metadata ftrace_ds))]
              end)
      by (unfold process_stats_events; by rewrite Hpsh, Hpst, Hpso).
    rewrite Hev. clear Hev.
    exists (A ++ C),
      (D ++ flat_map (inode_file_events (heap p) (metadata ftrace_ds))
              (equal_range InodeFileDataSource (session_entries p sid)) ++ B).
    by rewrite <- !app_assoc.
  - intros ino inode_ds Hino Hinoh Hinost.
    apply elem_of_app. right. apply elem_of_app. left. apply elem_of_app. right.
    apply elem_of_flat_map. exists ino. split; [by apply elem_of_equal_range|].
    unfold inode_file_events. rewrite Hinoh, Hinost. cbn. by left.
  - by apply (Hclr (session_entries p sid, ft)).
Qed.

Lemma ftrace_metadata_broadcast_witness :
  exists p p' es,
    metadata_scenario = Ok p /\
    registry_coherent p /\
    OnFtraceDataWrittenIntoDataSourceBuffers p = Ok p' /\
    trace p' = trace p ++ es /\
    (exists es1 es2,
       es = es1 ++ [DS_OnRenamePids 1%nat [100]; DS_OnPids 1%nat [100; 101]]
               ++ es2) /\
    DS_OnInodes 2%nat [(9, 42)] ∈ es /\
    heap p' !! 0%nat = Some (set_metadata FtraceMetadata_empty scenario_ftrace).
Proof.
  destruct metadata_scenario_state
    as (p & Hp & Hco & Hentries & Hft & Hps & Hino).
  destruct (proj1 ftrace_metadata_broadcast p Hco)
    as (p' & es & Hrun & Htr & _ & Hall).
  assert (Hin : forall e, e ∈ session_entries p 3 <->
            e ∈ [(FtraceDataSource, 0%nat); (ProcessStatsDataSource, 1%nat);
                 (InodeFileDataSource, 2%nat)]) by (by rewrite Hentries).
  destruct (Hall 3%N 0%nat scenario_ftrace) as (Hpids & Hinodes & Hclear);
    [apply Hin; by left|exact Hft|reflexivity|].
  exists p, p', es. split_and!; [done|done|done|done| | |done].
  - eapply Hpids; [|exact Hps|reflexivity|reflexivity].
    apply Hin. right. by left.
  - eapply Hinodes; [|exact Hino|reflexivity].
    apply Hin. right. right. by left.
Defined.

End ProbesProofs.

(** ** Further properties of the watchdog *)

Module WatchdogExtra.
Import Watchdog WatchdogSpec WatchdogMore WatchdogProofs.

(** *** The ring as a sliding window *)








(** *** The first window *)

Lemma CheckMemory_not_full (w : Watchdog) (sample : Z) :
  memory_limit_bytes_ w <> 0 ->
  ring_ok (memory_window_bytes_ w) ->
  filled_ (memory_window_bytes_ w) = false ->
  (position_ (memory_window_bytes_ w) + 1 < size_ (memory_window_bytes_ w))%nat ->
  exists ring,
    CheckMemory w sample = Ok (with_memory_window w ring) /\
    ring_ok ring /\ filled_ ring = false /\
    size_ ring = size_ (memory_window_bytes_ w) /\
    position_ ring = (position_ (memory_window_bytes_ w) + 1)%nat.
Proof.
  intros Hlimit Hok Hf Hpos.
  destruct (Push_ok _ sample Hok) as (ring & HP & Hok' & Hsz & Hp & Hf' & _).
  rewrite Nat.mod_small in Hp by lia.
  rewrite Hf, Hp in Hf'. cbn [orb] in Hf'.
  replace (position_ (memory_window_bytes_ w) + 1 =? 0)%nat with false in Hf'
    by (symmetry; apply Nat.eqb_neq; lia).
  exists ring. split_and!; try done.
  unfold CheckMemory.
  replace (memory_limit_bytes_ w =? 0) with false by (symmetry; apply Z.eqb_neq; lia).
  rewrite HP. cbn [mbind outcome_bind]. by rewrite Hf'.
Qed.

Lemma CheckCpu_not_full (clk_tck : Z) (w : Watchdog) (sample : Z) :
  cpu_limit_percentage_ w <> 0 ->
  ring_ok (cpu_window_time_ticks_ w) ->
  filled_ (cpu_window_time_ticks_ w) = false ->
  (position_ (cpu_window_time_ticks_ w) + 1 < size_ (cpu_window_time_ticks_ w))%nat ->
  exists ring,
    CheckCpu clk_tck w sample = Ok (with_cpu_window w ring) /\
    ring_ok ring /\ filled_ ring = false /\
    size_ ring = size_ (cpu_window_time_ticks_ w) /\
    position_ ring = (position_ (cpu_window_time_ticks_ w) + 1)%nat.
Proof.
  intros Hlimit Hok Hf Hpos.
  destruct (Push_ok _ sample Hok) as (ring & HP & Hok' & Hsz & Hp & Hf' & _).
  rewrite Nat.mod_small in Hp by lia.
  rewrite Hf, Hp in Hf'. cbn [orb] in Hf'.
  replace (position_ (cpu_window_time_ticks_ w) + 1 =? 0)%nat with false in Hf'
    by (symmetry; apply Nat.eqb_neq; lia).
  exists ring. split_and!; try done.
  unfold CheckCpu.
  replace (cpu_limit_percentage_ w =? 0) with false by (symmetry; apply Z.eqb_neq; lia).
  rewrite HP. cbn [mbind outcome_bind]. by rewrite Hf'.
Qed.

Lemma memory_checks_not_full (samples : list Z) (w : Watchdog) :
  memory_limit_bytes_ w <> 0 ->
  ring_ok (memory_window_bytes_ w) ->
  filled_ (memory_window_bytes_ w) = false ->
  (position_ (memory_window_bytes_ w) + length samples
   < size_ (memory_window_bytes_ w))%nat ->
  exists w', memory_checks w samples = Ok w'.
Proof.
  revert w. induction samples as [|x samples IH]; intros w Hlimit Hok Hf Hpos.
  - by exists w.
  - cbn [length] in Hpos.
    destruct (CheckMemory_not_full w x Hlimit Hok Hf ltac:(lia))
      as (ring & HC & Hok' & Hf' & Hsz & Hp).
    cbn [memory_checks]. rewrite HC. cbn [mbind outcome_bind].
    apply IH; cbn; try done. lia.
Qed.

Lemma cpu_checks_not_full (clk_tck : Z) (samples : list Z) (w : Watchdog) :
  cpu_limit_percentage_ w <> 0 ->
  ring_ok (cpu_window_time_ticks_ w) ->
  filled_ (cpu_window_time_ticks_ w) = false ->
  (position_ (cpu_window_time_ticks_ w) + length samples
   < size_ (cpu_window_time_ticks_ w))%nat ->
  exists w', cpu_checks clk_tck w samples = Ok w'.
Proof.
  revert w. induction samples as [|x samples IH]; intros w Hlimit Hok Hf Hpos.
  - by exists w.
  - cbn [length] in Hpos.
    destruct (CheckCpu_not_full clk_tck w x Hlimit Hok Hf ltac:(lia))
      as (ring & HC & Hok' & Hf' & Hsz & Hp).
    cbn [cpu_checks]. rewrite HC. cbn [mbind outcome_bind].
    apply IH; cbn; try done. lia.
Qed.

(** X2.  On a watchdog whose ring never filled, the checks that follow a
    successful [SetMemoryLimit] or [SetCpuLimit] kill nothing until a full
    window has been sampled: fewer samples than the ring has cells pass,
    whatever their values. *)
Theorem no_kill_before_full_window (clk_tck : Z) (w w1 : Watchdog)
    (limit window_ms : Z) (samples : list Z) :
  (filled_ (memory_window_bytes_ w) = false ->
   SetMemoryLimit w limit window_ms = Ok w1 ->
   (length samples < size_ (memory_window_bytes_ w1))%nat ->
   exists w2, memory_checks w1 samples = Ok w2) /\
  (filled_ (cpu_window_time_ticks_ w) = false ->
   SetCpuLimit w limit window_ms = Ok w1 ->
   (length samples < size_ (cpu_window_time_ticks_ w1))%nat ->
   exists w2, cpu_checks clk_tck w1 samples = Ok w2).
Proof.
  split.
  - intros Hf. unfold SetMemoryLimit.
    destruct (IsMultipleOf _ _) as [m| |]; cbn [mbind outcome_bind]; [|done..].
    destruct (CHECK _ _) as [[]| |]; cbn [mbind outcome_bind]; [|done..].
    intros [= <-]. cbn [memory_window_bytes_ Reset size_]. intros Hlen.
    destruct (decide (limit = 0)) as [->|Hlimit].
    { unfold window_size in Hlen. cbn in Hlen. lia. }
    apply memory_checks_not_full; cbn; try done.
    + unfold ring_ok. cbn. rewrite length_replicate. lia.
  - intros Hf. unfold SetCpuLimit.
    destruct (CHECK _ _) as [[]| |]; cbn [mbind outcome_bind]; [|done..].
    destruct (IsMultipleOf _ _) as [m| |]; cbn [mbind outcome_bind]; [|done..].
    destruct (CHECK _ _) as [[]| |]; cbn [mbind outcome_bind]; [|done..].
    intros [= <-]. cbn [cpu_window_time_ticks_ Reset size_]. intros Hlen.
    destruct (decide (limit = 0)) as [->|Hlimit].
    { unfold window_size in Hlen. cbn in Hlen. lia. }
    apply cpu_checks_not_full; cbn; try done.
    + unfold ring_ok. cbn. rewrite length_replicate. lia.
Qed.

Lemma no_kill_before_full_window_witness :
  exists w1 w2,
    SetMemoryLimit (Watchdog_new 1) 100 4 = Ok w1 /\
    memory_checks w1 [1000; 2000; 3000; 4000] = Ok w2.
Proof.
  pose (w1 := {| polling_interval_ms_ := 1; quit_ := true;
                 memory_window_bytes_ := Reset WindowedInterval_new 5;
                 memory_limit_bytes_ := 100;
                 cpu_window_time_ticks_ := WindowedInterval_new;
                 cpu_limit_percentage_ := 0 |}).
  assert (Hset : SetMemoryLimit (Watchdog_new 1) 100 4 = Ok w1) by reflexivity.
  destruct (proj1 (no_kill_before_full_window 100 (Watchdog_new 1) w1 100 4
                     [1000; 2000; 3000; 4000]) eq_refl Hset
              ltac:(cbn; lia)) as [w2 H2].
  exists w1, w2. split; [exact Hset|exact H2].
Defined.



(** *** Configuration and the worker *)

Lemma set_limit_watchdog_ok (w w' : Watchdog) (c : limit_call) :
  0 < polling_interval_ms_ w ->
  window_fits (polling_interval_ms_ w) c ->
  watchdog_ok w ->
  set_limit w c = Ok w' ->
  watchdog_ok w' /\ polling_interval_ms_ w' = polling_interval_ms_ w.
Proof.
  intros Hpoll [Hwin Hfit] [Hmem Hcpu].
  assert (Hsize : forall limit window_ms,
            limit <> 0 -> 0 <= window_ms ->
            window_ms / polling_interval_ms_ w + 1 < 2 ^ 32 ->
            (1 <= window_size limit window_ms (polling_interval_ms_ w))%nat).
  { intros limit window_ms Hl Hw Hf. unfold window_size.
    replace (limit =? 0) with false by (symmetry; apply Z.eqb_neq; lia).
    assert (0 <= window_ms / polling_interval_ms_ w) by (apply Z.div_pos; lia).
    unfold u32. rewrite Z.mod_small by lia. lia. }
  destruct c as [bytes window_ms|percentage window_ms]; cbn [set_limit].
  - unfold SetMemoryLimit.
    destruct (IsMultipleOf _ _) as [m| |]; cbn [mbind outcome_bind]; [|done..].
    destruct (CHECK _ _) as [[]| |]; cbn [mbind outcome_bind]; [|done..].
    intros [= <-]. split; [|done]. split; cbn; [|done].
    intros Hl. by apply Reset_ring_ok, Hsize.
  - unfold SetCpuLimit.
    destruct (CHECK _ _) as [[]| |]; cbn [mbind outcome_bind]; [|done..].
    destruct (IsMultipleOf _ _) as [m| |]; cbn [mbind outcome_bind]; [|done..].
    destruct (CHECK _ _) as [[]| |]; cbn [mbind outcome_bind]; [|done..].
    intros [= <-]. split; [|done]. split; cbn; [done|].
    intros Hl. by apply Reset_ring_ok, Hsize.
Qed.

Lemma set_limits_watchdog_ok (cs : list limit_call) (w w' : Watchdog) :
  0 < polling_interval_ms_ w ->
  Forall (window_fits (polling_interval_ms_ w)) cs ->
  watchdog_ok w ->
  set_limits w cs = Ok w' ->
  watchdog_ok w'.
Proof.
  revert w. induction cs as [|c cs IH]; intros w Hpoll Hfit Hok; cbn [set_limits].
  - by intros [= <-].
  - apply Forall_cons in Hfit as [Hc Hcs].
    destruct (set_limit w c) as [w1| |] eqn:Hset; cbn [mbind outcome_bind]; [|done..].
    destruct (set_limit_watchdog_ok w w1 c Hpoll Hc Hok Hset) as [Hok1 Hp1].
    apply IH; rewrite ?Hp1; done.
Qed.

(** X4.  However the limits of a new watchdog are set and set again, with
    windows whose ring sizes fit 32 bits, each enabled check has its ring
    allocated, and the worker thread never divides by a zero capacity or
    touches a cell outside its buffer, whatever it reads. *)
Theorem worker_never_undefined (clk_tck kPageSize polling_interval_ms : Z)
    (cs : list limit_call) (w : Watchdog) (open_ok : bool)
    (inputs : list poll_input) :
  0 < polling_interval_ms ->
  Forall (window_fits polling_interval_ms) cs ->
  set_limits (Watchdog_new polling_interval_ms) cs = Ok w ->
  watchdog_ok w /\
  ThreadMain clk_tck kPageSize open_ok w inputs <> Undefined.
Proof.
  intros Hpoll Hfit Hset.
  assert (Hok : watchdog_ok w).
  { eapply (set_limits_watchdog_ok cs (Watchdog_new polling_interval_ms));
      [done|done| |done]. split; cbn; done. }
  split; [done|]. unfold ThreadMain. destruct open_ok; [|done].
  pose proof (ThreadMain_loop_exit clk_tck kPageSize inputs w Hok) as Hexit.
  by destruct (ThreadMain_loop _ _ _ _).
Qed.

Lemma worker_never_undefined_witness :
  exists w,
    set_limits (Watchdog_new 30000)
      [CallSetMemoryLimit 4096 60000; CallSetCpuLimit 75 30000] = Ok w /\
    ThreadMain 100 4096 true w
      [ {| quit_seen := false; stat := ReadFields (Some (10, 5, 3)) |} ]
      <> Undefined.
Proof.
  pose (w := {| polling_interval_ms_ := 30000; quit_ := true;
                memory_window_bytes_ := Reset WindowedInterval_new 3;
                memory_limit_bytes_ := 4096;
                cpu_window_time_ticks_ := Reset WindowedInterval_new 2;
                cpu_limit_percentage_ := 75 |}).
  assert (Hset : set_limits (Watchdog_new 30000)
            [CallSetMemoryLimit 4096 60000; CallSetCpuLimit 75 30000] = Ok w)
    by reflexivity.
  exists w. split; [exact Hset|].
  apply (worker_never_undefined 100 4096 30000
           [CallSetMemoryLimit 4096 60000; CallSetCpuLimit 75 30000] w true
           [ {| quit_seen := false; stat := ReadFields (Some (10, 5, 3)) |} ]);
    [lia| |exact Hset].
  repeat constructor; cbn; lia.
Defined.

(** The ring size of the largest window at a polling interval of 1 ms
    wraps to zero, and the first check that follows is undefined. *)
Example wrapped_window_is_undefined :
  exists w,
    SetMemoryLimit (Watchdog_new 1) 1 (2 ^ 32 - 1) = Ok w /\
    CheckMemory w 0 = Undefined.
Proof. eexists. split; reflexivity. Qed.

(** X5.  For a positive divisor, [IsMultipleOf] holds exactly of the
    positive multiples: zero is not one.  With divisor zero the remainder
    is undefined. *)
Theorem IsMultipleOf_positive_multiples (number divisor : Z) :
  0 <= number ->
  (0 < divisor ->
   (IsMultipleOf number divisor = Ok true <->
    exists k, 1 <= k /\ number = k * divisor) /\
   (IsMultipleOf number divisor = Ok false <->
    ~ exists k, 1 <= k /\ number = k * divisor)) /\
  (divisor = 0 -> IsMultipleOf number divisor = Undefined).
Proof.
  intros Hn. split; [|by intros ->].
  intros Hd. rewrite IsMultipleOf_ok by done.
  assert (H : (divisor <= number /\ number mod divisor = 0) <->
              exists k, 1 <= k /\ number = k * divisor).
  { split.
    - intros [Hle Hmod]. exists (number / divisor). split.
      + apply Z.div_le_lower_bound; lia.
      + rewrite Z.mul_comm. apply Z.div_exact; lia.
    - intros (k & Hk & ->). split; [nia|]. apply Z.mod_mul. lia. }
  split.
  - rewrite <- H. split.
    + intros [= Hb]. by apply bool_decide_eq_true in Hb.
    + intros Hm. f_equal. by apply bool_decide_eq_true.
  - rewrite <- H. split.
    + intros [= Hb]. by apply bool_decide_eq_false in Hb.
    + intros Hm. f_equal. by apply bool_decide_eq_false.
Qed.

Lemma IsMultipleOf_positive_multiples_witness :
  IsMultipleOf 60000 30000 = Ok true /\ IsMultipleOf 0 30000 = Ok false.
Proof.
  split.
  - apply (proj1 (IsMultipleOf_positive_multiples 60000 30000 ltac:(lia))
             ltac:(lia)).
    exists 2. lia.
  - apply (proj1 (IsMultipleOf_positive_multiples 0 30000 ltac:(lia))
             ltac:(lia)).
    intros (k & Hk & E). lia.
Defined.

(** X6.  The [it_value] a fatal timer is armed with stands for exactly
    [ms] milliseconds: the nanoseconds are below one second (and fit a
    32-bit [long]), and seconds and nanoseconds are both zero only for
    [ms = 0]. *)
Theorem Timer_it_value_exact (ms : Z) :
  is_u32 ms ->
  let '(tv_sec, tv_nsec) := Timer_it_value ms in
  0 <= tv_sec /\
  0 <= tv_nsec < 10 ^ 9 /\
  tv_nsec < 2 ^ 31 /\
  tv_sec * 10 ^ 9 + tv_nsec = ms * 10 ^ 6 /\
  ((tv_sec = 0 /\ tv_nsec = 0) <-> ms = 0).
Proof.
  intros [Hlo Hhi]. unfold Timer_it_value.
  pose proof (Z.div_mod ms 1000 ltac:(lia)) as Hdm.
  pose proof (Z.mod_pos_bound ms 1000 ltac:(lia)) as Hm.
  assert (0 <= ms / 1000) by (apply Z.div_pos; lia).
  split_and!; try lia.
Qed.

Lemma Timer_it_value_exact_witness :
  is_u32 5250 /\
  let '(tv_sec, tv_nsec) := Timer_it_value 5250 in
  tv_sec * 10 ^ 9 + tv_nsec = 5250 * 10 ^ 6.
Proof.
  assert (H : is_u32 5250) by (unfold is_u32; lia).
  split; [exact H|].
  exact (proj1 (proj2 (proj2 (proj2 (Timer_it_value_exact 5250 H))))).
Defined.

(** *** Starting and stopping the thread *)

(** X7.  From the watchdog [GetInstance] builds, [Start] and the
    destructor keep the thread running exactly while the quit flag is
    clear, so none of their [PERFETTO_DCHECK]s fails.  [Start] is
    idempotent; it launches the thread on Linux and Android only and
    touches no limit; the destructor leaves the quit flag set, having
    joined the thread iff there was one. *)
Theorem Start_idempotent (os_linux_or_android dcheck_is_on : bool)
    (t : WatchdogThread) :
  (forall polling_interval_ms,
     thread_consistent (WatchdogThread_new polling_interval_ms)) /\
  (thread_consistent t ->
   exists t',
     Start os_linux_or_android dcheck_is_on t = Some t' /\
     thread_consistent t' /\
     Start os_linux_or_android dcheck_is_on t' = Some t' /\
     watchdog t' = set_quit (quit_ (watchdog t')) (watchdog t) /\
     (os_linux_or_android = true -> thread_joinable t' = true) /\
     (os_linux_or_android = false -> t' = t)) /\
  (thread_consistent t ->
   exists w,
     Destroy dcheck_is_on t = Some (w, thread_joinable t) /\
     quit_ w = true /\
     w = set_quit true (watchdog t)).
Proof.
  split_and!.
  - done.
  - destruct t as [[p q mw ml cw cl] j]. unfold thread_consistent, Start.
    cbn. intros ->.
    destruct q, os_linux_or_android, dcheck_is_on; cbn;
      (eexists; split; [reflexivity|]); cbn; split_and!; done.
  - destruct t as [[p q mw ml cw cl] j]. unfold thread_consistent, Destroy.
    cbn. intros ->.
    destruct q, dcheck_is_on; cbn;
      (eexists; split; [reflexivity|]); cbn; split_and!; done.
Qed.

Lemma Start_idempotent_witness :
  exists t',
    Start true true (WatchdogThread_new 30000) = Some t' /\
    Start true true t' = Some t' /\
    thread_joinable t' = true.
Proof.
  destruct (proj1 (proj2 (Start_idempotent true true (WatchdogThread_new 30000)))
              eq_refl) as (t' & H1 & _ & H3 & _ & H5 & _).
  exists t'. split_and!; [exact H1|exact H3|exact (H5 eq_refl)].
Defined.

(** X21.  A limit of zero switches a check off, whatever the window: the
    setter succeeds even for a window that is no multiple of the polling
    interval, releases the ring, leaves the other check alone, and the
    checks that follow do nothing at all, however large the samples. *)
Theorem zero_limit_disables (clk_tck : Z) (w : Watchdog) (window_ms : Z)
    (samples : list Z) :
  polling_interval_ms_ w <> 0 ->
  (exists w',
     SetMemoryLimit w 0 window_ms = Ok w' /\
     buffer_ (memory_window_bytes_ w') = [] /\
     cpu_window_time_ticks_ w' = cpu_window_time_ticks_ w /\
     cpu_limit_percentage_ w' = cpu_limit_percentage_ w /\
     memory_checks w' samples = Ok w') /\
  (exists w',
     SetCpuLimit w 0 window_ms = Ok w' /\
     buffer_ (cpu_window_time_ticks_ w') = [] /\
     memory_window_bytes_ w' = memory_window_bytes_ w /\
     memory_limit_bytes_ w' = memory_limit_bytes_ w /\
     cpu_checks clk_tck w' samples = Ok w').
Proof.
  intros Hpoll. apply Z.eqb_neq in Hpoll. split.
  - unfold SetMemoryLimit, IsMultipleOf. rewrite Hpoll.
    cbn [mbind outcome_bind]. rewrite orb_true_r. cbn [CHECK mbind outcome_bind].
    eexists. split; [reflexivity|]. split_and!; try done.
    induction samples as [|x samples IH]; [done|].
    cbn [memory_checks]. unfold CheckMemory at 1.
    cbn [memory_limit_bytes_ Z.eqb mbind outcome_bind]. exact IH.
  - unfold SetCpuLimit, IsMultipleOf. rewrite Hpoll.
    cbn [CHECK Z.leb Z.compare mbind outcome_bind].
    rewrite orb_true_r. cbn [CHECK mbind outcome_bind].
    eexists. split; [reflexivity|]. split_and!; try done.
    induction samples as [|x samples IH]; [done|].
    cbn [cpu_checks]. unfold CheckCpu at 1.
    cbn [cpu_limit_percentage_ Z.eqb mbind outcome_bind]. exact IH.
Qed.

Lemma zero_limit_disables_witness :
  exists w',
    SetMemoryLimit (Watchdog_new 30000) 0 12345 = Ok w' /\
    memory_checks w' [2 ^ 40; 2 ^ 50] = Ok w'.
Proof.
  destruct (proj1 (zero_limit_disables 100 (Watchdog_new 30000) 12345
                     [2 ^ 40; 2 ^ 50] ltac:(done)))
    as (w' & Hset & _ & _ & _ & Hchecks).
  by exists w'.
Defined.

End WatchdogExtra.

(** ** More of the producer *)

Module ProbesExtra.
Import Probes ProbesSpec ProbesMore ProbesProofs.

(** *** The worked states *)

Lemma coherent_owned_live (p : ProbesProducer) :
  registry_coherent p -> owned_live p.
Proof.
  intros Hco id a Hid.
  destruct (owned_filed_once p Hco id a Hid) as (ds & -> & _). by eexists.
Qed.

(** The state of [session_scenario]. *)
Lemma session_scenario_state :
  exists p,
    session_scenario = Ok p /\
    registry_coherent p /\
    attached p /\
    pending_flushes_ p = [] /\
    data_sources_ p !! 1%N = Some 0%nat /\
    data_sources_ p !! 2%N = Some 1%nat /\
    data_sources_ p !! 3%N = None /\
    data_sources_ p !! 9%N = None /\
    watchdogs_ p !! 2%N = None /\
    heap p !! 0%nat =
      Some (set_started (new_data_source (fun _ => true) SysStatsDataSource 7
                           (example_config "linux.sys_stats" 7))) /\
    heap p !! 1%nat =
      Some (new_data_source (fun _ => true) ProcessStatsDataSource 7
              (example_config "linux.process_stats" 7)) /\
    started_targets p [9; 2; 1]%N = [(1%N, 0%nat)].
Proof.
  unfold session_scenario.
  destruct (run example_names true (fun _ => true) example_BufferID
              (ProbesProducer_new []) session_calls) as [p| |] eqn:Hp;
    try (vm_compute in Hp; discriminate).
  exists p. split; [done|]. split.
  - eapply run_coherent; [apply (registry_coherent_new [])|exact Hp].
  - vm_compute in Hp. injection Hp as <-.
    unfold attached. split_and!; vm_compute; reflexivity.
Qed.

(** The state of [flush_started]: the flush 42 is pending on the data
    sources 1 and 2. *)
Lemma flush_started_run :
  flush_started =
    run example_names true (fun _ => true) example_BufferID
      (ProbesProducer_new [])
      [CallConnectWithRetries; CallOnConnect;
       CallSetupDataSource ftrace_works 1 (example_config "linux.sys_stats" 7);
       CallSetupDataSource ftrace_works 2
         (example_config "linux.process_stats" 7);
       CallStartDataSource 1 (example_config "linux.sys_stats" 7);
       CallStartDataSource 2 (example_config "linux.process_stats" 7);
       CallFlush 42 [1; 2]%N].
Proof. vm_compute. reflexivity. Qed.

Lemma flush_started_state :
  exists p,
    flush_started = Ok p /\
    registry_coherent p /\
    attached p /\
    pending_flushes_ p = [(42, 1); (42, 2)]%N.
Proof.
  destruct flush_started as [p| |] eqn:Hp; try (vm_compute in Hp; discriminate).
  exists p. split; [done|]. split.
  - pose proof flush_started_run as Hrun. rewrite Hp in Hrun.
    eapply run_coherent; [apply (registry_coherent_new [])|symmetry; exact Hrun].
  - vm_compute in Hp. injection Hp as <-.
    unfold attached. split_and!; vm_compute; reflexivity.
Qed.

(** *** Flushes *)

Lemma started_targets_cons (p : ProbesProducer) (id : N) (ids : list N) :
  started_targets p (id :: ids) =
    match data_sources_ p !! id with
    | Some a =>
        match heap p !! a with
        | Some ds =>
            if started ds then (id, a) :: started_targets p ids
            else started_targets p ids
        | None => started_targets p ids
        end
    | None => started_targets p ids
    end.
Proof.
  unfold started_targets. cbn [omap list_omap].
  destruct (data_sources_ p !! id) as [a|]; [|done].
  destruct (heap p !! a) as [ds|]; [|done]. by destruct (started ds).
Qed.

Lemma Flush_loop_targets (flush_id : N) (ids : list N) (queued : bool)
    (p : ProbesProducer) :
  owned_live p ->
  Flush_loop flush_id ids queued p =
    Ok (queued || negb (bool_decide (started_targets p ids = [])),
        emit ((fun t => DS_Flush t.2 flush_id) <$> started_targets p ids)
          (set_pending_flushes
             (pending_flushes_ p ++
              ((fun t => (flush_id, t.1)) <$> started_targets p ids)) p)).
Proof.
  intros Hlive. revert queued p Hlive.
  induction ids as [|id ids IH]; intros queued p Hlive.
  - cbn. rewrite app_nil_r, set_pending_flushes_same, emit_nil.
    by rewrite orb_false_r.
  - rewrite started_targets_cons. cbn [Flush_loop].
    destruct (data_sources_ p !! id) as [a|] eqn:Hid; [|by apply IH].
    destruct (Hlive _ _ Hid) as [ds Hds]. rewrite Hds.
    destruct (started ds); [|by apply IH].
    rewrite IH by done. cbn.
    rewrite orb_true_r. f_equal. f_equal.
    destruct p; unfold emit, set_pending_flushes, started_targets; cbn.
    by rewrite <- !app_assoc.
Qed.

(** The request, once its loop is done. *)
Lemma Flush_unfolded (dcheck_is_on : bool) (p : ProbesProducer)
    (flush_request_id : N) (data_source_ids : list N) :
  owned_live p -> flush_request_id <> 0%N ->
  let targets := started_targets p data_source_ids in
  Flush dcheck_is_on p flush_request_id data_source_ids =
    let q := emit ((fun t => DS_Flush t.2 flush_request_id) <$> targets)
               (set_pending_flushes
                  (pending_flushes_ p ++
                   ((fun t => (flush_request_id, t.1)) <$> targets)) p) in
    match targets with
    | [] =>
        _ ← deref (endpoint_ p);
        Ok (emit [NotifyFlushComplete flush_request_id] q)
    | _ =>
        _ ← deref (task_runner_ p);
        Ok (emit [PostDelayedTask_OnFlushTimeout flush_request_id 1000] q)
    end.
Proof.
  intros Hlive Hid targets. unfold Flush.
  rewrite DCHECK_holds by (by apply negb_true_iff, N.eqb_neq).
  cbn [mbind outcome_bind]. rewrite Flush_loop_targets by done.
  cbn [mbind outcome_bind orb]. fold targets. by destruct targets.
Qed.

Lemma Flush_returns (dcheck_is_on : bool) (p : ProbesProducer)
    (flush_request_id : N) (data_source_ids : list N) :
  owned_live p -> attached p -> flush_request_id <> 0%N ->
  exists p',
    Flush dcheck_is_on p flush_request_id data_source_ids = Ok p' /\
    attached p'.
Proof.
  intros Hlive [Hep Hrunner] Hid.
  rewrite (Flush_unfolded dcheck_is_on p _ data_source_ids Hlive Hid). cbn zeta.
  destruct (started_targets p data_source_ids);
    rewrite ?Hep, ?Hrunner; cbn [deref mbind outcome_bind];
    by eexists.
Qed.

(** X8.  On a producer that has its endpoint and its task runner, a flush
    reaches exactly the instances among the requested ids that exist and
    are started: each is flushed and queued as pending, in the order of
    the request; unknown and unstarted ones are skipped.  If none is
    reached the flush is acknowledged at once, otherwise the timeout task
    is posted, and nothing else changes.  A flush id of zero is fatal
    where the build has the [PERFETTO_DCHECK]s on; and a flush that has
    to call through a pointer that is null is undefined. *)
Theorem Flush_queues_started (dcheck_is_on : bool) (p : ProbesProducer)
    (flush_request_id : N) (data_source_ids : list N) :
  owned_live p ->
  let targets := started_targets p data_source_ids in
  (attached p -> flush_request_id <> 0%N ->
   Flush dcheck_is_on p flush_request_id data_source_ids =
     Ok (emit (((fun t => DS_Flush t.2 flush_request_id) <$> targets) ++
               [match targets with
                | [] => NotifyFlushComplete flush_request_id
                | _ => PostDelayedTask_OnFlushTimeout flush_request_id 1000
                end])
           (set_pending_flushes
              (pending_flushes_ p ++
               ((fun t => (flush_request_id, t.1)) <$> targets)) p))) /\
  (dcheck_is_on = true ->
   Flush dcheck_is_on p 0 data_source_ids = Fatal DCHECK_flush_request_id) /\
  (flush_request_id <> 0%N ->
   match targets with
   | [] => endpoint_ p = false
   | _ => task_runner_ p = false
   end ->
   Flush dcheck_is_on p flush_request_id data_source_ids = Undefined).
Proof.
  intros Hlive targets.
  pose proof (fun Hid => Flush_unfolded dcheck_is_on p flush_request_id
                           data_source_ids Hlive Hid) as Hloop.
  cbn zeta in Hloop. fold targets in Hloop.
  split_and!.
  - intros [Hep Hrunner] Hid. rewrite Hloop by done.
    destruct targets; rewrite ?Hep, ?Hrunner; cbn [deref mbind outcome_bind];
      by rewrite emit_emit.
  - intros ->. reflexivity.
  - intros Hid Hnull. rewrite Hloop by done.
    destruct targets; by rewrite Hnull.
Qed.

Lemma Flush_queues_started_witness :
  exists p,
    session_scenario = Ok p /\
    started_targets p [9; 2; 1]%N = [(1%N, 0%nat)] /\
    Flush true p 43 [9; 2; 1]%N =
      Ok (emit [DS_Flush 0%nat 43; PostDelayedTask_OnFlushTimeout 43 1000]
            (set_pending_flushes [(43, 1)]%N p)).
Proof.
  destruct session_scenario_state
    as (p & Hp & Hco & Hatt & Hpend & _ & _ & _ & _ & _ & _ & _ & Htargets).
  exists p. split; [done|]. split; [done|].
  pose proof (proj1 (Flush_queues_started true p 43 [9; 2; 1]%N
                       (coherent_owned_live p Hco)) Hatt ltac:(done)) as HF.
  rewrite Htargets, Hpend in HF. exact HF.
Defined.

Lemma filter_erase_first_key (flush_id id : N) (l : list (N * N)) :
  filter (fun kv => kv.1 = flush_id) (erase_first (flush_id, id) l) =
    erase_first (flush_id, id) (filter (fun kv => kv.1 = flush_id) l).
Proof.
  induction l as [|[k v] l IH]; [done|]. cbn [erase_first].
  rewrite filter_cons. cbn [fst].
  destruct (decide ((flush_id, id) = (k, v))) as [[= <- <-]|Hne].
  - rewrite decide_True by done. cbn [erase_first]. by rewrite decide_True.
  - rewrite filter_cons. cbn [fst]. destruct (decide (k = flush_id)) as [->|Hk].
    + cbn [erase_first]. rewrite decide_False by done. by rewrite IH.
    + done.
Qed.

Lemma filter_erase_first_other (flush_id other id : N) (l : list (N * N)) :
  other <> flush_id ->
  filter (fun kv => kv.1 = other) (erase_first (flush_id, id) l) =
    filter (fun kv => kv.1 = other) l.
Proof.
  intros Hne. induction l as [|[k v] l IH]; [done|]. cbn [erase_first].
  destruct (decide ((flush_id, id) = (k, v))) as [[= <- <-]|Hkv].
  - rewrite filter_cons. cbn [fst]. by rewrite decide_False by done.
  - rewrite !filter_cons. cbn [fst]. rewrite IH. done.
Qed.

Lemma erase_key_erase_first (flush_id id : N) (l : list (N * N)) :
  erase_key flush_id (erase_first (flush_id, id) l) = erase_key flush_id l.
Proof.
  unfold erase_key. induction l as [|[k v] l IH]; [done|]. cbn [erase_first].
  destruct (decide ((flush_id, id) = (k, v))) as [[= <- <-]|Hkv].
  - rewrite filter_cons. cbn [fst]. by rewrite decide_False by (by intros []).
  - rewrite !filter_cons. cbn [fst]. by rewrite IH.
Qed.

Lemma filter_key_erase_key (flush_id : N) (l : list (N * N)) :
  filter (fun kv => kv.1 = flush_id) (erase_key flush_id l) = [].
Proof.
  unfold erase_key. induction l as [|[k v] l IH]; [done|].
  rewrite filter_cons. cbn [fst]. destruct (decide (k ≠ flush_id)); [|done].
  rewrite filter_cons. cbn [fst]. by rewrite decide_False by done.
Qed.

Lemma erase_key_none (flush_id : N) (l : list (N * N)) :
  filter (fun kv => kv.1 = flush_id) l = [] -> erase_key flush_id l = l.
Proof.
  unfold erase_key. induction l as [|[k v] l IH]; [done|].
  rewrite !filter_cons. cbn [fst]. destruct (decide (k = flush_id)) as [->|Hk].
  - done.
  - rewrite decide_True by done. intros H. by rewrite IH.
Qed.

Lemma erase_first_Permutation {A} `{EqDecision A} (x : A) (l l' : list A) :
  x :: l ≡ₚ l' -> l ≡ₚ erase_first x l'.
Proof.
  revert l. induction l' as [|y l' IH]; intros l Hp.
  - by apply Permutation_nil_r in Hp.
  - cbn [erase_first]. destruct (decide (x = y)) as [<-|Hne].
    + by apply (inj (cons x)).
    + assert (Hin : y ∈ x :: l) by (rewrite Hp; left).
      apply elem_of_cons in Hin as [->|Hin]; [done|].
      apply list_elem_of_split in Hin as (l1 & l2 & ->).
      rewrite <- Permutation_middle. f_equiv. apply IH.
      apply (inj (cons y)). rewrite <- Hp.
      rewrite (Permutation_swap x y). f_equiv. by rewrite Permutation_middle.
Qed.

Lemma count_key_filter (flush_id : N) (l : list (N * N)) :
  count_key flush_id l = length (filter (fun kv => kv.1 = flush_id) l).
Proof. unfold count_key, equal_range. by rewrite length_fmap. Qed.

Lemma flush_acks_cons (flush_id id : N) (acks : list N) (p : ProbesProducer) :
  flush_acks flush_id (id :: acks) p =
    (q ← OnDataSourceFlushComplete p flush_id id; flush_acks flush_id acks q).
Proof. done. Qed.

Lemma OnDataSourceFlushComplete_counted (flush_id id : N) (others : list N)
    (p : ProbesProducer) :
  endpoint_ p = true ->
  (fun id => (flush_id, id)) <$> id :: others
    ≡ₚ filter (fun kv => kv.1 = flush_id) (pending_flushes_ p) ->
  let q := set_pending_flushes
             (erase_first (flush_id, id) (pending_flushes_ p)) p in
  (fun id => (flush_id, id)) <$> others
    ≡ₚ filter (fun kv => kv.1 = flush_id) (pending_flushes_ q) /\
  OnDataSourceFlushComplete p flush_id id =
    Ok match others with
       | [] => emit [NotifyFlushComplete flush_id] q
       | _ => q
       end.
Proof.
  intros Hep Hperm q.
  rewrite fmap_cons in Hperm. apply erase_first_Permutation in Hperm.
  rewrite <- filter_erase_first_key in Hperm. split; [done|].
  unfold OnDataSourceFlushComplete. fold q.
  rewrite count_key_filter. cbn [pending_flushes_ endpoint_ q set_pending_flushes].
  rewrite <- Hperm, length_fmap, Hep. by destruct others.
Qed.

Lemma flush_acks_all (flush_id : N) (acks : list N) (p : ProbesProducer) :
  endpoint_ p = true ->
  (fun id => (flush_id, id)) <$> acks
    ≡ₚ filter (fun kv => kv.1 = flush_id) (pending_flushes_ p) ->
  flush_acks flush_id acks p =
    Ok match acks with
       | [] => p
       | _ => emit [NotifyFlushComplete flush_id]
                (set_pending_flushes (erase_key flush_id (pending_flushes_ p)) p)
       end.
Proof.
  revert p. induction acks as [|id acks IH]; intros p Hep Hperm; [done|].
  rewrite flush_acks_cons.
  destruct (OnDataSourceFlushComplete_counted _ _ _ _ Hep Hperm) as [Hperm' ->].
  cbn [mbind outcome_bind].
  destruct acks as [|id' acks].
  - cbn. f_equal. f_equal. f_equal.
    rewrite <- (erase_key_erase_first flush_id id).
    symmetry. apply erase_key_none. symmetry. by apply Permutation_nil_l.
  - rewrite IH by done.
    cbn [pending_flushes_ set_pending_flushes].
    by rewrite erase_key_erase_first.
Qed.

(** X9.  On a producer that has its endpoint: when the data sources a
    flush is pending on acknowledge it, each once and in any order, the
    service is told of its completion exactly once, at the last
    acknowledgement; the entries of the flush are gone, those of other
    flushes stay, and the timeout task then finds nothing to do. *)
Theorem flush_acknowledged_once (p : ProbesProducer) (flush_id : N)
    (acks : list N) :
  endpoint_ p = true ->
  acks <> [] ->
  (fun id => (flush_id, id)) <$> acks
    ≡ₚ filter (fun kv => kv.1 = flush_id) (pending_flushes_ p) ->
  let p' := emit [NotifyFlushComplete flush_id]
              (set_pending_flushes (erase_key flush_id (pending_flushes_ p)) p) in
  flush_acks flush_id acks p = Ok p' /\
  (forall n, (n < length acks)%nat ->
     exists q, flush_acks flush_id (take n acks) p = Ok q /\ trace q = trace p) /\
  count_key flush_id (pending_flushes_ p') = 0%nat /\
  OnFlushTimeout p' flush_id = Ok p'.
Proof.
  intros Hep Hne Hperm p'.
  assert (Hcount : count_key flush_id (pending_flushes_ p') = 0%nat).
  { unfold p'. cbn [pending_flushes_ emit set_pending_flushes].
    by rewrite count_key_filter, filter_key_erase_key. }
  split_and!; [|clear p' Hcount|done|by apply OnFlushTimeout_idle].
  { rewrite flush_acks_all by done. by destruct acks. }
  clear Hne. revert p Hep Hperm.
  induction acks as [|id acks IH]; intros p Hep Hperm n Hn; [cbn in Hn; lia|].
  destruct n as [|n]; [by exists p|].
  cbn [take]. rewrite flush_acks_cons. cbn [length] in Hn.
  destruct (OnDataSourceFlushComplete_counted _ _ _ _ Hep Hperm) as [Hperm' ->].
  cbn [mbind outcome_bind].
  destruct acks as [|id' acks]; [cbn in Hn; lia|].
  destruct (IH (set_pending_flushes
                  (erase_first (flush_id, id) (pending_flushes_ p)) p)
              Hep Hperm' n) as (q & Hq & Htr); [lia|].
  by exists q.
Qed.

Lemma flush_acknowledged_once_witness :
  exists p,
    flush_started = Ok p /\
    flush_acks 42 [2; 1]%N p =
      Ok (emit [NotifyFlushComplete 42] (set_pending_flushes [] p)).
Proof.
  destruct flush_started_state as (p & Hp & _ & [Hep _] & Hpend).
  exists p. split; [done|].
  pose proof (proj1 (flush_acknowledged_once p 42 [2; 1]%N Hep ltac:(done)
                       ltac:(rewrite Hpend; apply Permutation_swap))) as H.
  rewrite Hpend in H. exact H.
Defined.

Lemma flush_notifications_app (flush_id : N) (tr1 tr2 : list Effect) :
  flush_notifications flush_id (tr1 ++ tr2) =
    (flush_notifications flush_id tr1 + flush_notifications flush_id tr2)%nat.
Proof. unfold flush_notifications. by rewrite filter_app, length_app. Qed.

Lemma equal_range_erase_key (flush_id other : N) (l : list (N * N)) :
  other <> flush_id ->
  equal_range other (erase_key flush_id l) = equal_range other l.
Proof.
  intros Hne. unfold equal_range, erase_key. f_equal.
  induction l as [|[k v] l IH]; [done|].
  rewrite (filter_cons _ (k, v)). cbn [fst].
  destruct (decide (k ≠ flush_id)) as [Hk|Hk].
  - rewrite !filter_cons. cbn [fst]. by rewrite IH.
  - apply dec_stable in Hk as ->. rewrite filter_cons. cbn [fst].
    by rewrite decide_False by done.
Qed.

Lemma Flush_loop_pending (flush_id : N) (ids : list N) (queued queued' : bool)
    (p p' : ProbesProducer) :
  Flush_loop flush_id ids queued p = Ok (queued', p') ->
  exists new es,
    pending_flushes_ p' = pending_flushes_ p ++ new /\
    Forall (fun kv => kv.1 = flush_id) new /\
    trace p' = trace p ++ es /\
    Forall (fun e => exists a, e = DS_Flush a flush_id) es.
Proof.
  revert queued p. induction ids as [|id ids IH]; intros queued p.
  - intros [= <- <-]. exists [], []. by rewrite !app_nil_r.
  - cbn [Flush_loop]. destruct (data_sources_ p !! id) as [a|]; [|apply IH].
    destruct (heap p !! a) as [ds|]; [|done].
    destruct (started ds); [|apply IH].
    intros (new & es & Hpend & Hnew & Htr & Hes)%IH.
    cbn in Hpend, Htr.
    exists ((flush_id, id) :: new), (DS_Flush a flush_id :: es).
    rewrite Hpend, Htr, <- !app_assoc. split_and!; try done.
    + by constructor.
    + constructor; [by eexists|done].
Qed.

(** X10.  Flushes do not disturb each other: on a producer that has its
    endpoint an acknowledgement and a timeout for one flush id return; so
    does a new request on one that has its task runner too; and all
    three leave the pending entries of every other id as they are and
    tell the service nothing about them. *)
Theorem flush_isolation (dcheck_is_on : bool) (p : ProbesProducer)
    (flush_id other : N) :
  other <> flush_id ->
  let untouched p' :=
    equal_range other (pending_flushes_ p') =
      equal_range other (pending_flushes_ p) /\
    flush_notifications other (trace p') = flush_notifications other (trace p) in
  (endpoint_ p = true ->
   (forall id, exists p',
      OnDataSourceFlushComplete p flush_id id = Ok p' /\ untouched p') /\
   (exists p', OnFlushTimeout p flush_id = Ok p' /\ untouched p')) /\
  (owned_live p -> attached p -> flush_id <> 0%N ->
   forall ids, exists p',
     Flush dcheck_is_on p flush_id ids = Ok p' /\ untouched p' /\ attached p') /\
  (forall ids p', Flush dcheck_is_on p flush_id ids = Ok p' -> untouched p').
Proof.
  intros Hne untouched.
  assert (Hnot : flush_notifications other [NotifyFlushComplete flush_id] = 0%nat).
  { unfold flush_notifications. rewrite filter_cons.
    by rewrite decide_False by (by intros [= ->]). }
  cut ((endpoint_ p = true ->
        (forall id, exists p',
           OnDataSourceFlushComplete p flush_id id = Ok p' /\ untouched p') /\
        (exists p', OnFlushTimeout p flush_id = Ok p' /\ untouched p')) /\
       (forall ids p', Flush dcheck_is_on p flush_id ids = Ok p' -> untouched p')).
  { intros [Hacks Hflush]. split_and!; [done| |done].
    intros Hlive Hatt Hid ids.
    destruct (Flush_returns dcheck_is_on p flush_id ids Hlive Hatt Hid)
      as (p' & Hp' & Hatt').
    exists p'. split_and!; [done| |done]. by apply (Hflush ids). }
  split; [intros Hep; split|].
  - intros id. unfold untouched, OnDataSourceFlushComplete.
    cbn [pending_flushes_ endpoint_ set_pending_flushes].
    assert (Hrange : equal_range other
              (erase_first (flush_id, id) (pending_flushes_ p)) =
            equal_range other (pending_flushes_ p)).
    { unfold equal_range. by rewrite filter_erase_first_other. }
    rewrite Hep. cbn [deref mbind outcome_bind].
    destruct (_ =? _)%nat; (eexists; split; [reflexivity|]);
      cbn [pending_flushes_ trace emit set_pending_flushes];
      (split; [done|]); [|done].
    rewrite flush_notifications_app, Hnot. lia.
  - unfold untouched, OnFlushTimeout.
    destruct (_ =? _)%nat; [by eexists|].
    cbn [endpoint_ emit set_pending_flushes]. rewrite Hep.
    cbn [deref mbind outcome_bind]. eexists. split; [reflexivity|].
    cbn [pending_flushes_ trace emit set_pending_flushes]. split.
    + by apply equal_range_erase_key.
    + rewrite <- app_assoc, flush_notifications_app. cbn [app].
      unfold flush_notifications at 2. rewrite !filter_cons.
      rewrite decide_False by done.
      rewrite decide_False by (by intros [= ->]). cbn. lia.
  - intros ids p'. unfold Flush.
    destruct (DCHECK _ _ _) as [[]| |]; cbn [mbind outcome_bind]; [|done..].
    destruct (Flush_loop _ _ _ _) as [[queued q]| |] eqn:HF;
      cbn [mbind outcome_bind]; [|done..].
    apply Flush_loop_pending in HF as (new & es & Hpend & Hnew & Htr & Hes).
    assert (Hq : equal_range other (pending_flushes_ q) =
                 equal_range other (pending_flushes_ p) /\
                 flush_notifications other (trace q) =
                 flush_notifications other (trace p)).
    { rewrite Hpend, Htr. unfold equal_range. rewrite filter_app.
      rewrite flush_notifications_app. split.
      - replace (filter _ new) with (@nil (N * N)); [by rewrite app_nil_r|].
        symmetry. clear Hpend. induction Hnew as [|[k v] new Hk _ IH]; [done|].
        rewrite filter_cons. cbn [fst] in *. subst k.
        by rewrite decide_False by done.
      - replace (flush_notifications other es) with 0%nat; [lia|].
        symmetry. clear Htr. induction Hes as [|e es [a ->] _ IH]; [done|].
        unfold flush_notifications in *. rewrite filter_cons.
        by rewrite decide_False by done. }
    destruct Hq as [Hq1 Hq2].
    destruct queued;
      (destruct (deref _) as [[]| |]; cbn [mbind outcome_bind]; [|done..]);
      intros [= <-]; unfold untouched;
      cbn [pending_flushes_ trace emit]; (split; [done|]);
      rewrite flush_notifications_app, Hq2.
    + unfold flush_notifications at 2. rewrite filter_cons.
      rewrite decide_False by done. cbn. lia.
    + rewrite Hnot. lia.
Qed.

Lemma flush_isolation_witness :
  exists p p1 p2,
    flush_started = Ok p /\
    Flush true p 43 [1]%N = Ok p1 /\
    equal_range 42%N (pending_flushes_ p1) = [1; 2]%N /\
    OnFlushTimeout p1 43 = Ok p2 /\
    equal_range 42%N (pending_flushes_ p2) = [1; 2]%N /\
    flush_notifications 42 (trace p2) = flush_notifications 42 (trace p).
Proof.
  destruct flush_started_state as (p & Hp & Hco & Hatt & Hpend).
  destruct (proj1 (proj2 (flush_isolation true p 43 42 ltac:(done)))
              (coherent_owned_live p Hco) Hatt ltac:(done) [1]%N)
    as (p1 & Hflush & [Hrange1 Hnot1] & [Hep1 _]).
  destruct (proj2 (proj1 (flush_isolation true p1 43 42 ltac:(done)) Hep1))
    as (p2 & Htimeout & Hrange2 & Hnot2).
  exists p, p1, p2.
  split_and!; [exact Hp|exact Hflush| |exact Htimeout| |congruence].
  - rewrite Hrange1, Hpend. reflexivity.
  - rewrite Hrange2, Hrange1, Hpend. reflexivity.
Defined.

(** X11.  On a producer that has its endpoint the timeout of a flush
    returns; after it no entry of the flush is pending and a second
    timeout does nothing; the service is told at most once, and only if
    something was pending.  An acknowledgement that arrives after the
    timeout tells the service once more. *)
Theorem OnFlushTimeout_settles (p : ProbesProducer) (flush_id : N) :
  endpoint_ p = true ->
  exists p',
    OnFlushTimeout p flush_id = Ok p' /\
    count_key flush_id (pending_flushes_ p') = 0%nat /\
    OnFlushTimeout p' flush_id = Ok p' /\
    flush_notifications flush_id (trace p') =
      (flush_notifications flush_id (trace p) +
       if (count_key flush_id (pending_flushes_ p) =? 0)%nat then 0 else 1)%nat /\
    forall id, exists p'',
      OnDataSourceFlushComplete p' flush_id id = Ok p'' /\
      flush_notifications flush_id (trace p'') =
        S (flush_notifications flush_id (trace p')).
Proof.
  intros Hep.
  assert (Hone : flush_notifications flush_id [NotifyFlushComplete flush_id] = 1%nat).
  { unfold flush_notifications. rewrite filter_cons. by rewrite decide_True. }
  assert (Hrun : exists p',
            OnFlushTimeout p flush_id = Ok p' /\ endpoint_ p' = true /\
            count_key flush_id (pending_flushes_ p') = 0%nat /\
            flush_notifications flush_id (trace p') =
              (flush_notifications flush_id (trace p) +
               if (count_key flush_id (pending_flushes_ p) =? 0)%nat
               then 0 else 1)%nat).
  { unfold OnFlushTimeout.
    destruct (_ =? _)%nat eqn:E.
    - exists p. split_and!; [done|done|by apply Nat.eqb_eq|lia].
    - cbn [endpoint_ emit set_pending_flushes]. rewrite Hep.
      cbn [deref mbind outcome_bind]. eexists. split; [reflexivity|].
      cbn [endpoint_ pending_flushes_ trace emit set_pending_flushes].
      split_and!; [done| |].
      + by rewrite count_key_filter, filter_key_erase_key.
      + rewrite !flush_notifications_app, Hone.
        unfold flush_notifications at 2. rewrite filter_cons.
        rewrite decide_False by done. cbn. lia. }
  destruct Hrun as (p' & Hp' & Hep' & Hcount & Hnot).
  exists p'. split_and!; [done|done|by apply OnFlushTimeout_idle|done|].
  intros id. rewrite late_ack_notifies by done. eexists. split; [reflexivity|].
  cbn [trace emit]. rewrite flush_notifications_app, Hone. lia.
Qed.

Lemma OnFlushTimeout_settles_witness :
  exists p p' p'',
    flush_started = Ok p /\
    OnFlushTimeout p 42 = Ok p' /\
    count_key 42%N (pending_flushes_ p') = 0%nat /\
    flush_notifications 42 (trace p') = S (flush_notifications 42 (trace p)) /\
    OnDataSourceFlushComplete p' 42 2 = Ok p'' /\
    flush_notifications 42 (trace p'') = S (S (flush_notifications 42 (trace p))).
Proof.
  destruct flush_started_state as (p & Hp & _ & [Hep _] & Hpend).
  destruct (OnFlushTimeout_settles p 42 Hep)
    as (p' & Htimeout & Hcount & _ & Hnot & Hlate).
  destruct (Hlate 2%N) as (p'' & Hack & Hnot').
  assert (Hc : (count_key 42%N [(42, 1); (42, 2)]%N =? 0)%nat = false)
    by reflexivity.
  rewrite Hpend, Hc, Nat.add_1_r in Hnot.
  exists p, p', p''. split_and!; [exact Hp|exact Htimeout|exact Hcount|exact Hnot
                                 |exact Hack|].
  by rewrite Hnot', Hnot.
Defined.

(** *** Starting and stopping data sources *)

Lemma StartDataSource_found (p : ProbesProducer) (id : N) (a : addr)
    (ds : ProbesDataSource) (config : DataSourceConfig) :
  data_sources_ p !! id = Some a -> heap p !! a = Some ds ->
  started ds = false ->
  endpoint_ p = true ->
  exists p',
    StartDataSource p id config = Ok p' /\
    data_sources_ p' = data_sources_ p /\
    session_data_sources_ p' = session_data_sources_ p /\
    pending_flushes_ p' = pending_flushes_ p /\
    endpoint_ p' = true /\
    heap p' = <[a := set_started ds]> (heap p) /\
    watchdogs_ p' =
      (if trace_duration_ms config =? 0 then watchdogs_ p
       else match watchdogs_ p !! id with
            | Some _ => watchdogs_ p
            | None => <[id := u32 (5000 + 2 * trace_duration_ms config)]>
                        (watchdogs_ p)
            end) /\
    trace p' =
      trace p ++
      (if trace_duration_ms config =? 0 then []
       else [CreateFatalTimer (u32 (5000 + 2 * trace_duration_ms config))]) ++
      [DS_Start a; NotifyDataSourceStarted id].
Proof.
  intros Hid Hds Hst Hep. unfold StartDataSource. rewrite Hid, Hds, Hst.
  destruct (trace_duration_ms config =? 0);
    cbn [endpoint_ emit set_heap set_registry]; rewrite Hep;
    cbn [deref mbind outcome_bind];
    (eexists; split; [reflexivity|]); cbn; split_and!; try done;
    by rewrite <- !app_assoc.
Qed.

(** X12.  On a producer that has its endpoint, starting an instance that
    is set up and not yet started marks it started, calls its [Start]
    and then tells the service, each once; before that a fatal timer of
    [5000 + 2 * trace_duration_ms] milliseconds (32 bits) is armed,
    exactly when the config has a duration.  Starting it again, with
    whatever config, does nothing at all.  Without an endpoint the call
    is undefined. *)
Theorem StartDataSource_once (p : ProbesProducer) (id : N) (a : addr)
    (ds : ProbesDataSource) (config config' : DataSourceConfig) :
  data_sources_ p !! id = Some a -> heap p !! a = Some ds ->
  started ds = false ->
  let timeout := u32 (5000 + 2 * trace_duration_ms config) in
  (endpoint_ p = true ->
   exists p',
     StartDataSource p id config = Ok p' /\
     heap p' = <[a := set_started ds]> (heap p) /\
     trace p' =
       trace p ++
       (if trace_duration_ms config =? 0 then [] else [CreateFatalTimer timeout]) ++
       [DS_Start a; NotifyDataSourceStarted id] /\
     (trace_duration_ms config = 0 -> watchdogs_ p' = watchdogs_ p) /\
     (trace_duration_ms config <> 0 -> watchdogs_ p !! id = None ->
      watchdogs_ p' !! id = Some timeout) /\
     StartDataSource p' id config' = Ok p') /\
  (endpoint_ p = false -> StartDataSource p id config = Undefined).
Proof.
  intros Hid Hds Hst timeout. split.
  - intros Hep.
    destruct (StartDataSource_found p id a ds config Hid Hds Hst Hep)
      as (p' & Hrun & Hds' & _ & _ & _ & Hheap & Hwd & Htr).
    exists p'. split_and!; try done.
    + intros Hdur. by rewrite Hdur in Hwd.
    + intros Hdur Hnone. apply Z.eqb_neq in Hdur. rewrite Hdur, Hnone in Hwd.
      rewrite Hwd. by rewrite lookup_insert_eq.
    + unfold StartDataSource. rewrite Hds', Hid, Hheap, lookup_insert_eq. done.
  - intros Hep. unfold StartDataSource. rewrite Hid, Hds, Hst.
    destruct (trace_duration_ms config =? 0);
      cbn [endpoint_ emit set_heap set_registry]; by rewrite Hep.
Qed.

Lemma StartDataSource_once_witness :
  let config := {| name := "linux.process_stats"; tracing_session_id := 7;
                   target_buffer := 0; trace_duration_ms := 10000 |} in
  exists p p',
    session_scenario = Ok p /\
    StartDataSource p 2 config = Ok p' /\
    trace p' =
      trace p ++ [CreateFatalTimer 25000; DS_Start 1%nat;
                  NotifyDataSourceStarted 2] /\
    watchdogs_ p' !! 2%N = Some 25000 /\
    StartDataSource p' 2 config = Ok p'.
Proof.
  intros config.
  destruct session_scenario_state
    as (p & Hp & _ & [Hep _] & _ & _ & H2 & _ & _ & Hwd & _ & Hh1 & _).
  destruct (proj1 (StartDataSource_once p 2 1%nat _ config config H2 Hh1 eq_refl)
              Hep) as (p' & Hstart & _ & Htr & _ & Htimer & Hagain).
  exists p, p'. split_and!; [exact Hp|exact Hstart|exact Htr| |exact Hagain].
  apply Htimer; [done|exact Hwd].
Defined.

Lemma CreateDSInstance_quiet (on_demand_dumps_of : DataSourceConfig -> bool)
    (to_BufferID : Z -> Z)
    (d : Descriptor) (env : FtraceEnv) (p p' : ProbesProducer)
    (session_id : N) (config : DataSourceConfig) (o : option ProbesDataSource) :
  CreateDSInstance on_demand_dumps_of to_BufferID d env p session_id config
    = Ok (o, p') ->
  pending_flushes_ p' = pending_flushes_ p /\
  state_ p' = state_ p /\
  connection_backoff_ms_ p' = connection_backoff_ms_ p /\
  endpoint_ p' = endpoint_ p /\
  task_runner_ p' = task_runner_ p /\
  (exists es, trace p' = trace p ++ es /\ notifications es = [] /\
              reconnect_delays es = []) /\
  forall ds, o = Some ds -> started ds = false /\ endpoint_ p = true.
Proof.
  unfold CreateDSInstance.
  destruct d;
    try (destruct (endpoint_ p) eqn:Hep; [|done];
         cbn [deref mbind outcome_bind]; intros [= <- <-];
         split_and!; [done..| |by intros ? [= <-]];
         eexists; by split_and!).
  destruct (ftrace_creation_failed_ p).
  { intros [= <- <-]. split_and!; [done..| |done]. exists [].
    rewrite app_nil_r. by split_and!. }
  destruct (ftrace_ p); [|destruct (create_ok env)];
    cbn [endpoint_ set_ftrace];
    try (destruct (endpoint_ p) eqn:Hep; [|done]);
    cbn [deref mbind outcome_bind];
    try destruct (add_ok env);
    intros [= <- <-]; (split_and!; [done..| |by intros ? [= <-]]);
    cbn [trace emit set_ftrace]; rewrite <- ?app_assoc;
    eexists; by split_and!.
Qed.

Lemma SetupDataSource_created (descriptor_name : Descriptor -> string)
    (dcheck_is_on : bool) (on_demand_dumps_of : DataSourceConfig -> bool)
    (to_BufferID : Z -> Z)
    (env : FtraceEnv) (p p' : ProbesProducer) (id : N) (config : DataSourceConfig) :
  data_sources_ p !! id = None ->
  SetupDataSource descriptor_name dcheck_is_on on_demand_dumps_of to_BufferID
    env p id config = Ok p' ->
  is_Some (data_sources_ p' !! id) ->
  let a := fresh (dom (heap p)) in
  let session_id := tracing_session_id config in
  exists ds,
    ds_session_id ds = session_id /\
    started ds = false /\
    endpoint_ p = true /\
    endpoint_ p' = true /\
    find_data_source descriptor_name (name config) = Some (descriptor ds) /\
    data_sources_ p' = <[id := a]> (data_sources_ p) /\
    heap p' = <[a := ds]> (heap p) /\
    session_data_sources_ p' =
      <[session_id := session_entries p session_id ++ [(descriptor ds, a)]]>
        (session_data_sources_ p) /\
    watchdogs_ p' = watchdogs_ p /\
    pending_flushes_ p' = pending_flushes_ p /\
    notifications (trace p') = notifications (trace p).
Proof.
  intros Hfree. unfold SetupDataSource.
  destruct (DCHECK _ _ _) as [[]| |]; cbn [mbind outcome_bind]; [|done..].
  destruct (CHECK _ _) as [[]| |]; cbn [mbind outcome_bind]; [|done..].
  destruct (find_data_source _ _) as [d|].
  2:{ cbn [mbind outcome_bind]. intros [= <-]. cbn. rewrite Hfree. by intros []. }
  destruct (CreateDSInstance _ _ d env p _ config) as [[o p1]| |] eqn:HC;
    cbn [mbind outcome_bind]; [|done..].
  destruct (CreateDSInstance_registry _ _ _ _ _ _ _ _ _ HC)
    as (Hds & Hsds & Hwd & Hheap & Ho).
  destruct (CreateDSInstance_quiet _ _ _ _ _ _ _ _ _ HC)
    as (Hpf & _ & _ & Hep1 & _ & (es & Htr & Hes & _) & Hst).
  destruct o as [ds|].
  2:{ intros [= <-]. cbn. rewrite Hds, Hfree. by intros []. }
  destruct (Ho ds eq_refl) as [Hd Hsid]. destruct (Hst ds eq_refl) as [Hst' Hep].
  rewrite Hds, Hsds, Hheap, Hfree, Hwd. intros [= <-] _.
  exists ds. cbn. rewrite Hd, Hep1. split_and!; try done.
  by rewrite Htr, notifications_app, Hes, app_nil_r.
Qed.

(** With an endpoint, setting up a data source that is not the ftrace one
    creates the instance. *)
Lemma SetupDataSource_creates (descriptor_name : Descriptor -> string)
    (dcheck_is_on : bool) (on_demand_dumps_of : DataSourceConfig -> bool)
    (to_BufferID : Z -> Z)
    (env : FtraceEnv) (q : ProbesProducer) (id : N) (config : DataSourceConfig)
    (d : Descriptor) :
  find_data_source descriptor_name (name config) = Some d ->
  d <> FtraceDataSource ->
  data_sources_ q !! id = None ->
  (0 < tracing_session_id config)%N ->
  endpoint_ q = true ->
  exists q',
    SetupDataSource descriptor_name dcheck_is_on on_demand_dumps_of to_BufferID
      env q id config = Ok q' /\
    data_sources_ q' !! id = Some (fresh (dom (heap q))) /\
    heap q' !! fresh (dom (heap q)) =
      Some (new_data_source on_demand_dumps_of d
              (tracing_session_id config) config).
Proof.
  intros Hfind Hd Hfree Hsid Hep. unfold SetupDataSource.
  rewrite DCHECK_holds by (by apply bool_decide_eq_true).
  cbn [mbind outcome_bind]. unfold CHECK.
  rewrite (proj2 (N.ltb_lt _ _) Hsid). cbn [mbind outcome_bind].
  rewrite Hfind.
  assert (HC : CreateDSInstance on_demand_dumps_of to_BufferID d env q
                 (tracing_session_id config) config =
               Ok (Some (new_data_source on_demand_dumps_of d
                           (tracing_session_id config) config),
                   emit [CreateTraceWriter (to_BufferID (target_buffer config))] q)).
  { unfold CreateDSInstance. destruct d; try done; by rewrite Hep. }
  rewrite HC. cbn [mbind outcome_bind data_sources_ emit heap]. rewrite Hfree.
  eexists. split; [reflexivity|].
  cbn [data_sources_ heap set_registry]. by rewrite !lookup_insert_eq.
Qed.

Lemma StopDataSource_exact (p : ProbesProducer) (id : N) (a : addr)
    (ds : ProbesDataSource) :
  data_sources_ p !! id = Some a -> heap p !! a = Some ds ->
  endpoint_ p = true ->
  exists p',
    StopDataSource p id = Ok p' /\
    data_sources_ p' = delete id (data_sources_ p) /\
    watchdogs_ p' = delete id (watchdogs_ p) /\
    heap p' = delete a (heap p) /\
    pending_flushes_ p' = pending_flushes_ p /\
    session_data_sources_ p' =
      match session_data_sources_ p !! ds_session_id ds with
      | None => session_data_sources_ p
      | Some entries =>
          if decide ((descriptor ds, a) ∈ entries) then
            match erase_first (descriptor ds, a) entries with
            | [] => delete (ds_session_id ds) (session_data_sources_ p)
            | _ => <[ds_session_id ds := erase_first (descriptor ds, a) entries]>
                     (session_data_sources_ p)
            end
          else session_data_sources_ p
      end /\
    notifications (trace p') =
      notifications (trace p) ++ [NotifyDataSourceStopped id].
Proof.
  intros Hid Ha Hep. unfold StopDataSource. rewrite Hid, Ha.
  destruct (decide (descriptor ds = MetatraceDataSource));
    cbn [endpoint_ emit]; rewrite Hep; cbn [deref mbind outcome_bind];
    (eexists; split; [reflexivity|]);
    cbn; rewrite ?notifications_app; split_and!; try done.
  by rewrite <- app_assoc.
Qed.

Lemma StopDataSource_Ok (p p' : ProbesProducer) (id : N) (a : addr)
    (ds : ProbesDataSource) :
  data_sources_ p !! id = Some a -> heap p !! a = Some ds ->
  StopDataSource p id = Ok p' -> endpoint_ p = true.
Proof.
  intros Hid Ha. unfold StopDataSource. rewrite Hid, Ha.
  destruct (endpoint_ p) eqn:Hep; [done|].
  by destruct (decide (descriptor ds = MetatraceDataSource));
    cbn [endpoint_ emit]; rewrite Hep.
Qed.

Lemma erase_first_app_new {A} `{EqDecision A} (x : A) (l : list A) :
  x ∉ l -> erase_first x (l ++ [x]) = l.
Proof.
  induction l as [|y l IH]; cbn [app erase_first].
  - intros _. by rewrite decide_True.
  - intros [Hne Hnin]%not_elem_of_cons. rewrite decide_False by done.
    by rewrite IH.
Qed.

(** X13.  Setting up an instance, starting it and stopping it brings the
    registry back to where it was: the same owned instances, the same
    objects, the same entries under every tracing session, the same
    pending flushes, and no watchdog for the id.  The service has been
    told of the start and of the stop, in this order, and of nothing
    else. *)
Theorem lifecycle_round_trip (descriptor_name : Descriptor -> string)
    (dcheck_is_on : bool) (on_demand_dumps_of : DataSourceConfig -> bool)
    (to_BufferID : Z -> Z)
    (env : FtraceEnv) (p p1 : ProbesProducer) (id : N)
    (config config' : DataSourceConfig) :
  registry_coherent p ->
  data_sources_ p !! id = None ->
  SetupDataSource descriptor_name dcheck_is_on on_demand_dumps_of to_BufferID
    env p id config = Ok p1 ->
  is_Some (data_sources_ p1 !! id) ->
  exists p2 p3,
    StartDataSource p1 id config' = Ok p2 /\
    StopDataSource p2 id = Ok p3 /\
    data_sources_ p3 = data_sources_ p /\
    heap p3 = heap p /\
    (forall session_id,
       session_entries p3 session_id = session_entries p session_id) /\
    (no_empty_session p -> session_data_sources_ p3 = session_data_sources_ p) /\
    watchdogs_ p3 = delete id (watchdogs_ p) /\
    pending_flushes_ p3 = pending_flushes_ p /\
    notifications (trace p3) =
      notifications (trace p) ++
      [NotifyDataSourceStarted id; NotifyDataSourceStopped id].
Proof.
  intros Hco Hfree Hsetup Hsome.
  destruct (SetupDataSource_created _ _ _ _ _ _ _ _ _ Hfree Hsetup Hsome)
    as (ds & Hsid & Hst & _ & Hep1 & _ & Hds1 & Hh1 & Hs1 & Hw1 & Hpf1 & Hn1).
  set (a := fresh (dom (heap p))) in *.
  set (sid := tracing_session_id config) in *.
  assert (Hfresh : heap p !! a = None) by apply not_elem_of_dom, is_fresh.
  assert (Hnew : (descriptor ds, a) ∉ session_entries p sid).
  { intros Hin. destruct (filed_owned p Hco _ _ _ Hin) as (? & ? & _ & Ha & _).
    congruence. }
  destruct (StartDataSource_found p1 id a ds config') as
    (p2 & Hstart & Hds2 & Hs2 & Hpf2 & Hep2 & Hh2 & Hw2 & Htr2); [| |done|done|].
  { by rewrite Hds1, lookup_insert_eq. }
  { by rewrite Hh1, lookup_insert_eq. }
  destruct (StopDataSource_exact p2 id a (set_started ds)) as
    (p3 & Hstop & Hds3 & Hw3 & Hh3 & Hpf3 & Hs3 & Hn3); [| |done|].
  { by rewrite Hds2, Hds1, lookup_insert_eq. }
  { by rewrite Hh2, lookup_insert_eq. }
  exists p2, p3. cbn [ds_session_id descriptor set_started] in Hs3.
  rewrite Hs2, Hs1, Hsid, lookup_insert_eq in Hs3.
  rewrite decide_True in Hs3 by (apply elem_of_app; right; by left).
  rewrite erase_first_app_new in Hs3 by done.
  split_and!; try done.
  - by rewrite Hds3, Hds2, Hds1, delete_insert_id.
  - by rewrite Hh3, Hh2, Hh1, insert_insert_eq, delete_insert_id.
  - intros s. unfold session_entries in *. rewrite Hs3.
    destruct (default [] (session_data_sources_ p !! sid)) as [|e l] eqn:He.
    + destruct (decide (s = sid)) as [->|Hne].
      * by rewrite lookup_delete_eq, He.
      * by rewrite lookup_delete_ne, lookup_insert_ne.
    + destruct (decide (s = sid)) as [->|Hne].
      * by rewrite lookup_insert_eq, He.
      * by rewrite !lookup_insert_ne.
  - intros Hne. rewrite Hs3. unfold session_entries.
    destruct (session_data_sources_ p !! sid) as [[|e l]|] eqn:He; cbn.
    + by destruct (Hne sid).
    + by rewrite insert_insert_eq, insert_id.
    + by rewrite delete_insert_id.
  - rewrite Hw3, Hw2, Hw1.
    destruct (_ =? _); [done|].
    destruct (watchdogs_ p !! id); [done|]. by rewrite delete_insert_eq.
  - by rewrite Hpf3, Hpf2, Hpf1.
  - rewrite Hn3, Htr2, !notifications_app, Hn1.
    destruct (_ =? _); by rewrite <- app_assoc.
Qed.

Lemma lifecycle_round_trip_witness :
  let config := example_config "linux.sys_stats" 7 in
  exists p p1 p2 p3,
    session_scenario = Ok p /\
    SetupDataSource example_names true (fun _ => true) example_BufferID
      ftrace_works p 3 config = Ok p1 /\
    StartDataSource p1 3 config = Ok p2 /\
    StopDataSource p2 3 = Ok p3 /\
    data_sources_ p3 = data_sources_ p /\
    heap p3 = heap p /\
    notifications (trace p3) =
      notifications (trace p) ++
      [NotifyDataSourceStarted 3; NotifyDataSourceStopped 3].
Proof.
  intros config.
  destruct session_scenario_state
    as (p & Hp & Hco & [Hep _] & _ & _ & _ & H3 & _).
  destruct (SetupDataSource_creates example_names true (fun _ => true)
              example_BufferID ftrace_works p 3 config SysStatsDataSource)
    as (p1 & Hsetup & Hid & _); [reflexivity|done|exact H3|reflexivity|exact Hep|].
  destruct (lifecycle_round_trip example_names true (fun _ => true)
              example_BufferID ftrace_works p p1 3 config config
              Hco H3 Hsetup ltac:(by eexists))
    as (p2 & p3 & Hstart & Hstop & Hds & Hheap & _ & _ & _ & _ & Hnot).
  exists p, p1, p2, p3. by split_and!.
Defined.

(** *** What the callbacks leave alone *)

Lemma control_kept_refl (p : ProbesProducer) : control_kept p p.
Proof. split_and!; try done. exists []. by rewrite app_nil_r. Qed.

Lemma control_kept_trans (p1 p2 p3 : ProbesProducer) :
  control_kept p1 p2 -> control_kept p2 p3 -> control_kept p1 p3.
Proof.
  intros (H1 & H2 & H3 & H4 & H5 & H6 & es & H7 & H8)
         (G1 & G2 & G3 & G4 & G5 & G6 & es' & G7 & G8).
  split_and!; try congruence.
  exists (es ++ es'). rewrite G7, H7, <- app_assoc. split; [done|].
  by rewrite reconnect_delays_app, H8, G8.
Qed.

Lemma control_kept_emit (es : list Effect) (p : ProbesProducer) :
  reconnect_delays es = [] -> control_kept p (emit es p).
Proof. intros Hes. split_and!; try done. by exists es. Qed.

Lemma control_kept_step (es : list Effect) (p q p' : ProbesProducer) :
  reconnect_delays es = [] ->
  state_ q = state_ p -> connection_backoff_ms_ q = connection_backoff_ms_ p ->
  endpoint_ q = endpoint_ p -> task_runner_ q = task_runner_ p ->
  ftrace_ q = ftrace_ p ->
  ftrace_creation_failed_ q = ftrace_creation_failed_ p ->
  trace q = trace p ++ es ->
  control_kept q p' -> control_kept p p'.
Proof.
  intros Hes H1 H2 H3 H4 H5 H6 H7. apply control_kept_trans.
  split_and!; try done. by exists es.
Qed.

Lemma Flush_loop_control (flush_id : N) (ids : list N) (queued queued' : bool)
    (p p' : ProbesProducer) :
  Flush_loop flush_id ids queued p = Ok (queued', p') -> control_kept p p'.
Proof.
  revert queued p. induction ids as [|id ids IH]; intros queued p.
  - intros [= <- <-]. apply control_kept_refl.
  - cbn [Flush_loop]. destruct (data_sources_ p !! id) as [a|]; [|apply IH].
    destruct (heap p !! a) as [ds|]; [|done].
    destruct (started ds); [|apply IH].
    intros H%IH. by eapply (control_kept_step [DS_Flush a flush_id]); [..|exact H].
Qed.

Lemma ClearIncrementalState_control (ids : list N) (p p' : ProbesProducer) :
  ClearIncrementalState p ids = Ok p' -> control_kept p p'.
Proof.
  revert p. induction ids as [|id ids IH]; intros p.
  - intros [= <-]. apply control_kept_refl.
  - cbn [ClearIncrementalState].
    destruct (data_sources_ p !! id) as [a|]; [|apply IH].
    destruct (heap p !! a) as [ds|]; [|done].
    destruct (started ds); [|apply IH].
    intros H%IH.
    by eapply (control_kept_step [DS_ClearIncrementalState a]); [..|exact H].
Qed.

Lemma OnFtraceDataWritten_control (p p' : ProbesProducer) :
  OnFtraceDataWrittenIntoDataSourceBuffers p = Ok p' -> control_kept p p'.
Proof.
  unfold OnFtraceDataWrittenIntoDataSourceBuffers.
  apply for_each_invariant;
    [apply control_kept_refl|apply control_kept_trans|].
  intros q l q'. unfold broadcast_session.
  apply for_each_invariant;
    [apply control_kept_refl|apply control_kept_trans|].
  clear. intros p ft p'. unfold broadcast_ftrace.
  destruct (heap p !! ft) as [ftrace_ds|]; [|done].
  destruct (negb (started ftrace_ds)).
  { intros [= <-]. apply control_kept_refl. }
  destruct (for_each (notify_process_stats _) _ p) as [p1| |] eqn:H1;
    cbn [mbind outcome_bind]; [|done..].
  destruct (for_each (notify_inode_file _) _ p1) as [p2| |] eqn:H2;
    cbn [mbind outcome_bind]; [|done..].
  intros [= <-].
  apply (control_kept_trans p p1); [|apply (control_kept_trans p1 p2)].
  - revert H1. apply for_each_invariant;
      [apply control_kept_refl|apply control_kept_trans|].
    intros q ps q'. unfold notify_process_stats.
    destruct (heap q !! ps) as [ps_ds|]; [|done].
    destruct (_ || _); intros [= <-]; [apply control_kept_refl|].
    destruct (rename_pids _), (pids _); cbn;
      rewrite ?emit_emit; (apply control_kept_refl || by apply control_kept_emit).
  - revert H2. apply for_each_invariant;
      [apply control_kept_refl|apply control_kept_trans|].
    intros q ino q'. unfold notify_inode_file.
    destruct (heap q !! ino) as [inode_ds|]; [|done].
    destruct (negb _); intros [= <-];
      [apply control_kept_refl|by apply control_kept_emit].
  - split_and!; try done. exists []. by rewrite app_nil_r.
Qed.

Lemma data_callback_control (descriptor_name : Descriptor -> string)
    (dcheck_is_on : bool) (on_demand_dumps_of : DataSourceConfig -> bool)
    (to_BufferID : Z -> Z)
    (p p' : ProbesProducer) (c : Callback) :
  is_data_callback c = true ->
  (forall env id config, c <> CallSetupDataSource env id config) ->
  dispatch descriptor_name dcheck_is_on on_demand_dumps_of to_BufferID p c = Ok p' ->
  control_kept p p'.
Proof.
  intros Hdata Hsetup. destruct c; try done; cbn [dispatch].
  - by destruct (Hsetup env id config).
  - unfold StartDataSource.
    destruct (data_sources_ p !! id) as [a|].
    2:{ intros [= <-]. by apply control_kept_emit. }
    destruct (heap p !! a) as [ds|]; [|done].
    destruct (started ds). { intros [= <-]. apply control_kept_refl. }
    destruct (_ =? _); cbn [endpoint_ emit set_heap set_registry];
      (destruct (endpoint_ p) eqn:Hep; [|done]); cbn [deref mbind outcome_bind];
      intros [= <-]; split_and!; try done; cbn.
    + rewrite <- app_assoc. by eexists.
    + rewrite <- !app_assoc. by eexists.
  - unfold StopDataSource.
    destruct (data_sources_ p !! id) as [a|].
    2:{ intros [= <-]. by apply control_kept_emit. }
    destruct (heap p !! a) as [ds|]; [|done].
    destruct (decide _); cbn [endpoint_ emit];
      (destruct (endpoint_ p) eqn:Hep; [|done]); cbn [deref mbind outcome_bind];
      intros [= <-]; split_and!; try done; cbn.
    + rewrite <- app_assoc. by eexists.
    + by eexists.
  - unfold Flush.
    destruct (DCHECK _ _ _) as [[]| |]; cbn [mbind outcome_bind]; [|done..].
    destruct (Flush_loop _ _ _ _) as [[queued q]| |] eqn:HF;
      cbn [mbind outcome_bind]; [|done..].
    apply Flush_loop_control in HF.
    destruct queued; (destruct (deref _) as [[]| |]; [|done..]);
      cbn [mbind outcome_bind]; intros [= <-];
      (eapply control_kept_trans; [exact HF|]); by apply control_kept_emit.
  - unfold OnDataSourceFlushComplete.
    cbn [pending_flushes_ set_pending_flushes endpoint_].
    destruct (_ =? _)%nat.
    + destruct (deref _) as [[]| |]; [|done..]; cbn [mbind outcome_bind].
      intros [= <-]. split_and!; try done; cbn. by eexists.
    + intros [= <-]. split_and!; try done; cbn. exists []. by rewrite app_nil_r.
  - unfold OnFlushTimeout.
    destruct (_ =? _)%nat. { intros [= <-]. apply control_kept_refl. }
    cbn [pending_flushes_ set_pending_flushes endpoint_ emit].
    destruct (deref _) as [[]| |]; [|done..]; cbn [mbind outcome_bind].
    intros [= <-].
    split_and!; try done; cbn. rewrite <- app_assoc. by eexists.
  - apply ClearIncrementalState_control.
  - apply OnFtraceDataWritten_control.
Qed.

Lemma connection_callback_registry (descriptor_name : Descriptor -> string)
    (dcheck_is_on : bool) (on_demand_dumps_of : DataSourceConfig -> bool)
    (to_BufferID : Z -> Z)
    (p p' : ProbesProducer) (c : Callback) :
  is_data_callback c = false -> c <> CallRestart ->
  dispatch descriptor_name dcheck_is_on on_demand_dumps_of to_BufferID p c = Ok p' ->
  ftrace_ p' = ftrace_ p /\
  ftrace_creation_failed_ p' = ftrace_creation_failed_ p /\
  data_sources_ p' = data_sources_ p /\
  session_data_sources_ p' = session_data_sources_ p /\
  heap p' = heap p /\
  pending_flushes_ p' = pending_flushes_ p.
Proof.
  intros Hdata Hrestart. destruct c; try done; cbn [dispatch].
  - unfold ConnectWithRetries.
    destruct (DCHECK _ _ _) as [[]| |]; cbn [mbind outcome_bind]; [|done..].
    unfold Connect.
    destruct (DCHECK _ _ _) as [[]| |]; cbn [mbind outcome_bind]; [|done..].
    by intros [= <-].
  - unfold Connect.
    destruct (DCHECK _ _ _) as [[]| |]; cbn [mbind outcome_bind]; [|done..].
    by intros [= <-].
  - unfold OnConnect.
    destruct (DCHECK _ _ _) as [[]| |]; cbn [mbind outcome_bind]; [|done..].
    destruct (deref _) as [[]| |]; cbn [mbind outcome_bind]; [|done..].
    intros [= <-]. by destruct (all_data_sources_registered_cb_ _).
  - unfold OnDisconnect.
    destruct (DCHECK _ _ _) as [[]| |]; cbn [mbind outcome_bind]; [|done..].
    by destruct (decide _);
      (destruct (deref _) as [[]| |]; cbn [mbind outcome_bind]; [|done..]);
      intros [= <-].
Qed.

Lemma dispatch_sessions (descriptor_name : Descriptor -> string)
    (dcheck_is_on : bool) (on_demand_dumps_of : DataSourceConfig -> bool)
    (to_BufferID : Z -> Z)
    (p p' : ProbesProducer) (c : Callback) :
  dispatch descriptor_name dcheck_is_on on_demand_dumps_of to_BufferID p c = Ok p' ->
  match c with
  | CallRestart | CallSetupDataSource _ _ _ | CallStopDataSource _ => True
  | _ => session_data_sources_ p' = session_data_sources_ p
  end.
Proof.
  intros Hrun.
  destruct c; try done;
    try (by eapply connection_callback_registry; [| |exact Hrun]);
    cbn [dispatch] in Hrun.
  - by apply StartDataSource_similar in Hrun as (_ & ? & _).
  - unfold Flush in Hrun.
    destruct (DCHECK _ _ _) as [[]| |]; cbn [mbind outcome_bind] in Hrun; [|done..].
    destruct (Flush_loop _ _ _ _) as [[queued q]| |] eqn:HF;
      cbn [mbind outcome_bind] in Hrun; [|done..].
    apply Flush_loop_similar in HF as (_ & ? & _).
    by destruct queued;
      (destruct (deref _) as [[]| |]; cbn [mbind outcome_bind] in Hrun; [|done..]);
      injection Hrun as <-.
  - unfold OnDataSourceFlushComplete in Hrun.
    cbn [pending_flushes_ set_pending_flushes endpoint_] in Hrun.
    destruct (_ =? _)%nat; [|by injection Hrun as <-].
    destruct (deref _) as [[]| |]; cbn [mbind outcome_bind] in Hrun; [|done..].
    by injection Hrun as <-.
  - unfold OnFlushTimeout in Hrun.
    destruct (_ =? _)%nat; [by injection Hrun as <-|].
    destruct (deref _) as [[]| |]; cbn [mbind outcome_bind] in Hrun; [|done..].
    by injection Hrun as <-.
  - by apply ClearIncrementalState_similar in Hrun as (_ & ? & _).
  - by apply OnFtraceDataWritten_similar in Hrun as (_ & ? & _).
Qed.

Lemma dispatch_no_empty_session (descriptor_name : Descriptor -> string)
    (dcheck_is_on : bool) (on_demand_dumps_of : DataSourceConfig -> bool)
    (to_BufferID : Z -> Z)
    (p p' : ProbesProducer) (c : Callback) :
  no_empty_session p ->
  dispatch descriptor_name dcheck_is_on on_demand_dumps_of to_BufferID p c = Ok p' ->
  no_empty_session p'.
Proof.
  intros Hne Hrun. pose proof (dispatch_sessions _ _ _ _ _ _ _ Hrun) as Hs.
  unfold no_empty_session.
  destruct c; try (by rewrite Hs); cbn [dispatch] in Hrun; clear Hs.
  - unfold Restart, ConnectWithRetries in Hrun.
    destruct (DCHECK _ _ _) as [[]| |]; cbn [mbind outcome_bind] in Hrun; [|done..].
    unfold Connect in Hrun.
    destruct (DCHECK _ _ _) as [[]| |]; cbn [mbind outcome_bind] in Hrun; [|done..].
    injection Hrun as <-. intros s. cbn. by rewrite lookup_empty.
  - unfold SetupDataSource in Hrun.
    destruct (DCHECK _ _ _) as [[]| |]; cbn [mbind outcome_bind] in Hrun; [|done..].
    destruct (CHECK _ _) as [[]| |]; cbn [mbind outcome_bind] in Hrun; [|done..].
    destruct (match find_data_source _ _ with Some _ => _ | None => _ end)
      as [[o p1]| |] eqn:HC; cbn [mbind outcome_bind] in Hrun; [|done..].
    destruct (factory_registry _ _ _ _ _ _ _ _ _ HC) as (_ & Hsds & _).
    destruct o as [ds|]; injection Hrun as <-; cbn; [|by rewrite Hsds].
    intros s. rewrite Hsds. destruct (decide (s = tracing_session_id config)) as [->|Hs].
    + rewrite lookup_insert_eq. intros [= H]. by apply app_nil in H as [_ ?].
    + by rewrite lookup_insert_ne.
  - unfold StopDataSource in Hrun.
    destruct (data_sources_ p !! id) as [a|] eqn:Hid.
    2:{ by injection Hrun as <-. }
    destruct (heap p !! a) as [ds|] eqn:Ha; [|done].
    assert (Hep : endpoint_ p = true).
    { eapply (StopDataSource_Ok p p' id a ds); [done..|].
      unfold StopDataSource. by rewrite Hid, Ha. }
    destruct (StopDataSource_exact p id a ds Hid Ha Hep)
      as (q & Hq & _ & _ & _ & _ & Hs & _).
    unfold StopDataSource in Hq. rewrite Hid, Ha in Hq.
    rewrite Hq in Hrun. injection Hrun as <-. rewrite Hs. intros s.
    destruct (session_data_sources_ p !! ds_session_id ds) as [entries|];
      [|apply Hne].
    destruct (decide ((descriptor ds, a) ∈ entries)); [|apply Hne].
    destruct (erase_first _ entries) as [|e0 rest] eqn:Her.
    + destruct (decide (s = ds_session_id ds)) as [->|Hsne].
      * by rewrite lookup_delete_eq.
      * rewrite lookup_delete_ne by done. apply Hne.
    + destruct (decide (s = ds_session_id ds)) as [->|Hsne].
      * by rewrite lookup_insert_eq.
      * rewrite lookup_insert_ne by done. apply Hne.
Qed.

(** X14.  No tracing session is ever kept with an empty multimap: a new
    producer has none, and no callback leaves one, so whatever run of
    callbacks a producer has been through, each session in
    [session_data_sources_] holds at least one entry. *)
Theorem sessions_never_empty (descriptor_name : Descriptor -> string)
    (dcheck_is_on : bool) (on_demand_dumps_of : DataSourceConfig -> bool)
    (to_BufferID : Z -> Z) :
  (forall tr, no_empty_session (ProbesProducer_new tr)) /\
  (forall p c p',
     no_empty_session p ->
     dispatch descriptor_name dcheck_is_on on_demand_dumps_of to_BufferID p c = Ok p' ->
     no_empty_session p') /\
  (forall p cs p',
     no_empty_session p ->
     run descriptor_name dcheck_is_on on_demand_dumps_of to_BufferID p cs = Ok p' ->
     forall session_id entries,
       session_data_sources_ p' !! session_id = Some entries ->
       (0 < length entries)%nat).
Proof.
  split_and!.
  - intros tr s. cbn. by rewrite lookup_empty.
  - intros p c p'. apply dispatch_no_empty_session.
  - intros p cs p' Hne Hrun.
    assert (H : no_empty_session p -> no_empty_session p').
    { revert Hrun. unfold run.
      apply (for_each_invariant
               (fun q q' => no_empty_session q -> no_empty_session q'));
        [tauto|tauto|].
      intros q c q' Hc Hq. by eapply dispatch_no_empty_session. }
    intros s entries Hs. destruct entries; [|cbn; lia].
    by destruct (H Hne s).
Qed.

Lemma sessions_never_empty_witness :
  let sys_stats := example_config "linux.sys_stats" 7 in
  let process_stats := example_config "linux.process_stats" 8 in
  exists p',
    run example_names true (fun _ => true) example_BufferID (ProbesProducer_new [])
      [CallConnectWithRetries; CallOnConnect;
       CallSetupDataSource ftrace_works 1 sys_stats;
       CallSetupDataSource ftrace_works 2 sys_stats;
       CallSetupDataSource ftrace_works 3 process_stats;
       CallStopDataSource 1; CallStopDataSource 3] = Ok p' /\
    session_data_sources_ p' !! 7%N = Some [(SysStatsDataSource, 1%nat)] /\
    session_data_sources_ p' !! 8%N = None /\
    forall session_id entries,
      session_data_sources_ p' !! session_id = Some entries ->
      (0 < length entries)%nat.
Proof.
  intros sys_stats process_stats.
  destruct (run example_names true (fun _ => true) example_BufferID
              (ProbesProducer_new [])
              [CallConnectWithRetries; CallOnConnect;
               CallSetupDataSource ftrace_works 1 sys_stats;
               CallSetupDataSource ftrace_works 2 sys_stats;
               CallSetupDataSource ftrace_works 3 process_stats;
               CallStopDataSource 1; CallStopDataSource 3]) as [p'| |] eqn:Hrun;
    try (vm_compute in Hrun; discriminate).
  exists p'. split; [done|].
  pose proof (proj2 (proj2 (sessions_never_empty example_names true
                              (fun _ => true) example_BufferID))) as Hne.
  split_and!.
  - vm_compute in Hrun. injection Hrun as <-. vm_compute. reflexivity.
  - vm_compute in Hrun. injection Hrun as <-. vm_compute. reflexivity.
  - eapply Hne; [|exact Hrun].
    intros s. cbn. by rewrite lookup_empty.
Defined.

(** *** The ftrace controller *)

Lemma CreateDSInstance_failed (on_demand_dumps_of : DataSourceConfig -> bool)
    (to_BufferID : Z -> Z)
    (d : Descriptor) (env : FtraceEnv) (p p' : ProbesProducer)
    (session_id : N) (config : DataSourceConfig) (o : option ProbesDataSource) :
  ftrace_creation_failed_ p = true ->
  CreateDSInstance on_demand_dumps_of to_BufferID d env p session_id config
    = Ok (o, p') ->
  ftrace_creation_failed_ p' = true /\
  (d = FtraceDataSource -> o = None /\ p' = p).
Proof.
  intros Hfailed. unfold CreateDSInstance.
  destruct d;
    try (destruct (endpoint_ p); [|done]; cbn [deref mbind outcome_bind];
         by intros [= <- <-]).
  rewrite Hfailed. by intros [= <- <-].
Qed.

(** X15.  A failure to create the ftrace controller is remembered: from
    then on no callback but [Restart] clears the flag, and every attempt
    to set up an ftrace data source fails without trying the controller
    again, whatever the system would answer now.  [Restart] forgets the
    failure. *)
Theorem ftrace_failure_is_sticky (descriptor_name : Descriptor -> string)
    (dcheck_is_on : bool) (on_demand_dumps_of : DataSourceConfig -> bool)
    (to_BufferID : Z -> Z) :
  let setup :=
    SetupDataSource descriptor_name dcheck_is_on on_demand_dumps_of to_BufferID in
  (forall env p id config p',
     ftrace_ p = false -> ftrace_creation_failed_ p = false ->
     create_ok env = false ->
     find_data_source descriptor_name (name config) = Some FtraceDataSource ->
     setup env p id config = Ok p' ->
     p' = emit [ELOG "Failed to create FtraceController";
                ELOG "Failed to create data source"] (set_ftrace false true p)) /\
  (forall p c p',
     ftrace_creation_failed_ p = true -> c <> CallRestart ->
     dispatch descriptor_name dcheck_is_on on_demand_dumps_of to_BufferID p c = Ok p' ->
     ftrace_creation_failed_ p' = true) /\
  (forall env p id config p',
     ftrace_creation_failed_ p = true ->
     find_data_source descriptor_name (name config) = Some FtraceDataSource ->
     setup env p id config = Ok p' ->
     p' = emit [ELOG "Failed to create data source"] p) /\
  (forall p p',
     Restart dcheck_is_on p = Ok p' ->
     ftrace_creation_failed_ p' = false /\ ftrace_ p' = false).
Proof.
  intros setup. split_and!.
  - intros env p id config p' Hft Hfailed Hcreate Hfind. unfold setup, SetupDataSource.
    destruct (DCHECK _ _ _) as [[]| |]; cbn [mbind outcome_bind]; [|done..].
    destruct (CHECK _ _) as [[]| |]; cbn [mbind outcome_bind]; [|done..].
    rewrite Hfind. cbn [CreateDSInstance]. rewrite Hft, Hfailed, Hcreate.
    cbn [mbind outcome_bind]. intros [= <-]. by rewrite emit_emit.
  - intros p c p' Hfailed Hc Hrun.
    destruct (is_data_callback c) eqn:Hdata.
    2:{ destruct (connection_callback_registry _ _ _ _ _ _ _ Hdata Hc Hrun)
          as (_ & -> & _). done. }
    assert (Hcase : (exists env id config, c = CallSetupDataSource env id config) \/
                    forall env id config, c <> CallSetupDataSource env id config).
    { destruct c; try (by right); left; by do 3 eexists. }
    destruct Hcase as [(env & id & config & ->)|Hsetup].
    2:{ by destruct (data_callback_control _ _ _ _ _ _ _ Hdata Hsetup Hrun)
          as (_ & _ & _ & _ & _ & -> & _). }
    cbn [dispatch] in Hrun. unfold SetupDataSource in Hrun.
    destruct (DCHECK _ _ _) as [[]| |]; cbn [mbind outcome_bind] in Hrun; [|done..].
    destruct (CHECK _ _) as [[]| |]; cbn [mbind outcome_bind] in Hrun; [|done..].
    destruct (find_data_source _ _) as [d|].
    + destruct (CreateDSInstance _ _ d env p _ config) as [[o p1]| |] eqn:HC;
        cbn [mbind outcome_bind] in Hrun; [|done..].
      apply CreateDSInstance_failed in HC as [HC _]; [|done].
      by destruct o; injection Hrun as <-.
    + cbn [mbind outcome_bind] in Hrun. by injection Hrun as <-.
  - intros env p id config p' Hfailed Hfind. unfold setup, SetupDataSource.
    destruct (DCHECK _ _ _) as [[]| |]; cbn [mbind outcome_bind]; [|done..].
    destruct (CHECK _ _) as [[]| |]; cbn [mbind outcome_bind]; [|done..].
    rewrite Hfind. cbn [CreateDSInstance]. rewrite Hfailed.
    cbn [mbind outcome_bind]. by intros [= <-].
  - intros p p'. unfold Restart, ConnectWithRetries.
    destruct (DCHECK _ _ _) as [[]| |]; cbn [mbind outcome_bind]; [|done..].
    unfold Connect.
    destruct (DCHECK _ _ _) as [[]| |]; cbn [mbind outcome_bind]; [|done..].
    by intros [= <-].
Qed.

Lemma ftrace_failure_is_sticky_witness :
  let config := example_config "linux.ftrace" 3 in
  let broken := {| create_ok := false; add_ok := true |} in
  let setup := SetupDataSource example_names true (fun _ => true) example_BufferID in
  exists p1,
    setup broken (ProbesProducer_new []) 1%N config = Ok p1 /\
    ftrace_creation_failed_ p1 = true /\
    setup ftrace_works p1 2%N config =
      Ok (emit [ELOG "Failed to create data source"] p1).
Proof.
  intros config broken setup.
  destruct (setup broken (ProbesProducer_new []) 1%N config) as [p1| |] eqn:H1;
    try (vm_compute in H1; discriminate).
  pose proof (ftrace_failure_is_sticky example_names true (fun _ => true) example_BufferID)
    as (Hfirst & _ & Hlater & _).
  pose proof (Hfirst broken (ProbesProducer_new []) 1%N config p1
                eq_refl eq_refl eq_refl eq_refl H1) as Hp1.
  exists p1. split; [done|]. split; [by rewrite Hp1|].
  destruct (setup ftrace_works p1 2%N config) as [p2| |] eqn:H2;
    try (rewrite Hp1 in H2; vm_compute in H2; discriminate).
  f_equal. apply (Hlater ftrace_works p1 2%N config p2); [by rewrite Hp1|done|done].
Defined.

(** *** The connection *)

Lemma SetupDataSource_connection (descriptor_name : Descriptor -> string)
    (dcheck_is_on : bool) (on_demand_dumps_of : DataSourceConfig -> bool)
    (to_BufferID : Z -> Z)
    (env : FtraceEnv) (p p' : ProbesProducer) (id : N) (config : DataSourceConfig) :
  SetupDataSource descriptor_name dcheck_is_on on_demand_dumps_of to_BufferID env p id config
    = Ok p' ->
  state_ p' = state_ p /\
  connection_backoff_ms_ p' = connection_backoff_ms_ p /\
  task_runner_ p' = task_runner_ p /\
  exists es, trace p' = trace p ++ es /\ reconnect_delays es = [].
Proof.
  unfold SetupDataSource.
  destruct (DCHECK _ _ _) as [[]| |]; cbn [mbind outcome_bind]; [|done..].
  destruct (CHECK _ _) as [[]| |]; cbn [mbind outcome_bind]; [|done..].
  destruct (find_data_source _ _) as [d|].
  2:{ cbn [mbind outcome_bind]. intros [= <-]. split_and!; try done. by eexists. }
  destruct (CreateDSInstance _ _ d env p _ config) as [[o p1]| |] eqn:HC;
    cbn [mbind outcome_bind]; [|done..].
  destruct (CreateDSInstance_quiet _ _ _ _ _ _ _ _ _ HC)
    as (_ & Hst & Hb & _ & Hrunner & (es & Htr & _ & Hes) & _).
  destruct o as [ds|]; intros [= <-]; cbn; rewrite Htr; split_and!; try done.
  - by exists es.
  - exists (es ++ [ELOG "Failed to create data source"]).
    rewrite <- app_assoc. split; [done|].
    by rewrite reconnect_delays_app, Hes.
Qed.

Lemma dispatch_delays (descriptor_name : Descriptor -> string)
    (dcheck_is_on : bool) (on_demand_dumps_of : DataSourceConfig -> bool)
    (to_BufferID : Z -> Z)
    (p p' : ProbesProducer) (c : Callback) :
  dispatch descriptor_name dcheck_is_on on_demand_dumps_of to_BufferID p c = Ok p' ->
  exists new,
    reconnect_delays (trace p') = reconnect_delays (trace p) ++ new /\
    Forall (fun ms => 0 <= ms <= 30000) new /\
    (backoff_ok p -> backoff_ok p' /\ Forall (fun ms => 200 <= ms) new).
Proof.
  intros Hrun.
  assert (Hquiet : connection_backoff_ms_ p' = connection_backoff_ms_ p ->
            task_runner_ p' = task_runner_ p ->
            (exists es, trace p' = trace p ++ es /\ reconnect_delays es = []) ->
            exists new,
              reconnect_delays (trace p') = reconnect_delays (trace p) ++ new /\
              Forall (fun ms => 0 <= ms <= 30000) new /\
              (backoff_ok p -> backoff_ok p' /\ Forall (fun ms => 200 <= ms) new)).
  { intros Hb Hrunner (es & Htr & Hes). exists [].
    rewrite Htr, reconnect_delays_app, Hes. split_and!; try done.
    intros Hok. split; [|done]. unfold backoff_ok. by rewrite Hb, Hrunner. }
  assert (Hconnect : forall q q',
            Connect dcheck_is_on q = Ok q' ->
            connection_backoff_ms_ q' = connection_backoff_ms_ q /\
            task_runner_ q' = task_runner_ q /\
            trace q' = trace q ++ [IPC_Connect]).
  { intros q q'. unfold Connect.
    destruct (DCHECK _ _ _) as [[]| |]; cbn [mbind outcome_bind]; [|done..].
    by intros [= <-]. }
  destruct (is_data_callback c) eqn:Hdata.
  { assert (Hcase : (exists env id config, c = CallSetupDataSource env id config) \/
                    forall env id config, c <> CallSetupDataSource env id config).
    { destruct c; try (by right); left; by do 3 eexists. }
    destruct Hcase as [(env & id & config & ->)|Hsetup].
    - cbn [dispatch] in Hrun.
      apply SetupDataSource_connection in Hrun as (? & ? & ? & ?). by apply Hquiet.
    - destruct (data_callback_control _ _ _ _ _ _ _ Hdata Hsetup Hrun)
        as (_ & ? & _ & ? & _ & _ & ?). by apply Hquiet. }
  assert (Hcwr : forall runner q q',
            ConnectWithRetries dcheck_is_on runner q = Ok q' ->
            connection_backoff_ms_ q' = 100 /\
            trace q' = trace q ++ [IPC_Connect]).
  { intros runner q q'. unfold ConnectWithRetries.
    destruct (DCHECK _ _ _) as [[]| |]; cbn [mbind outcome_bind]; [|done..].
    by intros (? & _ & ?)%Hconnect. }
  assert (Hfixed : connection_backoff_ms_ p' = 100 ->
            trace p' = trace p ++ [IPC_Connect] ->
            exists new,
              reconnect_delays (trace p') = reconnect_delays (trace p) ++ new /\
              Forall (fun ms => 0 <= ms <= 30000) new /\
              (backoff_ok p -> backoff_ok p' /\ Forall (fun ms => 200 <= ms) new)).
  { intros Hb Htr. exists [].
    rewrite Htr, reconnect_delays_app. split_and!; try done.
    intros _. split; [|done]. intros _. by rewrite Hb. }
  destruct c; try done; cbn [dispatch] in Hrun.
  - apply Hcwr in Hrun as (Hb & Htr). by apply Hfixed.
  - apply Hconnect in Hrun as (Hb & Hrunner & Htr).
    apply Hquiet; [done..|]. by eexists.
  - unfold OnConnect in Hrun.
    destruct (DCHECK _ _ _) as [[]| |]; cbn [mbind outcome_bind] in Hrun; [|done..].
    destruct (deref _) as [[]| |]; cbn [mbind outcome_bind] in Hrun; [|done..].
    injection Hrun as <-. exists [].
    destruct (all_data_sources_registered_cb_ _); cbn [trace emit set_connection
      ResetConnectionBackoff state_ connection_backoff_ms_];
      rewrite ?reconnect_delays_app;
      (split_and!; [by cbn; rewrite ?app_nil_r|done|]);
      intros _; (split; [|done]); by intros _.
  - unfold OnDisconnect in Hrun.
    destruct (DCHECK _ _ _) as [[]| |]; cbn [mbind outcome_bind] in Hrun; [|done..].
    destruct (decide (state_ p = kConnected)) as [Hconn|Hconn].
    { destruct (deref _) as [[]| |]; cbn [mbind outcome_bind] in Hrun; [|done..].
      injection Hrun as <-. apply Hquiet; [done..|]. by eexists. }
    cbn [task_runner_ IncreaseConnectionBackoff set_connection] in Hrun.
    destruct (task_runner_ p) eqn:Hrunner; [|done].
    cbn [deref mbind outcome_bind] in Hrun.
    set (doubled := u32 (connection_backoff_ms_ p * 2)) in *.
    set (b' := if 30000 <? doubled then 30000 else doubled).
    assert (Hb' : 0 <= b' <= 30000).
    { unfold b'. assert (0 <= doubled) by (apply Z.mod_pos_bound; lia).
      destruct (Z.ltb_spec 30000 doubled); lia. }
    assert (Hstrong : backoff_ok p -> 200 <= b').
    { intros Hok.
      unfold backoff_ok, kInitialConnectionBackoffMs, kMaxConnectionBackoffMs in Hok.
      specialize (Hok Hrunner).
      unfold b', doubled, u32. rewrite Z.mod_small by lia.
      destruct (Z.ltb_spec 30000 (connection_backoff_ms_ p * 2)); lia. }
    injection Hrun as <-. exists [b'].
    cbn [trace emit set_connection IncreaseConnectionBackoff state_
         connection_backoff_ms_]. fold doubled. fold b'.
    rewrite reconnect_delays_app. split_and!; [done|by constructor|].
    intros Hok. specialize (Hstrong Hok). split.
    + intros _. unfold kInitialConnectionBackoffMs, kMaxConnectionBackoffMs.
      change (connection_backoff_ms_ _) with b'. lia.
    + by constructor.
  - unfold Restart in Hrun.
    apply Hcwr in Hrun as (Hb & Htr). by apply Hfixed.
Qed.

(** X16.  The delay of a reconnect never exceeds the maximum of 30
    seconds, whatever the producer has been through.  A producer's
    backoff is in order when it has no task runner yet, as a new one, or
    lies between 100 ms and 30 s; this stays so through every callback,
    in every build, and from such a producer on no reconnect is scheduled
    sooner than after 200 ms. *)
Theorem reconnect_delays_bounded (descriptor_name : Descriptor -> string)
    (dcheck_is_on : bool) (on_demand_dumps_of : DataSourceConfig -> bool)
    (to_BufferID : Z -> Z)
    (p p' : ProbesProducer) (cs : list Callback) :
  run descriptor_name dcheck_is_on on_demand_dumps_of to_BufferID p cs = Ok p' ->
  exists new,
    reconnect_delays (trace p') = reconnect_delays (trace p) ++ new /\
    Forall (fun ms => 0 <= ms <= 30000) new /\
    (backoff_ok p -> backoff_ok p' /\ Forall (fun ms => 200 <= ms) new).
Proof.
  unfold run. revert p. induction cs as [|c cs IH]; intros p.
  - intros [= <-]. exists []. by rewrite app_nil_r.
  - cbn [for_each].
    destruct (dispatch _ _ _ _ p c) as [p1| |] eqn:Hc; cbn [mbind outcome_bind];
      [|done..].
    intros (new2 & Htr2 & Hall2 & Hstrong2)%IH.
    destruct (dispatch_delays _ _ _ _ _ _ _ Hc) as (new1 & Htr1 & Hall1 & Hstrong1).
    exists (new1 ++ new2). rewrite Htr2, Htr1, <- app_assoc.
    split_and!; [done|by apply Forall_app|].
    intros Hok. destruct (Hstrong1 Hok) as [Hok1 H1].
    destruct (Hstrong2 Hok1) as [Hok2 H2]. split; [done|].
    by apply Forall_app.
Qed.

Lemma reconnect_delays_bounded_witness :
  exists p',
    run example_names false (fun _ => true) example_BufferID (ProbesProducer_new [])
      [CallConnectWithRetries; CallOnDisconnect; CallConnect; CallOnDisconnect]
      = Ok p' /\
    reconnect_delays (trace p') = [200; 400] /\
    backoff_ok p' /\
    Forall (fun ms => 200 <= ms) (reconnect_delays (trace p')).
Proof.
  destruct (run example_names false (fun _ => true) example_BufferID
              (ProbesProducer_new [])
              [CallConnectWithRetries; CallOnDisconnect; CallConnect;
               CallOnDisconnect]) as [p'| |] eqn:Hrun;
    try (vm_compute in Hrun; discriminate).
  exists p'. split; [done|].
  destruct (reconnect_delays_bounded _ _ _ _ _ _ _ Hrun)
    as (new & Htr & _ & Hstrong).
  destruct Hstrong as [Hok Hnew]; [by intros [=]|].
  split_and!; [|exact Hok|].
  - vm_compute in Hrun. by injection Hrun as <-.
  - rewrite Htr. apply Forall_app. split; [constructor|done].
Defined.

(** *** The ftrace broadcast *)

Lemma elem_of_sessions (p : ProbesProducer) (l : list (Descriptor * addr)) :
  l ∈ (map_to_list (session_data_sources_ p)).*2 <->
  exists session_id, session_data_sources_ p !! session_id = Some l.
Proof.
  rewrite list_elem_of_fmap. split.
  - intros ([sid l'] & -> & Hin%elem_of_map_to_list). by exists sid.
  - intros (sid & Hsid). exists (sid, l). split; [done|].
    by apply elem_of_map_to_list.
Qed.

Lemma broadcast_exact (p : ProbesProducer) :
  registry_coherent p ->
  let work := ftrace_work (map_to_list (session_data_sources_ p)).*2 in
  exists p',
    OnFtraceDataWrittenIntoDataSourceBuffers p = Ok p' /\
    trace p' = trace p ++ flat_map (ftrace_events (heap p)) work /\
    similar same_but_metadata p p' /\
    (forall a, a ∉ work.*2 -> heap p' !! a = heap p !! a) /\
    (forall w ftrace_ds, w ∈ work -> heap p !! w.2 = Some ftrace_ds ->
       started ftrace_ds = true ->
       heap p' !! w.2 = Some (set_metadata FtraceMetadata_empty ftrace_ds)).
Proof.
  intros Hco work.
  assert (Hlive : forall w, w ∈ work ->
            is_Some (heap p !! w.2) /\
            forall d a, (d, a) ∈ w.1 -> is_Some (heap p !! a)).
  { intros [l ft] [Hl Hft]%elem_of_ftrace_work.
    apply elem_of_sessions in Hl as (sid & Hsid%session_entries_lookup). subst l.
    cbn [fst snd]. split.
    - destruct (filed_owned p Hco _ _ _ Hft) as (? & ? & _ & -> & _). by eexists.
    - intros d a Hin.
      destruct (filed_owned p Hco _ _ _ Hin) as (? & ? & _ & -> & _). by eexists. }
  destruct (broadcast_work (heap p) work p)
    as (p' & Hrun & Htr & Hds & Hsds & Hsim & Hother & Hclr).
  { intros a. by destruct (heap p !! a); constructor. }
  { done. }
  { exact Hlive. }
  { by apply ftrace_work_NoDup. }
  exists p'. split_and!; try done.
  unfold OnFtraceDataWrittenIntoDataSourceBuffers.
  by rewrite broadcast_sessions_work.
Qed.

Lemma elem_of_work (p : ProbesProducer) (l : list (Descriptor * addr)) (ft : addr) :
  (l, ft) ∈ ftrace_work (map_to_list (session_data_sources_ p)).*2 ->
  exists session_id,
    l = session_entries p session_id /\
    (FtraceDataSource, ft) ∈ session_entries p session_id.
Proof.
  intros [Hl Hft]%elem_of_ftrace_work.
  apply elem_of_sessions in Hl as (sid & Hsid%session_entries_lookup).
  exists sid. by subst l.
Qed.

(** The two batches on the scenario of the metadata. *)
Lemma metadata_batches :
  exists p p1 p2,
    metadata_scenario = Ok p /\
    registry_coherent p /\
    OnFtraceDataWrittenIntoDataSourceBuffers p = Ok p1 /\
    OnFtraceDataWrittenIntoDataSourceBuffers p1 = Ok p2 /\
    trace p1 =
      trace p ++ [DS_OnRenamePids 1%nat [100]; DS_OnPids 1%nat [100; 101];
                  DS_OnInodes 2%nat [(9, 42)]] /\
    trace p2 = trace p1 ++ [DS_OnInodes 2%nat []].
Proof.
  destruct metadata_scenario_state as (p & Hp & Hco & _).
  destruct (broadcast_exact p Hco) as (p1 & H1 & Htr1 & Hsim & _).
  assert (Hco1 : registry_coherent p1).
  { eapply registry_coherent_similar; [|exact Hco]. by apply similar_weaken. }
  destruct (broadcast_exact p1 Hco1) as (p2 & H2 & Htr2 & _).
  assert (Hv : metadata_two_batches =
               Ok ([DS_OnRenamePids 1%nat [100]; DS_OnPids 1%nat [100; 101];
                    DS_OnInodes 2%nat [(9, 42)]], [DS_OnInodes 2%nat []]))
    by (vm_compute; reflexivity).
  assert (Hu : metadata_two_batches =
               Ok (drop (length (trace p)) (trace p1),
                   drop (length (trace p1)) (trace p2))).
  { unfold metadata_two_batches. rewrite Hp. cbn [mbind outcome_bind].
    rewrite H1. cbn [mbind outcome_bind]. by rewrite H2. }
  rewrite Hu in Hv. injection Hv as Hes1 Hes2.
  exists p, p1, p2. split_and!; [exact Hp|exact Hco|exact H1|exact H2| |].
  - rewrite <- Hes1. rewrite Htr1 at 2. by rewrite drop_app_length.
  - rewrite <- Hes2. rewrite Htr2 at 2. by rewrite drop_app_length.
Qed.

(** X17.  A batch of ftrace data reaches no one it should not.  Each call
    it makes is an [OnRenamePids], [OnPids] or [OnInodes]; it goes to a
    started data source of a tracing session that has a started ftrace
    data source, carries the metadata of that ftrace data source, and is
    made on a process-stats data source with on-demand dumps, with a list
    that is not empty, or on an inode-file data source.  Objects that
    are not ftrace data sources are left as they are. *)
Theorem ftrace_broadcast_sound (p : ProbesProducer) :
  registry_coherent p ->
  exists p' es,
    OnFtraceDataWrittenIntoDataSourceBuffers p = Ok p' /\
    trace p' = trace p ++ es /\
    (forall e, e ∈ es ->
       exists session_id ft ftrace_ds target target_ds,
         (FtraceDataSource, ft) ∈ session_entries p session_id /\
         heap p !! ft = Some ftrace_ds /\ started ftrace_ds = true /\
         heap p !! target = Some target_ds /\ started target_ds = true /\
         let md := metadata ftrace_ds in
         ((ProcessStatsDataSource, target) ∈ session_entries p session_id /\
          on_demand_dumps_enabled target_ds = true /\
          ((e = DS_OnRenamePids target (rename_pids md) /\ rename_pids md <> []) \/
           (e = DS_OnPids target (pids md) /\ pids md <> []))) \/
         ((InodeFileDataSource, target) ∈ session_entries p session_id /\
          e = DS_OnInodes target (inode_and_device md))) /\
    (forall a ds, heap p !! a = Some ds -> descriptor ds <> FtraceDataSource ->
       heap p' !! a = Some ds).
Proof.
  intros Hco.
  destruct (broadcast_exact p Hco) as (p' & Hrun & Htr & _ & Hother & _).
  eexists p', _. split_and!; [done|done| |].
  - intros e ([l ft] & Hw & He)%elem_of_flat_map.
    apply elem_of_work in Hw as (sid & -> & Hft).
    unfold ftrace_events in He.
    destruct (heap p !! ft) as [ftrace_ds|] eqn:Hheap;
      [|by apply not_elem_of_nil in He].
    destruct (started ftrace_ds) eqn:Hst; cbn [negb] in He;
      [|by apply not_elem_of_nil in He].
    exists sid, ft, ftrace_ds.
    apply elem_of_app in He as [He|He];
      apply elem_of_flat_map in He as (target & Ht%elem_of_equal_range & He).
    + unfold process_stats_events in He.
      destruct (heap p !! target) as [target_ds|] eqn:Htarget;
        [|by apply not_elem_of_nil in He].
      destruct (started target_ds) eqn:Hts; cbn [negb orb] in He;
        [|by apply not_elem_of_nil in He].
      destruct (on_demand_dumps_enabled target_ds) eqn:Hod; cbn [negb] in He;
        [|by apply not_elem_of_nil in He].
      exists target, target_ds. split_and!; try done. left. split_and!; try done.
      apply elem_of_app in He as [He|He].
      * left. destruct (rename_pids (metadata ftrace_ds)) eqn:Hr;
          [by apply not_elem_of_nil in He|].
        by apply list_elem_of_singleton in He as ->.
      * right. destruct (pids (metadata ftrace_ds)) eqn:Hr;
          [by apply not_elem_of_nil in He|].
        by apply list_elem_of_singleton in He as ->.
    + unfold inode_file_events in He.
      destruct (heap p !! target) as [target_ds|] eqn:Htarget;
        [|by apply not_elem_of_nil in He].
      destruct (started target_ds) eqn:Hts; cbn [negb] in He;
        [|by apply not_elem_of_nil in He].
      exists target, target_ds. split_and!; try done. right.
      by apply list_elem_of_singleton in He as ->.
  - intros a ds Ha Hd. rewrite Hother; [done|].
    intros ([l ft] & -> & Hw)%list_elem_of_fmap.
    apply elem_of_work in Hw as (sid & -> & Hft). cbn [snd] in Ha.
    destruct (filed_owned p Hco _ _ _ Hft) as (? & ds' & _ & Hds' & Hdesc & _).
    congruence.
Qed.

Lemma ftrace_broadcast_sound_witness :
  exists p p' es,
    metadata_scenario = Ok p /\
    OnFtraceDataWrittenIntoDataSourceBuffers p = Ok p' /\
    trace p' = trace p ++ es /\
    es = [DS_OnRenamePids 1%nat [100]; DS_OnPids 1%nat [100; 101];
          DS_OnInodes 2%nat [(9, 42)]] /\
    heap p' !! 1%nat =
      Some (set_started (new_data_source (fun _ => true) ProcessStatsDataSource 3
                           (example_config "linux.process_stats" 3))).
Proof.
  destruct metadata_batches as (p & p1 & p2 & Hp & Hco & H1 & _ & Htr1 & _).
  destruct metadata_scenario_state as (q & Hq & _ & _ & _ & Hstats & _).
  rewrite Hp in Hq. injection Hq as <-.
  destruct (ftrace_broadcast_sound p Hco) as (p' & es & Hrun & Htr & _ & Hkept).
  exists p, p', es. split_and!; [exact Hp|exact Hrun|exact Htr| |].
  - rewrite H1 in Hrun. injection Hrun as <-. rewrite Htr1 in Htr.
    by apply app_inv_head in Htr.
  - by apply (Hkept 1%nat _ Hstats).
Defined.

(** X18.  The metadata of an ftrace data source is handed on once: a
    second batch that follows the first with nothing recorded in between
    tells the process-stats data sources nothing, and the inode-file data
    sources an empty list. *)
Theorem ftrace_metadata_consumed (p : ProbesProducer) :
  registry_coherent p ->
  exists p1 p2 es,
    OnFtraceDataWrittenIntoDataSourceBuffers p = Ok p1 /\
    OnFtraceDataWrittenIntoDataSourceBuffers p1 = Ok p2 /\
    trace p2 = trace p1 ++ es /\
    Forall (fun e => exists ino, e = DS_OnInodes ino []) es.
Proof.
  intros Hco.
  destruct (broadcast_exact p Hco) as (p1 & Hrun1 & _ & Hsim & _ & Hclr).
  assert (Hco1 : registry_coherent p1).
  { eapply registry_coherent_similar; [|exact Hco]. by apply similar_weaken. }
  destruct (broadcast_exact p1 Hco1) as (p2 & Hrun2 & Htr2 & _).
  eexists p1, p2, _. split_and!; [done|done|done|].
  destruct Hsim as (_ & Hsds & Hheap). rewrite Hsds.
  apply Forall_forall. intros e ([l ft] & Hw & He)%elem_of_flat_map.
  unfold ftrace_events in He.
  destruct (heap p1 !! ft) as [ds1|] eqn:Hheap1;
    [|by apply not_elem_of_nil in He].
  destruct (started ds1) eqn:Hst1; cbn [negb] in He;
    [|by apply not_elem_of_nil in He].
  assert (Hmd : metadata ds1 = FtraceMetadata_empty).
  { pose proof (Hheap ft) as Hrel. rewrite Hheap1 in Hrel.
    inversion Hrel as [ds ? Hsame Hds|]; subst.
    destruct Hsame as (_ & _ & Hst & _).
    specialize (Hclr (l, ft) ds Hw (eq_sym Hds) ltac:(congruence)).
    cbn [snd] in Hclr. rewrite Hheap1 in Hclr. by injection Hclr as ->. }
  rewrite Hmd in He.
  apply elem_of_app in He as [He|He];
    apply elem_of_flat_map in He as (target & _ & He).
  - unfold process_stats_events in He.
    destruct (heap p1 !! target) as [target_ds|];
      [|by apply not_elem_of_nil in He].
    destruct (_ || _); by apply not_elem_of_nil in He.
  - unfold inode_file_events in He.
    destruct (heap p1 !! target) as [target_ds|];
      [|by apply not_elem_of_nil in He].
    destruct (negb _); [by apply not_elem_of_nil in He|].
    apply list_elem_of_singleton in He as ->. by exists target.
Qed.

Lemma ftrace_metadata_consumed_witness :
  exists p p1 p2 es,
    metadata_scenario = Ok p /\
    OnFtraceDataWrittenIntoDataSourceBuffers p = Ok p1 /\
    OnFtraceDataWrittenIntoDataSourceBuffers p1 = Ok p2 /\
    trace p1 =
      trace p ++ [DS_OnRenamePids 1%nat [100]; DS_OnPids 1%nat [100; 101];
                  DS_OnInodes 2%nat [(9, 42)]] /\
    trace p2 = trace p1 ++ es /\
    es = [DS_OnInodes 2%nat []] /\
    Forall (fun e => exists ino, e = DS_OnInodes ino []) es.
Proof.
  destruct metadata_batches as (p & q1 & q2 & Hp & Hco & H1 & H2 & Htr1 & Htr2).
  destruct (ftrace_metadata_consumed p Hco)
    as (p1 & p2 & es & Hrun1 & Hrun2 & Htr & Hall).
  exists p, p1, p2, es.
  rewrite H1 in Hrun1. injection Hrun1 as <-.
  rewrite H2 in Hrun2. injection Hrun2 as <-.
  split_and!; [exact Hp|exact H1|exact H2|exact Htr1|exact Htr| |exact Hall].
  rewrite Htr2 in Htr. by apply app_inv_head in Htr.
Defined.

(** *** Incremental state *)

(** X19.  [ClearIncrementalState] reaches exactly the instances among the
    requested ids that exist and are started, in the order of the
    request, and changes nothing in the producer. *)
Theorem ClearIncrementalState_started (p : ProbesProducer) (ids : list N) :
  owned_live p ->
  ClearIncrementalState p ids =
    Ok (emit ((fun t => DS_ClearIncrementalState t.2) <$> started_targets p ids) p).
Proof.
  intros Hlive. revert p Hlive.
  induction ids as [|id ids IH]; intros p Hlive.
  - cbn. by rewrite emit_nil.
  - rewrite started_targets_cons. cbn [ClearIncrementalState].
    destruct (data_sources_ p !! id) as [a|] eqn:Hid; [|by apply IH].
    destruct (Hlive _ _ Hid) as [ds Hds]. rewrite Hds.
    destruct (started ds); [|by apply IH].
    rewrite IH by done. by rewrite emit_emit.
Qed.

Lemma ClearIncrementalState_started_witness :
  let ds := set_started (new_data_source (fun _ => true) SysStatsDataSource 7
                           (example_config "linux.sys_stats" 7)) in
  let p := set_registry {[ 1%N := 0%nat ]} {[ 7%N := [(SysStatsDataSource, 0%nat)] ]}
             ∅ {[ 0%nat := ds ]} (ProbesProducer_new []) in
  ClearIncrementalState p [9; 1; 1]%N =
    Ok (emit [DS_ClearIncrementalState 0%nat; DS_ClearIncrementalState 0%nat] p).
Proof.
  intros ds p.
  assert (Hlive : owned_live p).
  { intros id a H. cbn in H. apply lookup_singleton_Some in H as [<- <-].
    by eexists. }
  exact (ClearIncrementalState_started p [9; 1; 1]%N Hlive).
Defined.

(** *** Registration *)

Lemma filter_unique {A} (P : A -> Prop) `{forall x, Decision (P x)}
    (l : list A) (x : A) :
  NoDup l -> x ∈ l -> (forall y, P y <-> y = x) -> filter P l = [x].
Proof.
  intros Hnd Hin HP. induction l as [|y l IH]; [by apply not_elem_of_nil in Hin|].
  apply NoDup_cons in Hnd as [Hy Hnd]. rewrite filter_cons.
  destruct (decide (P y)) as [Hpy|Hpy].
  - apply HP in Hpy as ->. f_equal.
    clear IH Hin. induction l as [|z l IH]; [done|].
    apply not_elem_of_cons in Hy as [Hne Hy]. apply NoDup_cons in Hnd as [_ Hnd].
    rewrite filter_cons. rewrite decide_False; [by apply IH|].
    intros Hz%HP. congruence.
  - apply elem_of_cons in Hin as [->|Hin]; [by destruct Hpy; apply HP|].
    by apply IH.
Qed.

Lemma NoDup_kAllDataSources : NoDup kAllDataSources.
Proof. apply (bool_decide_unpack _). by vm_compute. Qed.

Lemma elem_of_kAllDataSources (d : Descriptor) : d ∈ kAllDataSources.
Proof. destruct d; apply (bool_decide_unpack _); by vm_compute. Qed.

(** X20.  On connection the producer registers each of its twelve data
    sources, once and in the order of [kAllDataSources], and then syncs
    if a callback is waiting.  When the descriptors bear different names,
    whatever it registered can be set up by that name: the lookup of
    [SetupDataSource] finds the descriptor registered under it, and for
    every data source but ftrace a producer that has its endpoint creates
    an instance. *)
Theorem registered_sources_can_be_set_up (descriptor_name : Descriptor -> string)
    (dcheck_is_on : bool) (on_demand_dumps_of : DataSourceConfig -> bool)
    (to_BufferID : Z -> Z)
    (p p' : ProbesProducer) :
  (forall d1 d2, descriptor_name d1 = descriptor_name d2 -> d1 = d2) ->
  OnConnect descriptor_name dcheck_is_on p = Ok p' ->
  exists es,
    endpoint_ p' = true /\
    trace p' = trace p ++ es ++
               (if all_data_sources_registered_cb_ p then [Sync] else []) /\
    es = (fun d => RegisterDataSource d (descriptor_name d)) <$> kAllDataSources /\
    NoDup kAllDataSources /\
    (forall d, d ∈ kAllDataSources) /\
    forall d nm, RegisterDataSource d nm ∈ es ->
      find_data_source descriptor_name nm = Some d /\
      (d <> FtraceDataSource ->
       forall env q id config,
         name config = nm -> data_sources_ q !! id = None ->
         (0 < tracing_session_id config)%N ->
         endpoint_ q = true ->
         exists q',
           SetupDataSource descriptor_name dcheck_is_on on_demand_dumps_of to_BufferID
             env q id config = Ok q' /\
           data_sources_ q' !! id = Some (fresh (dom (heap q))) /\
           heap q' !! fresh (dom (heap q)) =
             Some (new_data_source on_demand_dumps_of d
                     (tracing_session_id config) config)).
Proof.
  intros Hinj. unfold OnConnect.
  destruct (DCHECK _ _ _) as [[]| |]; cbn [mbind outcome_bind]; [|done..].
  cbn [endpoint_ ResetConnectionBackoff set_connection].
  destruct (endpoint_ p) eqn:Hep; [|done]. cbn [deref mbind outcome_bind].
  intros [= <-].
  exists ((fun d => RegisterDataSource d (descriptor_name d)) <$> kAllDataSources).
  split_and!.
  - by destruct (all_data_sources_registered_cb_ _).
  - cbn [all_data_sources_registered_cb_ emit ResetConnectionBackoff set_connection].
    destruct (all_data_sources_registered_cb_ p);
      cbn [trace emit ResetConnectionBackoff set_connection];
      by rewrite <- ?app_assoc, ?app_nil_r.
  - done.
  - apply NoDup_kAllDataSources.
  - apply elem_of_kAllDataSources.
  - intros d nm (d' & [= -> ->] & _)%list_elem_of_fmap.
    assert (Hfind : find_data_source descriptor_name (descriptor_name d') = Some d').
    { unfold find_data_source.
      rewrite (filter_unique _ kAllDataSources d'); [done| | |].
      - apply NoDup_kAllDataSources.
      - apply elem_of_kAllDataSources.
      - intros d. split; [apply Hinj|by intros ->]. }
    split; [done|].
    intros Hd env q id config Hname Hfree Hsid Hq.
    apply (SetupDataSource_creates _ _ _ _ _ _ _ _ d'); try done.
    by rewrite Hname.
Qed.

Lemma registered_sources_can_be_set_up_witness :
  exists p0 p' q',
    ConnectWithRetries true true (ProbesProducer_new []) = Ok p0 /\
    OnConnect example_names true p0 = Ok p' /\
    length (trace p') = 13%nat /\
    find_data_source example_names "linux.sys_stats" = Some SysStatsDataSource /\
    SetupDataSource example_names true (fun _ => true) example_BufferID
      ftrace_works p' 1 (example_config "linux.sys_stats" 7) = Ok q' /\
    is_Some (data_sources_ q' !! 1%N).
Proof.
  destruct (ConnectWithRetries true true (ProbesProducer_new [])) as [p0| |] eqn:H0;
    try (vm_compute in H0; discriminate).
  destruct (OnConnect example_names true p0) as [p'| |] eqn:H1;
    try (vm_compute in H0; injection H0 as <-; vm_compute in H1; discriminate).
  assert (Hinj : forall d1 d2, example_names d1 = example_names d2 -> d1 = d2).
  { intros d1 d2. by destruct d1, d2. }
  destruct (registered_sources_can_be_set_up example_names true (fun _ => true)
              example_BufferID p0 p' Hinj H1)
    as (es & Hep & Htr & Hes & _ & _ & Hfind).
  assert (Hin : RegisterDataSource SysStatsDataSource "linux.sys_stats" ∈ es).
  { rewrite Hes. apply list_elem_of_fmap. exists SysStatsDataSource.
    split; [done|]. apply elem_of_kAllDataSources. }
  destruct (Hfind _ _ Hin) as [Hfound Hsetup].
  destruct (Hsetup ltac:(done) ftrace_works p' 1%N
              (example_config "linux.sys_stats" 7))
    as (q' & Hq' & Hid & _); [reflexivity| |reflexivity|exact Hep|].
  { vm_compute in H0. injection H0 as <-. vm_compute in H1. by injection H1 as <-. }
  exists p0, p', q'. split_and!; [done|done| |exact Hfound|exact Hq'|by eexists].
  rewrite Htr, Hes. vm_compute in H0. injection H0 as <-. reflexivity.
Defined.

End ProbesExtra.
